(** * energy-mcp-experimental: input validators and the device-state formatter

    A shallow embedding of

      - [tools/validators.py]: [validate_and_parse_date], [validate_datetime],
        [validate_vaillant_serial], [validate_and_parse_postcode];
      - [servers/vaillant.py]: [format_device_state], typed and on any
        object, [vaillant_get_state] and the guards of the other tools;
      - [servers/carbonintensity.py]: the forecast tools and the requests
        they make;

    followed by the properties the specification states about them (the
    specification calls the validators [parse_date], [parse_datetime] and
    [normalize_postcode], and the formatter [format_record]) and by
    properties of the code around them.

    Modelling conventions.

      - A Python [str] is a Rocq [string] holding its UTF-8 encoding.
        Comparing, joining and searching for an ASCII word work on the
        bytes as they do on the characters.  Where the postcode and serial
        validators count, classify or map characters ([len], the classes
        [\s] and [\d], [str.upper]) the text is decoded to code points and
        the interpreter's Unicode tables are consulted.  The name
        conversion of the formatter and the other length tests are
        modelled on ASCII text: there the case and whitespace predicates
        are Python's restricted to code points below 128, and bytes from
        128 up (the UTF-8 encoding of the degree sign, for instance) are
        carried unchanged.
      - A Python [int] is a [Z]; [bool] is a subclass of [int], which
        [isinstance_int_float] reflects.
      - A Python [float] is carried by the text [str()] prints for it: the
        code only tests its type and prints it.
      - A [dict] is an association list in insertion order; Python
        guarantees its keys are pairwise distinct, which the theorems that
        need it assume as [NoDup].
      - [result += ...] is explicit state passing on the [result] string;
        [for] loops are [fold_left]s over the items in iteration order. *)

From Stdlib Require Import List String Ascii NArith ZArith Bool Arith Lia.
From Stdlib Require Import DecimalString.
From Stdlib Require DecimalFacts DecimalPos.
Import ListNotations.
Set Warnings "-register-all".
Open Scope string_scope.

(* ================================================================== *)
(** * Part I: the embedding *)
(* ================================================================== *)

(** ** Python's [str] methods used by the sources *)
Module PyStr.

(** The line feed, written [\n] in the sources. *)
Definition LF : string := String (ascii_of_nat 10) EmptyString.

Definition between (lo hi : nat) (c : ascii) : bool :=
  (lo <=? nat_of_ascii c)%nat && (nat_of_ascii c <=? hi)%nat.

(** [c.isupper()], [c.islower()], [c.isdigit()] on one character. *)
Definition isupper (c : ascii) : bool := between 65 90 c.
Definition islower (c : ascii) : bool := between 97 122 c.
Definition isdigit (c : ascii) : bool := between 48 57 c.

(** [c.isspace()], also the class [\s] of [re]: tab, line feed, vertical
    tab, form feed, carriage return, the four separators 28-31, space. *)
Definition isspace (c : ascii) : bool :=
  between 9 13 c || between 28 32 c.

Definition lower_char (c : ascii) : ascii :=
  if isupper c then ascii_of_nat (nat_of_ascii c + 32) else c.
Definition upper_char (c : ascii) : ascii :=
  if islower c then ascii_of_nat (nat_of_ascii c - 32) else c.

Fixpoint map_chars (f : ascii -> ascii) (s : string) : string :=
  match s with
  | EmptyString => EmptyString
  | String c r => String (f c) (map_chars f r)
  end.

(** [s.lower()].  The sources call it only to look for the words
    "temperature" and "pressure" in a key: byte by byte on the ASCII
    letters is exact for that, since no character outside ASCII has a
    lower case that holds a letter of either word. *)
Definition lower : string -> string := map_chars lower_char.

(** [s.capitalize()]: first character upper-cased, the rest lower-cased. *)
Definition capitalize (s : string) : string :=
  match s with
  | EmptyString => EmptyString
  | String c r => String (upper_char c) (lower r)
  end.

Definition is_empty (s : string) : bool :=
  match s with EmptyString => true | _ => false end.

Fixpoint lstrip (s : string) : string :=
  match s with
  | EmptyString => EmptyString
  | String c r => if isspace c then lstrip r else s
  end.

Fixpoint rstrip (s : string) : string :=
  match s with
  | EmptyString => EmptyString
  | String c r =>
      let r' := rstrip r in
      if isspace c && is_empty r' then EmptyString else String c r'
  end.

(** [s.strip()]. *)
Definition strip (s : string) : string := rstrip (lstrip s).

(** [needle in hay]. *)
Fixpoint contains (needle hay : string) : bool :=
  String.prefix needle hay
  || match hay with
     | EmptyString => false
     | String _ r => contains needle r
     end.

(** [s.replace(old, new)] for a non-empty [old] (both call sites pass a
    literal): leftmost occurrences, not overlapping.  [skip] counts the
    characters of a matched occurrence still to be dropped. *)
Fixpoint replace_from (old new : string) (skip : nat) (s : string) : string :=
  match s with
  | EmptyString => EmptyString
  | String c r =>
      match skip with
      | S k => replace_from old new k r
      | O =>
          if String.prefix old s
          then new ++ replace_from old new (String.length old - 1) r
          else String c (replace_from old new 0 r)
      end
  end.

Definition replace (old new s : string) : string := replace_from old new 0 s.

(** [s[n:]] and [s[:n]]. *)
Fixpoint slice_from (n : nat) (s : string) : string :=
  match n, s with
  | O, _ => s
  | S k, String _ r => slice_from k r
  | S _, EmptyString => EmptyString
  end.

Fixpoint slice_to (n : nat) (s : string) : string :=
  match n, s with
  | S k, String c r => String c (slice_to k r)
  | _, _ => EmptyString
  end.

(** [sep.join(parts)]. *)
Fixpoint join (sep : string) (parts : list string) : string :=
  match parts with
  | [] => EmptyString
  | [p] => p
  | p :: rest => p ++ sep ++ join sep rest
  end.

(** [str(n)] for an [int]. *)
Definition str_int (n : Z) : string := NilZero.string_of_int (Z.to_int n).

End PyStr.

(** ** Text beyond ASCII

    A [str] is a sequence of code points, which the [string] of the model
    holds in UTF-8.  Where the sources count, classify or map characters
    (as opposed to comparing, joining or searching for ASCII words), the
    text is decoded first.  The three tables are those of the interpreter's
    Unicode database (version 14.0): the characters [str.isspace] and the
    class [\s] accept, the zero of every run of ten decimal digits the class
    [\d] accepts, and the characters [str.upper] changes, each with what it
    becomes. *)
Module Unicode.

Definition byte (b : ascii) : N := N_of_ascii b.

Definition whitespace : list N :=
  [0x9; 0xA; 0xB; 0xC; 0xD; 0x1C; 0x1D; 0x1E; 0x1F; 0x20;
   0x85; 0xA0; 0x1680; 0x2000; 0x2001; 0x2002; 0x2003; 0x2004; 0x2005; 0x2006;
   0x2007; 0x2008; 0x2009; 0x200A; 0x2028; 0x2029; 0x202F; 0x205F; 0x3000]%N.

Definition decimal_zeros : list N :=
  [0x30; 0x660; 0x6F0; 0x7C0; 0x966; 0x9E6; 0xA66; 0xAE6;
   0xB66; 0xBE6; 0xC66; 0xCE6; 0xD66; 0xDE6; 0xE50; 0xED0;
   0xF20; 0x1040; 0x1090; 0x17E0; 0x1810; 0x1946; 0x19D0; 0x1A80;
   0x1A90; 0x1B50; 0x1BB0; 0x1C40; 0x1C50; 0xA620; 0xA8D0; 0xA900;
   0xA9D0; 0xA9F0; 0xAA50; 0xABF0; 0xFF10; 0x104A0; 0x10D30; 0x11066;
   0x110F0; 0x11136; 0x111D0; 0x112F0; 0x11450; 0x114D0; 0x11650; 0x116C0;
   0x11730; 0x118E0; 0x11950; 0x11C50; 0x11D50; 0x11DA0; 0x16A60; 0x16AC0;
   0x16B50; 0x1D7CE; 0x1D7D8; 0x1D7E2; 0x1D7EC; 0x1D7F6; 0x1E140; 0x1E2F0;
   0x1E950; 0x1FBF0]%N.

Definition uppercase_1 : list (N * list N) :=
  [(0x61, [0x41]); (0x62, [0x42]); (0x63, [0x43]); (0x64, [0x44]); (0x65, [0x45]);
   (0x66, [0x46]); (0x67, [0x47]); (0x68, [0x48]); (0x69, [0x49]); (0x6A, [0x4A]);
   (0x6B, [0x4B]); (0x6C, [0x4C]); (0x6D, [0x4D]); (0x6E, [0x4E]); (0x6F, [0x4F]);
   (0x70, [0x50]); (0x71, [0x51]); (0x72, [0x52]); (0x73, [0x53]); (0x74, [0x54]);
   (0x75, [0x55]); (0x76, [0x56]); (0x77, [0x57]); (0x78, [0x58]); (0x79, [0x59]);
   (0x7A, [0x5A]); (0xB5, [0x39C]); (0xDF, [0x53; 0x53]); (0xE0, [0xC0]); (0xE1, [0xC1]);
   (0xE2, [0xC2]); (0xE3, [0xC3]); (0xE4, [0xC4]); (0xE5, [0xC5]); (0xE6, [0xC6]);
   (0xE7, [0xC7]); (0xE8, [0xC8]); (0xE9, [0xC9]); (0xEA, [0xCA]); (0xEB, [0xCB]);
   (0xEC, [0xCC]); (0xED, [0xCD]); (0xEE, [0xCE]); (0xEF, [0xCF]); (0xF0, [0xD0]);
   (0xF1, [0xD1]); (0xF2, [0xD2]); (0xF3, [0xD3]); (0xF4, [0xD4]); (0xF5, [0xD5]);
   (0xF6, [0xD6]); (0xF8, [0xD8]); (0xF9, [0xD9]); (0xFA, [0xDA]); (0xFB, [0xDB]);
   (0xFC, [0xDC]); (0xFD, [0xDD]); (0xFE, [0xDE]); (0xFF, [0x178]); (0x101, [0x100]);
   (0x103, [0x102]); (0x105, [0x104]); (0x107, [0x106]); (0x109, [0x108]); (0x10B, [0x10A]);
   (0x10D, [0x10C]); (0x10F, [0x10E]); (0x111, [0x110]); (0x113, [0x112]); (0x115, [0x114]);
   (0x117, [0x116]); (0x119, [0x118]); (0x11B, [0x11A]); (0x11D, [0x11C]); (0x11F, [0x11E]);
   (0x121, [0x120]); (0x123, [0x122]); (0x125, [0x124]); (0x127, [0x126]); (0x129, [0x128]);
   (0x12B, [0x12A]); (0x12D, [0x12C]); (0x12F, [0x12E]); (0x131, [0x49]); (0x133, [0x132]);
   (0x135, [0x134]); (0x137, [0x136]); (0x13A, [0x139]); (0x13C, [0x13B]); (0x13E, [0x13D]);
   (0x140, [0x13F]); (0x142, [0x141]); (0x144, [0x143]); (0x146, [0x145]); (0x148, [0x147]);
   (0x149, [0x2BC; 0x4E]); (0x14B, [0x14A]); (0x14D, [0x14C]); (0x14F, [0x14E]); (0x151, [0x150]);
   (0x153, [0x152]); (0x155, [0x154]); (0x157, [0x156]); (0x159, [0x158]); (0x15B, [0x15A]);
   (0x15D, [0x15C]); (0x15F, [0x15E]); (0x161, [0x160]); (0x163, [0x162]); (0x165, [0x164]);
   (0x167, [0x166]); (0x169, [0x168]); (0x16B, [0x16A]); (0x16D, [0x16C]); (0x16F, [0x16E]);
   (0x171, [0x170]); (0x173, [0x172]); (0x175, [0x174]); (0x177, [0x176]); (0x17A, [0x179]);
   (0x17C, [0x17B]); (0x17E, [0x17D]); (0x17F, [0x53]); (0x180, [0x243]); (0x183, [0x182]);
   (0x185, [0x184]); (0x188, [0x187]); (0x18C, [0x18B]); (0x192, [0x191]); (0x195, [0x1F6]);
   (0x199, [0x198]); (0x19A, [0x23D]); (0x19E, [0x220]); (0x1A1, [0x1A0]); (0x1A3, [0x1A2]);
   (0x1A5, [0x1A4]); (0x1A8, [0x1A7]); (0x1AD, [0x1AC]); (0x1B0, [0x1AF]); (0x1B4, [0x1B3]);
   (0x1B6, [0x1B5]); (0x1B9, [0x1B8]); (0x1BD, [0x1BC]); (0x1BF, [0x1F7]); (0x1C5, [0x1C4]);
   (0x1C6, [0x1C4]); (0x1C8, [0x1C7]); (0x1C9, [0x1C7]); (0x1CB, [0x1CA]); (0x1CC, [0x1CA]);
   (0x1CE, [0x1CD]); (0x1D0, [0x1CF]); (0x1D2, [0x1D1]); (0x1D4, [0x1D3]); (0x1D6, [0x1D5]);
   (0x1D8, [0x1D7]); (0x1DA, [0x1D9]); (0x1DC, [0x1DB]); (0x1DD, [0x18E]); (0x1DF, [0x1DE]);
   (0x1E1, [0x1E0]); (0x1E3, [0x1E2]); (0x1E5, [0x1E4]); (0x1E7, [0x1E6]); (0x1E9, [0x1E8]);
   (0x1EB, [0x1EA]); (0x1ED, [0x1EC]); (0x1EF, [0x1EE]); (0x1F0, [0x4A; 0x30C]); (0x1F2, [0x1F1]);
   (0x1F3, [0x1F1]); (0x1F5, [0x1F4]); (0x1F9, [0x1F8]); (0x1FB, [0x1FA]); (0x1FD, [0x1FC]);
   (0x1FF, [0x1FE]); (0x201, [0x200]); (0x203, [0x202]); (0x205, [0x204]); (0x207, [0x206]);
   (0x209, [0x208]); (0x20B, [0x20A]); (0x20D, [0x20C]); (0x20F, [0x20E]); (0x211, [0x210]);
   (0x213, [0x212]); (0x215, [0x214]); (0x217, [0x216]); (0x219, [0x218]); (0x21B, [0x21A]);
   (0x21D, [0x21C]); (0x21F, [0x21E]); (0x223, [0x222]); (0x225, [0x224]); (0x227, [0x226]);
   (0x229, [0x228]); (0x22B, [0x22A]); (0x22D, [0x22C]); (0x22F, [0x22E]); (0x231, [0x230]);
   (0x233, [0x232]); (0x23C, [0x23B]); (0x23F, [0x2C7E]); (0x240, [0x2C7F]); (0x242, [0x241]);
   (0x247, [0x246]); (0x249, [0x248]); (0x24B, [0x24A]); (0x24D, [0x24C]); (0x24F, [0x24E]);
   (0x250, [0x2C6F]); (0x251, [0x2C6D]); (0x252, [0x2C70]); (0x253, [0x181]); (0x254, [0x186]);
   (0x256, [0x189]); (0x257, [0x18A]); (0x259, [0x18F]); (0x25B, [0x190]); (0x25C, [0xA7AB]);
   (0x260, [0x193]); (0x261, [0xA7AC]); (0x263, [0x194]); (0x265, [0xA78D]); (0x266, [0xA7AA]);
   (0x268, [0x197]); (0x269, [0x196]); (0x26A, [0xA7AE]); (0x26B, [0x2C62]); (0x26C, [0xA7AD]);
   (0x26F, [0x19C]); (0x271, [0x2C6E]); (0x272, [0x19D]); (0x275, [0x19F]); (0x27D, [0x2C64]);
   (0x280, [0x1A6]); (0x282, [0xA7C5]); (0x283, [0x1A9]); (0x287, [0xA7B1]); (0x288, [0x1AE]);
   (0x289, [0x244]); (0x28A, [0x1B1]); (0x28B, [0x1B2]); (0x28C, [0x245]); (0x292, [0x1B7]);
   (0x29D, [0xA7B2]); (0x29E, [0xA7B0]); (0x345, [0x399]); (0x371, [0x370]); (0x373, [0x372])]%N.

Definition uppercase_2 : list (N * list N) :=
  [(0x377, [0x376]); (0x37B, [0x3FD]); (0x37C, [0x3FE]); (0x37D, [0x3FF]); (0x390, [0x399; 0x308; 0x301]);
   (0x3AC, [0x386]); (0x3AD, [0x388]); (0x3AE, [0x389]); (0x3AF, [0x38A]); (0x3B0, [0x3A5; 0x308; 0x301]);
   (0x3B1, [0x391]); (0x3B2, [0x392]); (0x3B3, [0x393]); (0x3B4, [0x394]); (0x3B5, [0x395]);
   (0x3B6, [0x396]); (0x3B7, [0x397]); (0x3B8, [0x398]); (0x3B9, [0x399]); (0x3BA, [0x39A]);
   (0x3BB, [0x39B]); (0x3BC, [0x39C]); (0x3BD, [0x39D]); (0x3BE, [0x39E]); (0x3BF, [0x39F]);
   (0x3C0, [0x3A0]); (0x3C1, [0x3A1]); (0x3C2, [0x3A3]); (0x3C3, [0x3A3]); (0x3C4, [0x3A4]);
   (0x3C5, [0x3A5]); (0x3C6, [0x3A6]); (0x3C7, [0x3A7]); (0x3C8, [0x3A8]); (0x3C9, [0x3A9]);
   (0x3CA, [0x3AA]); (0x3CB, [0x3AB]); (0x3CC, [0x38C]); (0x3CD, [0x38E]); (0x3CE, [0x38F]);
   (0x3D0, [0x392]); (0x3D1, [0x398]); (0x3D5, [0x3A6]); (0x3D6, [0x3A0]); (0x3D7, [0x3CF]);
   (0x3D9, [0x3D8]); (0x3DB, [0x3DA]); (0x3DD, [0x3DC]); (0x3DF, [0x3DE]); (0x3E1, [0x3E0]);
   (0x3E3, [0x3E2]); (0x3E5, [0x3E4]); (0x3E7, [0x3E6]); (0x3E9, [0x3E8]); (0x3EB, [0x3EA]);
   (0x3ED, [0x3EC]); (0x3EF, [0x3EE]); (0x3F0, [0x39A]); (0x3F1, [0x3A1]); (0x3F2, [0x3F9]);
   (0x3F3, [0x37F]); (0x3F5, [0x395]); (0x3F8, [0x3F7]); (0x3FB, [0x3FA]); (0x430, [0x410]);
   (0x431, [0x411]); (0x432, [0x412]); (0x433, [0x413]); (0x434, [0x414]); (0x435, [0x415]);
   (0x436, [0x416]); (0x437, [0x417]); (0x438, [0x418]); (0x439, [0x419]); (0x43A, [0x41A]);
   (0x43B, [0x41B]); (0x43C, [0x41C]); (0x43D, [0x41D]); (0x43E, [0x41E]); (0x43F, [0x41F]);
   (0x440, [0x420]); (0x441, [0x421]); (0x442, [0x422]); (0x443, [0x423]); (0x444, [0x424]);
   (0x445, [0x425]); (0x446, [0x426]); (0x447, [0x427]); (0x448, [0x428]); (0x449, [0x429]);
   (0x44A, [0x42A]); (0x44B, [0x42B]); (0x44C, [0x42C]); (0x44D, [0x42D]); (0x44E, [0x42E]);
   (0x44F, [0x42F]); (0x450, [0x400]); (0x451, [0x401]); (0x452, [0x402]); (0x453, [0x403]);
   (0x454, [0x404]); (0x455, [0x405]); (0x456, [0x406]); (0x457, [0x407]); (0x458, [0x408]);
   (0x459, [0x409]); (0x45A, [0x40A]); (0x45B, [0x40B]); (0x45C, [0x40C]); (0x45D, [0x40D]);
   (0x45E, [0x40E]); (0x45F, [0x40F]); (0x461, [0x460]); (0x463, [0x462]); (0x465, [0x464]);
   (0x467, [0x466]); (0x469, [0x468]); (0x46B, [0x46A]); (0x46D, [0x46C]); (0x46F, [0x46E]);
   (0x471, [0x470]); (0x473, [0x472]); (0x475, [0x474]); (0x477, [0x476]); (0x479, [0x478]);
   (0x47B, [0x47A]); (0x47D, [0x47C]); (0x47F, [0x47E]); (0x481, [0x480]); (0x48B, [0x48A]);
   (0x48D, [0x48C]); (0x48F, [0x48E]); (0x491, [0x490]); (0x493, [0x492]); (0x495, [0x494]);
   (0x497, [0x496]); (0x499, [0x498]); (0x49B, [0x49A]); (0x49D, [0x49C]); (0x49F, [0x49E]);
   (0x4A1, [0x4A0]); (0x4A3, [0x4A2]); (0x4A5, [0x4A4]); (0x4A7, [0x4A6]); (0x4A9, [0x4A8]);
   (0x4AB, [0x4AA]); (0x4AD, [0x4AC]); (0x4AF, [0x4AE]); (0x4B1, [0x4B0]); (0x4B3, [0x4B2]);
   (0x4B5, [0x4B4]); (0x4B7, [0x4B6]); (0x4B9, [0x4B8]); (0x4BB, [0x4BA]); (0x4BD, [0x4BC]);
   (0x4BF, [0x4BE]); (0x4C2, [0x4C1]); (0x4C4, [0x4C3]); (0x4C6, [0x4C5]); (0x4C8, [0x4C7]);
   (0x4CA, [0x4C9]); (0x4CC, [0x4CB]); (0x4CE, [0x4CD]); (0x4CF, [0x4C0]); (0x4D1, [0x4D0]);
   (0x4D3, [0x4D2]); (0x4D5, [0x4D4]); (0x4D7, [0x4D6]); (0x4D9, [0x4D8]); (0x4DB, [0x4DA]);
   (0x4DD, [0x4DC]); (0x4DF, [0x4DE]); (0x4E1, [0x4E0]); (0x4E3, [0x4E2]); (0x4E5, [0x4E4]);
   (0x4E7, [0x4E6]); (0x4E9, [0x4E8]); (0x4EB, [0x4EA]); (0x4ED, [0x4EC]); (0x4EF, [0x4EE]);
   (0x4F1, [0x4F0]); (0x4F3, [0x4F2]); (0x4F5, [0x4F4]); (0x4F7, [0x4F6]); (0x4F9, [0x4F8]);
   (0x4FB, [0x4FA]); (0x4FD, [0x4FC]); (0x4FF, [0x4FE]); (0x501, [0x500]); (0x503, [0x502]);
   (0x505, [0x504]); (0x507, [0x506]); (0x509, [0x508]); (0x50B, [0x50A]); (0x50D, [0x50C]);
   (0x50F, [0x50E]); (0x511, [0x510]); (0x513, [0x512]); (0x515, [0x514]); (0x517, [0x516]);
   (0x519, [0x518]); (0x51B, [0x51A]); (0x51D, [0x51C]); (0x51F, [0x51E]); (0x521, [0x520]);
   (0x523, [0x522]); (0x525, [0x524]); (0x527, [0x526]); (0x529, [0x528]); (0x52B, [0x52A]);
   (0x52D, [0x52C]); (0x52F, [0x52E]); (0x561, [0x531]); (0x562, [0x532]); (0x563, [0x533]);
   (0x564, [0x534]); (0x565, [0x535]); (0x566, [0x536]); (0x567, [0x537]); (0x568, [0x538]);
   (0x569, [0x539]); (0x56A, [0x53A]); (0x56B, [0x53B]); (0x56C, [0x53C]); (0x56D, [0x53D]);
   (0x56E, [0x53E]); (0x56F, [0x53F]); (0x570, [0x540]); (0x571, [0x541]); (0x572, [0x542]);
   (0x573, [0x543]); (0x574, [0x544]); (0x575, [0x545]); (0x576, [0x546]); (0x577, [0x547]);
   (0x578, [0x548]); (0x579, [0x549]); (0x57A, [0x54A]); (0x57B, [0x54B]); (0x57C, [0x54C]);
   (0x57D, [0x54D]); (0x57E, [0x54E]); (0x57F, [0x54F]); (0x580, [0x550]); (0x581, [0x551]);
   (0x582, [0x552]); (0x583, [0x553]); (0x584, [0x554]); (0x585, [0x555]); (0x586, [0x556])]%N.

Definition uppercase_3 : list (N * list N) :=
  [(0x587, [0x535; 0x552]); (0x10D0, [0x1C90]); (0x10D1, [0x1C91]); (0x10D2, [0x1C92]); (0x10D3, [0x1C93]);
   (0x10D4, [0x1C94]); (0x10D5, [0x1C95]); (0x10D6, [0x1C96]); (0x10D7, [0x1C97]); (0x10D8, [0x1C98]);
   (0x10D9, [0x1C99]); (0x10DA, [0x1C9A]); (0x10DB, [0x1C9B]); (0x10DC, [0x1C9C]); (0x10DD, [0x1C9D]);
   (0x10DE, [0x1C9E]); (0x10DF, [0x1C9F]); (0x10E0, [0x1CA0]); (0x10E1, [0x1CA1]); (0x10E2, [0x1CA2]);
   (0x10E3, [0x1CA3]); (0x10E4, [0x1CA4]); (0x10E5, [0x1CA5]); (0x10E6, [0x1CA6]); (0x10E7, [0x1CA7]);
   (0x10E8, [0x1CA8]); (0x10E9, [0x1CA9]); (0x10EA, [0x1CAA]); (0x10EB, [0x1CAB]); (0x10EC, [0x1CAC]);
   (0x10ED, [0x1CAD]); (0x10EE, [0x1CAE]); (0x10EF, [0x1CAF]); (0x10F0, [0x1CB0]); (0x10F1, [0x1CB1]);
   (0x10F2, [0x1CB2]); (0x10F3, [0x1CB3]); (0x10F4, [0x1CB4]); (0x10F5, [0x1CB5]); (0x10F6, [0x1CB6]);
   (0x10F7, [0x1CB7]); (0x10F8, [0x1CB8]); (0x10F9, [0x1CB9]); (0x10FA, [0x1CBA]); (0x10FD, [0x1CBD]);
   (0x10FE, [0x1CBE]); (0x10FF, [0x1CBF]); (0x13F8, [0x13F0]); (0x13F9, [0x13F1]); (0x13FA, [0x13F2]);
   (0x13FB, [0x13F3]); (0x13FC, [0x13F4]); (0x13FD, [0x13F5]); (0x1C80, [0x412]); (0x1C81, [0x414]);
   (0x1C82, [0x41E]); (0x1C83, [0x421]); (0x1C84, [0x422]); (0x1C85, [0x422]); (0x1C86, [0x42A]);
   (0x1C87, [0x462]); (0x1C88, [0xA64A]); (0x1D79, [0xA77D]); (0x1D7D, [0x2C63]); (0x1D8E, [0xA7C6]);
   (0x1E01, [0x1E00]); (0x1E03, [0x1E02]); (0x1E05, [0x1E04]); (0x1E07, [0x1E06]); (0x1E09, [0x1E08]);
   (0x1E0B, [0x1E0A]); (0x1E0D, [0x1E0C]); (0x1E0F, [0x1E0E]); (0x1E11, [0x1E10]); (0x1E13, [0x1E12]);
   (0x1E15, [0x1E14]); (0x1E17, [0x1E16]); (0x1E19, [0x1E18]); (0x1E1B, [0x1E1A]); (0x1E1D, [0x1E1C]);
   (0x1E1F, [0x1E1E]); (0x1E21, [0x1E20]); (0x1E23, [0x1E22]); (0x1E25, [0x1E24]); (0x1E27, [0x1E26]);
   (0x1E29, [0x1E28]); (0x1E2B, [0x1E2A]); (0x1E2D, [0x1E2C]); (0x1E2F, [0x1E2E]); (0x1E31, [0x1E30]);
   (0x1E33, [0x1E32]); (0x1E35, [0x1E34]); (0x1E37, [0x1E36]); (0x1E39, [0x1E38]); (0x1E3B, [0x1E3A]);
   (0x1E3D, [0x1E3C]); (0x1E3F, [0x1E3E]); (0x1E41, [0x1E40]); (0x1E43, [0x1E42]); (0x1E45, [0x1E44]);
   (0x1E47, [0x1E46]); (0x1E49, [0x1E48]); (0x1E4B, [0x1E4A]); (0x1E4D, [0x1E4C]); (0x1E4F, [0x1E4E]);
   (0x1E51, [0x1E50]); (0x1E53, [0x1E52]); (0x1E55, [0x1E54]); (0x1E57, [0x1E56]); (0x1E59, [0x1E58]);
   (0x1E5B, [0x1E5A]); (0x1E5D, [0x1E5C]); (0x1E5F, [0x1E5E]); (0x1E61, [0x1E60]); (0x1E63, [0x1E62]);
   (0x1E65, [0x1E64]); (0x1E67, [0x1E66]); (0x1E69, [0x1E68]); (0x1E6B, [0x1E6A]); (0x1E6D, [0x1E6C]);
   (0x1E6F, [0x1E6E]); (0x1E71, [0x1E70]); (0x1E73, [0x1E72]); (0x1E75, [0x1E74]); (0x1E77, [0x1E76]);
   (0x1E79, [0x1E78]); (0x1E7B, [0x1E7A]); (0x1E7D, [0x1E7C]); (0x1E7F, [0x1E7E]); (0x1E81, [0x1E80]);
   (0x1E83, [0x1E82]); (0x1E85, [0x1E84]); (0x1E87, [0x1E86]); (0x1E89, [0x1E88]); (0x1E8B, [0x1E8A]);
   (0x1E8D, [0x1E8C]); (0x1E8F, [0x1E8E]); (0x1E91, [0x1E90]); (0x1E93, [0x1E92]); (0x1E95, [0x1E94]);
   (0x1E96, [0x48; 0x331]); (0x1E97, [0x54; 0x308]); (0x1E98, [0x57; 0x30A]); (0x1E99, [0x59; 0x30A]); (0x1E9A, [0x41; 0x2BE]);
   (0x1E9B, [0x1E60]); (0x1EA1, [0x1EA0]); (0x1EA3, [0x1EA2]); (0x1EA5, [0x1EA4]); (0x1EA7, [0x1EA6]);
   (0x1EA9, [0x1EA8]); (0x1EAB, [0x1EAA]); (0x1EAD, [0x1EAC]); (0x1EAF, [0x1EAE]); (0x1EB1, [0x1EB0]);
   (0x1EB3, [0x1EB2]); (0x1EB5, [0x1EB4]); (0x1EB7, [0x1EB6]); (0x1EB9, [0x1EB8]); (0x1EBB, [0x1EBA]);
   (0x1EBD, [0x1EBC]); (0x1EBF, [0x1EBE]); (0x1EC1, [0x1EC0]); (0x1EC3, [0x1EC2]); (0x1EC5, [0x1EC4]);
   (0x1EC7, [0x1EC6]); (0x1EC9, [0x1EC8]); (0x1ECB, [0x1ECA]); (0x1ECD, [0x1ECC]); (0x1ECF, [0x1ECE]);
   (0x1ED1, [0x1ED0]); (0x1ED3, [0x1ED2]); (0x1ED5, [0x1ED4]); (0x1ED7, [0x1ED6]); (0x1ED9, [0x1ED8]);
   (0x1EDB, [0x1EDA]); (0x1EDD, [0x1EDC]); (0x1EDF, [0x1EDE]); (0x1EE1, [0x1EE0]); (0x1EE3, [0x1EE2]);
   (0x1EE5, [0x1EE4]); (0x1EE7, [0x1EE6]); (0x1EE9, [0x1EE8]); (0x1EEB, [0x1EEA]); (0x1EED, [0x1EEC]);
   (0x1EEF, [0x1EEE]); (0x1EF1, [0x1EF0]); (0x1EF3, [0x1EF2]); (0x1EF5, [0x1EF4]); (0x1EF7, [0x1EF6]);
   (0x1EF9, [0x1EF8]); (0x1EFB, [0x1EFA]); (0x1EFD, [0x1EFC]); (0x1EFF, [0x1EFE]); (0x1F00, [0x1F08]);
   (0x1F01, [0x1F09]); (0x1F02, [0x1F0A]); (0x1F03, [0x1F0B]); (0x1F04, [0x1F0C]); (0x1F05, [0x1F0D]);
   (0x1F06, [0x1F0E]); (0x1F07, [0x1F0F]); (0x1F10, [0x1F18]); (0x1F11, [0x1F19]); (0x1F12, [0x1F1A]);
   (0x1F13, [0x1F1B]); (0x1F14, [0x1F1C]); (0x1F15, [0x1F1D]); (0x1F20, [0x1F28]); (0x1F21, [0x1F29]);
   (0x1F22, [0x1F2A]); (0x1F23, [0x1F2B]); (0x1F24, [0x1F2C]); (0x1F25, [0x1F2D]); (0x1F26, [0x1F2E]);
   (0x1F27, [0x1F2F]); (0x1F30, [0x1F38]); (0x1F31, [0x1F39]); (0x1F32, [0x1F3A]); (0x1F33, [0x1F3B]);
   (0x1F34, [0x1F3C]); (0x1F35, [0x1F3D]); (0x1F36, [0x1F3E]); (0x1F37, [0x1F3F]); (0x1F40, [0x1F48]);
   (0x1F41, [0x1F49]); (0x1F42, [0x1F4A]); (0x1F43, [0x1F4B]); (0x1F44, [0x1F4C]); (0x1F45, [0x1F4D]);
   (0x1F50, [0x3A5; 0x313]); (0x1F51, [0x1F59]); (0x1F52, [0x3A5; 0x313; 0x300]); (0x1F53, [0x1F5B]); (0x1F54, [0x3A5; 0x313; 0x301]);
   (0x1F55, [0x1F5D]); (0x1F56, [0x3A5; 0x313; 0x342]); (0x1F57, [0x1F5F]); (0x1F60, [0x1F68]); (0x1F61, [0x1F69]);
   (0x1F62, [0x1F6A]); (0x1F63, [0x1F6B]); (0x1F64, [0x1F6C]); (0x1F65, [0x1F6D]); (0x1F66, [0x1F6E]);
   (0x1F67, [0x1F6F]); (0x1F70, [0x1FBA]); (0x1F71, [0x1FBB]); (0x1F72, [0x1FC8]); (0x1F73, [0x1FC9])]%N.

Definition uppercase_4 : list (N * list N) :=
  [(0x1F74, [0x1FCA]); (0x1F75, [0x1FCB]); (0x1F76, [0x1FDA]); (0x1F77, [0x1FDB]); (0x1F78, [0x1FF8]);
   (0x1F79, [0x1FF9]); (0x1F7A, [0x1FEA]); (0x1F7B, [0x1FEB]); (0x1F7C, [0x1FFA]); (0x1F7D, [0x1FFB]);
   (0x1F80, [0x1F08; 0x399]); (0x1F81, [0x1F09; 0x399]); (0x1F82, [0x1F0A; 0x399]); (0x1F83, [0x1F0B; 0x399]); (0x1F84, [0x1F0C; 0x399]);
   (0x1F85, [0x1F0D; 0x399]); (0x1F86, [0x1F0E; 0x399]); (0x1F87, [0x1F0F; 0x399]); (0x1F88, [0x1F08; 0x399]); (0x1F89, [0x1F09; 0x399]);
   (0x1F8A, [0x1F0A; 0x399]); (0x1F8B, [0x1F0B; 0x399]); (0x1F8C, [0x1F0C; 0x399]); (0x1F8D, [0x1F0D; 0x399]); (0x1F8E, [0x1F0E; 0x399]);
   (0x1F8F, [0x1F0F; 0x399]); (0x1F90, [0x1F28; 0x399]); (0x1F91, [0x1F29; 0x399]); (0x1F92, [0x1F2A; 0x399]); (0x1F93, [0x1F2B; 0x399]);
   (0x1F94, [0x1F2C; 0x399]); (0x1F95, [0x1F2D; 0x399]); (0x1F96, [0x1F2E; 0x399]); (0x1F97, [0x1F2F; 0x399]); (0x1F98, [0x1F28; 0x399]);
   (0x1F99, [0x1F29; 0x399]); (0x1F9A, [0x1F2A; 0x399]); (0x1F9B, [0x1F2B; 0x399]); (0x1F9C, [0x1F2C; 0x399]); (0x1F9D, [0x1F2D; 0x399]);
   (0x1F9E, [0x1F2E; 0x399]); (0x1F9F, [0x1F2F; 0x399]); (0x1FA0, [0x1F68; 0x399]); (0x1FA1, [0x1F69; 0x399]); (0x1FA2, [0x1F6A; 0x399]);
   (0x1FA3, [0x1F6B; 0x399]); (0x1FA4, [0x1F6C; 0x399]); (0x1FA5, [0x1F6D; 0x399]); (0x1FA6, [0x1F6E; 0x399]); (0x1FA7, [0x1F6F; 0x399]);
   (0x1FA8, [0x1F68; 0x399]); (0x1FA9, [0x1F69; 0x399]); (0x1FAA, [0x1F6A; 0x399]); (0x1FAB, [0x1F6B; 0x399]); (0x1FAC, [0x1F6C; 0x399]);
   (0x1FAD, [0x1F6D; 0x399]); (0x1FAE, [0x1F6E; 0x399]); (0x1FAF, [0x1F6F; 0x399]); (0x1FB0, [0x1FB8]); (0x1FB1, [0x1FB9]);
   (0x1FB2, [0x1FBA; 0x399]); (0x1FB3, [0x391; 0x399]); (0x1FB4, [0x386; 0x399]); (0x1FB6, [0x391; 0x342]); (0x1FB7, [0x391; 0x342; 0x399]);
   (0x1FBC, [0x391; 0x399]); (0x1FBE, [0x399]); (0x1FC2, [0x1FCA; 0x399]); (0x1FC3, [0x397; 0x399]); (0x1FC4, [0x389; 0x399]);
   (0x1FC6, [0x397; 0x342]); (0x1FC7, [0x397; 0x342; 0x399]); (0x1FCC, [0x397; 0x399]); (0x1FD0, [0x1FD8]); (0x1FD1, [0x1FD9]);
   (0x1FD2, [0x399; 0x308; 0x300]); (0x1FD3, [0x399; 0x308; 0x301]); (0x1FD6, [0x399; 0x342]); (0x1FD7, [0x399; 0x308; 0x342]); (0x1FE0, [0x1FE8]);
   (0x1FE1, [0x1FE9]); (0x1FE2, [0x3A5; 0x308; 0x300]); (0x1FE3, [0x3A5; 0x308; 0x301]); (0x1FE4, [0x3A1; 0x313]); (0x1FE5, [0x1FEC]);
   (0x1FE6, [0x3A5; 0x342]); (0x1FE7, [0x3A5; 0x308; 0x342]); (0x1FF2, [0x1FFA; 0x399]); (0x1FF3, [0x3A9; 0x399]); (0x1FF4, [0x38F; 0x399]);
   (0x1FF6, [0x3A9; 0x342]); (0x1FF7, [0x3A9; 0x342; 0x399]); (0x1FFC, [0x3A9; 0x399]); (0x214E, [0x2132]); (0x2170, [0x2160]);
   (0x2171, [0x2161]); (0x2172, [0x2162]); (0x2173, [0x2163]); (0x2174, [0x2164]); (0x2175, [0x2165]);
   (0x2176, [0x2166]); (0x2177, [0x2167]); (0x2178, [0x2168]); (0x2179, [0x2169]); (0x217A, [0x216A]);
   (0x217B, [0x216B]); (0x217C, [0x216C]); (0x217D, [0x216D]); (0x217E, [0x216E]); (0x217F, [0x216F]);
   (0x2184, [0x2183]); (0x24D0, [0x24B6]); (0x24D1, [0x24B7]); (0x24D2, [0x24B8]); (0x24D3, [0x24B9]);
   (0x24D4, [0x24BA]); (0x24D5, [0x24BB]); (0x24D6, [0x24BC]); (0x24D7, [0x24BD]); (0x24D8, [0x24BE]);
   (0x24D9, [0x24BF]); (0x24DA, [0x24C0]); (0x24DB, [0x24C1]); (0x24DC, [0x24C2]); (0x24DD, [0x24C3]);
   (0x24DE, [0x24C4]); (0x24DF, [0x24C5]); (0x24E0, [0x24C6]); (0x24E1, [0x24C7]); (0x24E2, [0x24C8]);
   (0x24E3, [0x24C9]); (0x24E4, [0x24CA]); (0x24E5, [0x24CB]); (0x24E6, [0x24CC]); (0x24E7, [0x24CD]);
   (0x24E8, [0x24CE]); (0x24E9, [0x24CF]); (0x2C30, [0x2C00]); (0x2C31, [0x2C01]); (0x2C32, [0x2C02]);
   (0x2C33, [0x2C03]); (0x2C34, [0x2C04]); (0x2C35, [0x2C05]); (0x2C36, [0x2C06]); (0x2C37, [0x2C07]);
   (0x2C38, [0x2C08]); (0x2C39, [0x2C09]); (0x2C3A, [0x2C0A]); (0x2C3B, [0x2C0B]); (0x2C3C, [0x2C0C]);
   (0x2C3D, [0x2C0D]); (0x2C3E, [0x2C0E]); (0x2C3F, [0x2C0F]); (0x2C40, [0x2C10]); (0x2C41, [0x2C11]);
   (0x2C42, [0x2C12]); (0x2C43, [0x2C13]); (0x2C44, [0x2C14]); (0x2C45, [0x2C15]); (0x2C46, [0x2C16]);
   (0x2C47, [0x2C17]); (0x2C48, [0x2C18]); (0x2C49, [0x2C19]); (0x2C4A, [0x2C1A]); (0x2C4B, [0x2C1B]);
   (0x2C4C, [0x2C1C]); (0x2C4D, [0x2C1D]); (0x2C4E, [0x2C1E]); (0x2C4F, [0x2C1F]); (0x2C50, [0x2C20]);
   (0x2C51, [0x2C21]); (0x2C52, [0x2C22]); (0x2C53, [0x2C23]); (0x2C54, [0x2C24]); (0x2C55, [0x2C25]);
   (0x2C56, [0x2C26]); (0x2C57, [0x2C27]); (0x2C58, [0x2C28]); (0x2C59, [0x2C29]); (0x2C5A, [0x2C2A]);
   (0x2C5B, [0x2C2B]); (0x2C5C, [0x2C2C]); (0x2C5D, [0x2C2D]); (0x2C5E, [0x2C2E]); (0x2C5F, [0x2C2F]);
   (0x2C61, [0x2C60]); (0x2C65, [0x23A]); (0x2C66, [0x23E]); (0x2C68, [0x2C67]); (0x2C6A, [0x2C69]);
   (0x2C6C, [0x2C6B]); (0x2C73, [0x2C72]); (0x2C76, [0x2C75]); (0x2C81, [0x2C80]); (0x2C83, [0x2C82]);
   (0x2C85, [0x2C84]); (0x2C87, [0x2C86]); (0x2C89, [0x2C88]); (0x2C8B, [0x2C8A]); (0x2C8D, [0x2C8C]);
   (0x2C8F, [0x2C8E]); (0x2C91, [0x2C90]); (0x2C93, [0x2C92]); (0x2C95, [0x2C94]); (0x2C97, [0x2C96]);
   (0x2C99, [0x2C98]); (0x2C9B, [0x2C9A]); (0x2C9D, [0x2C9C]); (0x2C9F, [0x2C9E]); (0x2CA1, [0x2CA0]);
   (0x2CA3, [0x2CA2]); (0x2CA5, [0x2CA4]); (0x2CA7, [0x2CA6]); (0x2CA9, [0x2CA8]); (0x2CAB, [0x2CAA]);
   (0x2CAD, [0x2CAC]); (0x2CAF, [0x2CAE]); (0x2CB1, [0x2CB0]); (0x2CB3, [0x2CB2]); (0x2CB5, [0x2CB4]);
   (0x2CB7, [0x2CB6]); (0x2CB9, [0x2CB8]); (0x2CBB, [0x2CBA]); (0x2CBD, [0x2CBC]); (0x2CBF, [0x2CBE]);
   (0x2CC1, [0x2CC0]); (0x2CC3, [0x2CC2]); (0x2CC5, [0x2CC4]); (0x2CC7, [0x2CC6]); (0x2CC9, [0x2CC8]);
   (0x2CCB, [0x2CCA]); (0x2CCD, [0x2CCC]); (0x2CCF, [0x2CCE]); (0x2CD1, [0x2CD0]); (0x2CD3, [0x2CD2]);
   (0x2CD5, [0x2CD4]); (0x2CD7, [0x2CD6]); (0x2CD9, [0x2CD8]); (0x2CDB, [0x2CDA]); (0x2CDD, [0x2CDC]);
   (0x2CDF, [0x2CDE]); (0x2CE1, [0x2CE0]); (0x2CE3, [0x2CE2]); (0x2CEC, [0x2CEB]); (0x2CEE, [0x2CED]);
   (0x2CF3, [0x2CF2]); (0x2D00, [0x10A0]); (0x2D01, [0x10A1]); (0x2D02, [0x10A2]); (0x2D03, [0x10A3])]%N.

Definition uppercase_5 : list (N * list N) :=
  [(0x2D04, [0x10A4]); (0x2D05, [0x10A5]); (0x2D06, [0x10A6]); (0x2D07, [0x10A7]); (0x2D08, [0x10A8]);
   (0x2D09, [0x10A9]); (0x2D0A, [0x10AA]); (0x2D0B, [0x10AB]); (0x2D0C, [0x10AC]); (0x2D0D, [0x10AD]);
   (0x2D0E, [0x10AE]); (0x2D0F, [0x10AF]); (0x2D10, [0x10B0]); (0x2D11, [0x10B1]); (0x2D12, [0x10B2]);
   (0x2D13, [0x10B3]); (0x2D14, [0x10B4]); (0x2D15, [0x10B5]); (0x2D16, [0x10B6]); (0x2D17, [0x10B7]);
   (0x2D18, [0x10B8]); (0x2D19, [0x10B9]); (0x2D1A, [0x10BA]); (0x2D1B, [0x10BB]); (0x2D1C, [0x10BC]);
   (0x2D1D, [0x10BD]); (0x2D1E, [0x10BE]); (0x2D1F, [0x10BF]); (0x2D20, [0x10C0]); (0x2D21, [0x10C1]);
   (0x2D22, [0x10C2]); (0x2D23, [0x10C3]); (0x2D24, [0x10C4]); (0x2D25, [0x10C5]); (0x2D27, [0x10C7]);
   (0x2D2D, [0x10CD]); (0xA641, [0xA640]); (0xA643, [0xA642]); (0xA645, [0xA644]); (0xA647, [0xA646]);
   (0xA649, [0xA648]); (0xA64B, [0xA64A]); (0xA64D, [0xA64C]); (0xA64F, [0xA64E]); (0xA651, [0xA650]);
   (0xA653, [0xA652]); (0xA655, [0xA654]); (0xA657, [0xA656]); (0xA659, [0xA658]); (0xA65B, [0xA65A]);
   (0xA65D, [0xA65C]); (0xA65F, [0xA65E]); (0xA661, [0xA660]); (0xA663, [0xA662]); (0xA665, [0xA664]);
   (0xA667, [0xA666]); (0xA669, [0xA668]); (0xA66B, [0xA66A]); (0xA66D, [0xA66C]); (0xA681, [0xA680]);
   (0xA683, [0xA682]); (0xA685, [0xA684]); (0xA687, [0xA686]); (0xA689, [0xA688]); (0xA68B, [0xA68A]);
   (0xA68D, [0xA68C]); (0xA68F, [0xA68E]); (0xA691, [0xA690]); (0xA693, [0xA692]); (0xA695, [0xA694]);
   (0xA697, [0xA696]); (0xA699, [0xA698]); (0xA69B, [0xA69A]); (0xA723, [0xA722]); (0xA725, [0xA724]);
   (0xA727, [0xA726]); (0xA729, [0xA728]); (0xA72B, [0xA72A]); (0xA72D, [0xA72C]); (0xA72F, [0xA72E]);
   (0xA733, [0xA732]); (0xA735, [0xA734]); (0xA737, [0xA736]); (0xA739, [0xA738]); (0xA73B, [0xA73A]);
   (0xA73D, [0xA73C]); (0xA73F, [0xA73E]); (0xA741, [0xA740]); (0xA743, [0xA742]); (0xA745, [0xA744]);
   (0xA747, [0xA746]); (0xA749, [0xA748]); (0xA74B, [0xA74A]); (0xA74D, [0xA74C]); (0xA74F, [0xA74E]);
   (0xA751, [0xA750]); (0xA753, [0xA752]); (0xA755, [0xA754]); (0xA757, [0xA756]); (0xA759, [0xA758]);
   (0xA75B, [0xA75A]); (0xA75D, [0xA75C]); (0xA75F, [0xA75E]); (0xA761, [0xA760]); (0xA763, [0xA762]);
   (0xA765, [0xA764]); (0xA767, [0xA766]); (0xA769, [0xA768]); (0xA76B, [0xA76A]); (0xA76D, [0xA76C]);
   (0xA76F, [0xA76E]); (0xA77A, [0xA779]); (0xA77C, [0xA77B]); (0xA77F, [0xA77E]); (0xA781, [0xA780]);
   (0xA783, [0xA782]); (0xA785, [0xA784]); (0xA787, [0xA786]); (0xA78C, [0xA78B]); (0xA791, [0xA790]);
   (0xA793, [0xA792]); (0xA794, [0xA7C4]); (0xA797, [0xA796]); (0xA799, [0xA798]); (0xA79B, [0xA79A]);
   (0xA79D, [0xA79C]); (0xA79F, [0xA79E]); (0xA7A1, [0xA7A0]); (0xA7A3, [0xA7A2]); (0xA7A5, [0xA7A4]);
   (0xA7A7, [0xA7A6]); (0xA7A9, [0xA7A8]); (0xA7B5, [0xA7B4]); (0xA7B7, [0xA7B6]); (0xA7B9, [0xA7B8]);
   (0xA7BB, [0xA7BA]); (0xA7BD, [0xA7BC]); (0xA7BF, [0xA7BE]); (0xA7C1, [0xA7C0]); (0xA7C3, [0xA7C2]);
   (0xA7C8, [0xA7C7]); (0xA7CA, [0xA7C9]); (0xA7D1, [0xA7D0]); (0xA7D7, [0xA7D6]); (0xA7D9, [0xA7D8]);
   (0xA7F6, [0xA7F5]); (0xAB53, [0xA7B3]); (0xAB70, [0x13A0]); (0xAB71, [0x13A1]); (0xAB72, [0x13A2]);
   (0xAB73, [0x13A3]); (0xAB74, [0x13A4]); (0xAB75, [0x13A5]); (0xAB76, [0x13A6]); (0xAB77, [0x13A7]);
   (0xAB78, [0x13A8]); (0xAB79, [0x13A9]); (0xAB7A, [0x13AA]); (0xAB7B, [0x13AB]); (0xAB7C, [0x13AC]);
   (0xAB7D, [0x13AD]); (0xAB7E, [0x13AE]); (0xAB7F, [0x13AF]); (0xAB80, [0x13B0]); (0xAB81, [0x13B1]);
   (0xAB82, [0x13B2]); (0xAB83, [0x13B3]); (0xAB84, [0x13B4]); (0xAB85, [0x13B5]); (0xAB86, [0x13B6]);
   (0xAB87, [0x13B7]); (0xAB88, [0x13B8]); (0xAB89, [0x13B9]); (0xAB8A, [0x13BA]); (0xAB8B, [0x13BB]);
   (0xAB8C, [0x13BC]); (0xAB8D, [0x13BD]); (0xAB8E, [0x13BE]); (0xAB8F, [0x13BF]); (0xAB90, [0x13C0]);
   (0xAB91, [0x13C1]); (0xAB92, [0x13C2]); (0xAB93, [0x13C3]); (0xAB94, [0x13C4]); (0xAB95, [0x13C5]);
   (0xAB96, [0x13C6]); (0xAB97, [0x13C7]); (0xAB98, [0x13C8]); (0xAB99, [0x13C9]); (0xAB9A, [0x13CA]);
   (0xAB9B, [0x13CB]); (0xAB9C, [0x13CC]); (0xAB9D, [0x13CD]); (0xAB9E, [0x13CE]); (0xAB9F, [0x13CF]);
   (0xABA0, [0x13D0]); (0xABA1, [0x13D1]); (0xABA2, [0x13D2]); (0xABA3, [0x13D3]); (0xABA4, [0x13D4]);
   (0xABA5, [0x13D5]); (0xABA6, [0x13D6]); (0xABA7, [0x13D7]); (0xABA8, [0x13D8]); (0xABA9, [0x13D9]);
   (0xABAA, [0x13DA]); (0xABAB, [0x13DB]); (0xABAC, [0x13DC]); (0xABAD, [0x13DD]); (0xABAE, [0x13DE]);
   (0xABAF, [0x13DF]); (0xABB0, [0x13E0]); (0xABB1, [0x13E1]); (0xABB2, [0x13E2]); (0xABB3, [0x13E3]);
   (0xABB4, [0x13E4]); (0xABB5, [0x13E5]); (0xABB6, [0x13E6]); (0xABB7, [0x13E7]); (0xABB8, [0x13E8]);
   (0xABB9, [0x13E9]); (0xABBA, [0x13EA]); (0xABBB, [0x13EB]); (0xABBC, [0x13EC]); (0xABBD, [0x13ED]);
   (0xABBE, [0x13EE]); (0xABBF, [0x13EF]); (0xFB00, [0x46; 0x46]); (0xFB01, [0x46; 0x49]); (0xFB02, [0x46; 0x4C]);
   (0xFB03, [0x46; 0x46; 0x49]); (0xFB04, [0x46; 0x46; 0x4C]); (0xFB05, [0x53; 0x54]); (0xFB06, [0x53; 0x54]); (0xFB13, [0x544; 0x546]);
   (0xFB14, [0x544; 0x535]); (0xFB15, [0x544; 0x53B]); (0xFB16, [0x54E; 0x546]); (0xFB17, [0x544; 0x53D]); (0xFF41, [0xFF21]);
   (0xFF42, [0xFF22]); (0xFF43, [0xFF23]); (0xFF44, [0xFF24]); (0xFF45, [0xFF25]); (0xFF46, [0xFF26]);
   (0xFF47, [0xFF27]); (0xFF48, [0xFF28]); (0xFF49, [0xFF29]); (0xFF4A, [0xFF2A]); (0xFF4B, [0xFF2B])]%N.

Definition uppercase_6 : list (N * list N) :=
  [(0xFF4C, [0xFF2C]); (0xFF4D, [0xFF2D]); (0xFF4E, [0xFF2E]); (0xFF4F, [0xFF2F]); (0xFF50, [0xFF30]);
   (0xFF51, [0xFF31]); (0xFF52, [0xFF32]); (0xFF53, [0xFF33]); (0xFF54, [0xFF34]); (0xFF55, [0xFF35]);
   (0xFF56, [0xFF36]); (0xFF57, [0xFF37]); (0xFF58, [0xFF38]); (0xFF59, [0xFF39]); (0xFF5A, [0xFF3A]);
   (0x10428, [0x10400]); (0x10429, [0x10401]); (0x1042A, [0x10402]); (0x1042B, [0x10403]); (0x1042C, [0x10404]);
   (0x1042D, [0x10405]); (0x1042E, [0x10406]); (0x1042F, [0x10407]); (0x10430, [0x10408]); (0x10431, [0x10409]);
   (0x10432, [0x1040A]); (0x10433, [0x1040B]); (0x10434, [0x1040C]); (0x10435, [0x1040D]); (0x10436, [0x1040E]);
   (0x10437, [0x1040F]); (0x10438, [0x10410]); (0x10439, [0x10411]); (0x1043A, [0x10412]); (0x1043B, [0x10413]);
   (0x1043C, [0x10414]); (0x1043D, [0x10415]); (0x1043E, [0x10416]); (0x1043F, [0x10417]); (0x10440, [0x10418]);
   (0x10441, [0x10419]); (0x10442, [0x1041A]); (0x10443, [0x1041B]); (0x10444, [0x1041C]); (0x10445, [0x1041D]);
   (0x10446, [0x1041E]); (0x10447, [0x1041F]); (0x10448, [0x10420]); (0x10449, [0x10421]); (0x1044A, [0x10422]);
   (0x1044B, [0x10423]); (0x1044C, [0x10424]); (0x1044D, [0x10425]); (0x1044E, [0x10426]); (0x1044F, [0x10427]);
   (0x104D8, [0x104B0]); (0x104D9, [0x104B1]); (0x104DA, [0x104B2]); (0x104DB, [0x104B3]); (0x104DC, [0x104B4]);
   (0x104DD, [0x104B5]); (0x104DE, [0x104B6]); (0x104DF, [0x104B7]); (0x104E0, [0x104B8]); (0x104E1, [0x104B9]);
   (0x104E2, [0x104BA]); (0x104E3, [0x104BB]); (0x104E4, [0x104BC]); (0x104E5, [0x104BD]); (0x104E6, [0x104BE]);
   (0x104E7, [0x104BF]); (0x104E8, [0x104C0]); (0x104E9, [0x104C1]); (0x104EA, [0x104C2]); (0x104EB, [0x104C3]);
   (0x104EC, [0x104C4]); (0x104ED, [0x104C5]); (0x104EE, [0x104C6]); (0x104EF, [0x104C7]); (0x104F0, [0x104C8]);
   (0x104F1, [0x104C9]); (0x104F2, [0x104CA]); (0x104F3, [0x104CB]); (0x104F4, [0x104CC]); (0x104F5, [0x104CD]);
   (0x104F6, [0x104CE]); (0x104F7, [0x104CF]); (0x104F8, [0x104D0]); (0x104F9, [0x104D1]); (0x104FA, [0x104D2]);
   (0x104FB, [0x104D3]); (0x10597, [0x10570]); (0x10598, [0x10571]); (0x10599, [0x10572]); (0x1059A, [0x10573]);
   (0x1059B, [0x10574]); (0x1059C, [0x10575]); (0x1059D, [0x10576]); (0x1059E, [0x10577]); (0x1059F, [0x10578]);
   (0x105A0, [0x10579]); (0x105A1, [0x1057A]); (0x105A3, [0x1057C]); (0x105A4, [0x1057D]); (0x105A5, [0x1057E]);
   (0x105A6, [0x1057F]); (0x105A7, [0x10580]); (0x105A8, [0x10581]); (0x105A9, [0x10582]); (0x105AA, [0x10583]);
   (0x105AB, [0x10584]); (0x105AC, [0x10585]); (0x105AD, [0x10586]); (0x105AE, [0x10587]); (0x105AF, [0x10588]);
   (0x105B0, [0x10589]); (0x105B1, [0x1058A]); (0x105B3, [0x1058C]); (0x105B4, [0x1058D]); (0x105B5, [0x1058E]);
   (0x105B6, [0x1058F]); (0x105B7, [0x10590]); (0x105B8, [0x10591]); (0x105B9, [0x10592]); (0x105BB, [0x10594]);
   (0x105BC, [0x10595]); (0x10CC0, [0x10C80]); (0x10CC1, [0x10C81]); (0x10CC2, [0x10C82]); (0x10CC3, [0x10C83]);
   (0x10CC4, [0x10C84]); (0x10CC5, [0x10C85]); (0x10CC6, [0x10C86]); (0x10CC7, [0x10C87]); (0x10CC8, [0x10C88]);
   (0x10CC9, [0x10C89]); (0x10CCA, [0x10C8A]); (0x10CCB, [0x10C8B]); (0x10CCC, [0x10C8C]); (0x10CCD, [0x10C8D]);
   (0x10CCE, [0x10C8E]); (0x10CCF, [0x10C8F]); (0x10CD0, [0x10C90]); (0x10CD1, [0x10C91]); (0x10CD2, [0x10C92]);
   (0x10CD3, [0x10C93]); (0x10CD4, [0x10C94]); (0x10CD5, [0x10C95]); (0x10CD6, [0x10C96]); (0x10CD7, [0x10C97]);
   (0x10CD8, [0x10C98]); (0x10CD9, [0x10C99]); (0x10CDA, [0x10C9A]); (0x10CDB, [0x10C9B]); (0x10CDC, [0x10C9C]);
   (0x10CDD, [0x10C9D]); (0x10CDE, [0x10C9E]); (0x10CDF, [0x10C9F]); (0x10CE0, [0x10CA0]); (0x10CE1, [0x10CA1]);
   (0x10CE2, [0x10CA2]); (0x10CE3, [0x10CA3]); (0x10CE4, [0x10CA4]); (0x10CE5, [0x10CA5]); (0x10CE6, [0x10CA6]);
   (0x10CE7, [0x10CA7]); (0x10CE8, [0x10CA8]); (0x10CE9, [0x10CA9]); (0x10CEA, [0x10CAA]); (0x10CEB, [0x10CAB]);
   (0x10CEC, [0x10CAC]); (0x10CED, [0x10CAD]); (0x10CEE, [0x10CAE]); (0x10CEF, [0x10CAF]); (0x10CF0, [0x10CB0]);
   (0x10CF1, [0x10CB1]); (0x10CF2, [0x10CB2]); (0x118C0, [0x118A0]); (0x118C1, [0x118A1]); (0x118C2, [0x118A2]);
   (0x118C3, [0x118A3]); (0x118C4, [0x118A4]); (0x118C5, [0x118A5]); (0x118C6, [0x118A6]); (0x118C7, [0x118A7]);
   (0x118C8, [0x118A8]); (0x118C9, [0x118A9]); (0x118CA, [0x118AA]); (0x118CB, [0x118AB]); (0x118CC, [0x118AC]);
   (0x118CD, [0x118AD]); (0x118CE, [0x118AE]); (0x118CF, [0x118AF]); (0x118D0, [0x118B0]); (0x118D1, [0x118B1]);
   (0x118D2, [0x118B2]); (0x118D3, [0x118B3]); (0x118D4, [0x118B4]); (0x118D5, [0x118B5]); (0x118D6, [0x118B6]);
   (0x118D7, [0x118B7]); (0x118D8, [0x118B8]); (0x118D9, [0x118B9]); (0x118DA, [0x118BA]); (0x118DB, [0x118BB]);
   (0x118DC, [0x118BC]); (0x118DD, [0x118BD]); (0x118DE, [0x118BE]); (0x118DF, [0x118BF]); (0x16E60, [0x16E40]);
   (0x16E61, [0x16E41]); (0x16E62, [0x16E42]); (0x16E63, [0x16E43]); (0x16E64, [0x16E44]); (0x16E65, [0x16E45]);
   (0x16E66, [0x16E46]); (0x16E67, [0x16E47]); (0x16E68, [0x16E48]); (0x16E69, [0x16E49]); (0x16E6A, [0x16E4A]);
   (0x16E6B, [0x16E4B]); (0x16E6C, [0x16E4C]); (0x16E6D, [0x16E4D]); (0x16E6E, [0x16E4E]); (0x16E6F, [0x16E4F]);
   (0x16E70, [0x16E50]); (0x16E71, [0x16E51]); (0x16E72, [0x16E52]); (0x16E73, [0x16E53]); (0x16E74, [0x16E54]);
   (0x16E75, [0x16E55]); (0x16E76, [0x16E56]); (0x16E77, [0x16E57]); (0x16E78, [0x16E58]); (0x16E79, [0x16E59]);
   (0x16E7A, [0x16E5A]); (0x16E7B, [0x16E5B]); (0x16E7C, [0x16E5C]); (0x16E7D, [0x16E5D]); (0x16E7E, [0x16E5E]);
   (0x16E7F, [0x16E5F]); (0x1E922, [0x1E900]); (0x1E923, [0x1E901]); (0x1E924, [0x1E902]); (0x1E925, [0x1E903]);
   (0x1E926, [0x1E904]); (0x1E927, [0x1E905]); (0x1E928, [0x1E906]); (0x1E929, [0x1E907]); (0x1E92A, [0x1E908])]%N.

Definition uppercase_7 : list (N * list N) :=
  [(0x1E92B, [0x1E909]); (0x1E92C, [0x1E90A]); (0x1E92D, [0x1E90B]); (0x1E92E, [0x1E90C]); (0x1E92F, [0x1E90D]);
   (0x1E930, [0x1E90E]); (0x1E931, [0x1E90F]); (0x1E932, [0x1E910]); (0x1E933, [0x1E911]); (0x1E934, [0x1E912]);
   (0x1E935, [0x1E913]); (0x1E936, [0x1E914]); (0x1E937, [0x1E915]); (0x1E938, [0x1E916]); (0x1E939, [0x1E917]);
   (0x1E93A, [0x1E918]); (0x1E93B, [0x1E919]); (0x1E93C, [0x1E91A]); (0x1E93D, [0x1E91B]); (0x1E93E, [0x1E91C]);
   (0x1E93F, [0x1E91D]); (0x1E940, [0x1E91E]); (0x1E941, [0x1E91F]); (0x1E942, [0x1E920]); (0x1E943, [0x1E921])]%N.

Definition uppercase : list (N * list N) :=
  (uppercase_1 ++ uppercase_2 ++ uppercase_3 ++ uppercase_4 ++ uppercase_5 ++ uppercase_6 ++ uppercase_7)%list.

(** A byte of the form [10xxxxxx]. *)
Definition is_continuation (b : ascii) : bool :=
  ((128 <=? byte b) && (byte b <? 192))%N.

(** What a byte sequence that is not UTF-8 decodes to; a [str] never holds
    one. *)
Definition replacement : N := 0xFFFD%N.

(** The code points of a text. *)
Fixpoint decode (s : string) : list N :=
  match s with
  | EmptyString => []
  | String a r =>
      let n := byte a in
      if (n <? 128)%N then n :: decode r
      else if ((192 <=? n) && (n <? 224))%N then
        match r with
        | String b r1 =>
            if is_continuation b
            then ((n - 192) * 64 + (byte b - 128))%N :: decode r1
            else replacement :: decode r
        | _ => replacement :: decode r
        end
      else if ((224 <=? n) && (n <? 240))%N then
        match r with
        | String b (String c r2) =>
            if is_continuation b && is_continuation c
            then (((n - 224) * 64 + (byte b - 128)) * 64 + (byte c - 128))%N :: decode r2
            else replacement :: decode r
        | _ => replacement :: decode r
        end
      else if ((240 <=? n) && (n <? 248))%N then
        match r with
        | String b (String c (String d r3)) =>
            if is_continuation b && is_continuation c && is_continuation d
            then ((((n - 240) * 64 + (byte b - 128)) * 64 + (byte c - 128)) * 64
                  + (byte d - 128))%N :: decode r3
            else replacement :: decode r
        | _ => replacement :: decode r
        end
      else replacement :: decode r
  end.

(** One code point in UTF-8, and a sequence of them. *)
Definition utf8 (n : N) : string :=
  if (n <? 128)%N then String (ascii_of_N n) EmptyString
  else if (n <? 2048)%N then
    String (ascii_of_N (192 + n / 64))
      (String (ascii_of_N (128 + n mod 64)) EmptyString)
  else if (n <? 65536)%N then
    String (ascii_of_N (224 + n / 4096))
      (String (ascii_of_N (128 + (n / 64) mod 64))
         (String (ascii_of_N (128 + n mod 64)) EmptyString))
  else
    String (ascii_of_N (240 + n / 262144))
      (String (ascii_of_N (128 + (n / 4096) mod 64))
         (String (ascii_of_N (128 + (n / 64) mod 64))
            (String (ascii_of_N (128 + n mod 64)) EmptyString))).

Definition encode (text : list N) : string :=
  fold_right (fun n s => utf8 n ++ s) EmptyString text.

(** [len(s)]. *)
Definition len (s : string) : nat := List.length (decode s).

(** [c.isspace()], also the class [\s] of [re]. *)
Definition is_space (c : N) : bool := existsb (N.eqb c) whitespace.

(** The class [\d] of [re]: a decimal digit of any script. *)
Definition is_decimal (c : N) : bool :=
  existsb (fun zero => ((zero <=? c) && (c <? zero + 10))%N) decimal_zeros.

(** The class [[A-Z]]. *)
Definition is_AZ (c : N) : bool := ((65 <=? c) && (c <=? 90))%N.

Fixpoint assoc (c : N) (table : list (N * list N)) : option (list N) :=
  match table with
  | [] => None
  | (k, v) :: rest => if (k =? c)%N then Some v else assoc c rest
  end.

(** What [str.upper] makes of one character: one to three characters. *)
Definition upper_of (c : N) : list N :=
  match assoc c uppercase with
  | Some u => u
  | None => [c]
  end.

(** [s.upper()]. *)
Definition upper (text : list N) : list N := flat_map upper_of text.

End Unicode.

(** ** Python values: what a JSON-like record can hold *)
Module PyVal.
Import PyStr.

Inductive value : Type :=
| VNone
| VBool (b : bool)
| VInt (n : Z)
| VFloat (printed : string)
| VStr (s : string)
| VDict (items : list (string * value)).

Definition dict : Type := list (string * value).

(** [isinstance(v, bool)], [isinstance(v, (int, float))] (a [bool] is an
    [int]), [isinstance(v, str)], [isinstance(v, dict)]. *)
Definition isinstance_bool (v : value) : bool :=
  match v with VBool _ => true | _ => false end.
Definition isinstance_int_float (v : value) : bool :=
  match v with VBool _ | VInt _ | VFloat _ => true | _ => false end.
Definition isinstance_str (v : value) : bool :=
  match v with VStr _ => true | _ => false end.
Definition isinstance_dict (v : value) : bool :=
  match v with VDict _ => true | _ => false end.

(** Truth value of an object, as [if not x] tests it. *)
Definition truthy (v : value) : bool :=
  match v with
  | VNone => false
  | VBool b => b
  | VInt n => negb (n =? 0)%Z
  | VFloat p => negb ((p =? "0.0") || (p =? "-0.0"))
  | VStr s => negb (is_empty s)
  | VDict items => match items with [] => false | _ => true end
  end.

Definition squote : ascii := ascii_of_nat 39.
Definition dquote : ascii := ascii_of_nat 34.
Definition backslash : ascii := ascii_of_nat 92.

Definition hex_digit (n : nat) : ascii :=
  if (n <? 10)%nat then ascii_of_nat (48 + n) else ascii_of_nat (87 + n).

Fixpoint has_char (c : ascii) (s : string) : bool :=
  match s with
  | EmptyString => false
  | String a r => Ascii.eqb a c || has_char c r
  end.

(** One character of [repr(s)] inside the chosen [quote]. *)
Definition repr_char (quote c : ascii) : string :=
  let n := nat_of_ascii c in
  if Ascii.eqb c quote || Ascii.eqb c backslash
  then String backslash (String c EmptyString)
  else if (n =? 9)%nat then String backslash "t"
  else if (n =? 10)%nat then String backslash "n"
  else if (n =? 13)%nat then String backslash "r"
  else if (n <? 32)%nat || (n =? 127)%nat
  then String backslash
         (String "x" (String (hex_digit (n / 16)) (String (hex_digit (n mod 16)) EmptyString)))
  else String c EmptyString.

Fixpoint repr_chars (quote : ascii) (s : string) : string :=
  match s with
  | EmptyString => EmptyString
  | String c r => repr_char quote c ++ repr_chars quote r
  end.

(** [repr(s)] for a [str]: single quotes, unless the text holds a single
    quote and no double quote. *)
Definition repr_str (s : string) : string :=
  let quote := if has_char squote s && negb (has_char dquote s) then dquote else squote in
  String quote (repr_chars quote s ++ String quote EmptyString).

Definition str_bool (b : bool) : string := if b then "True" else "False".

(** [repr(v)]. *)
Fixpoint repr (v : value) : string :=
  match v with
  | VNone => "None"
  | VBool b => str_bool b
  | VInt n => str_int n
  | VFloat p => p
  | VStr s => repr_str s
  | VDict items =>
      "{" ++ join ", " (map (fun kv => repr_str (fst kv) ++ ": " ++ repr (snd kv)) items) ++ "}"
  end.

(** [str(v)], which is what an f-string field [{v}] prints. *)
Definition str (v : value) : string :=
  match v with
  | VStr s => s
  | _ => repr v
  end.

(** [d.get(key, default)]. *)
Fixpoint get (d : dict) (key : string) (default : value) : value :=
  match d with
  | [] => default
  | (k, v) :: rest => if k =? key then v else get rest key default
  end.

Definition keys (d : dict) : list string := map fst d.

End PyVal.

(** ** The fragment of [re] the postcode patterns use *)
Module Re.
Import PyStr Unicode.

(** Patterns without repetition operators other than the bounded ones,
    which unfold to sequences and alternatives. *)
Inductive re : Type :=
| Eps
| Cls (p : N -> bool)
| Seq (r1 r2 : re)
| Alt (r1 r2 : re).

(** [r?] and [r{1,2}], greedy: the longer alternative is tried first. *)
Definition opt (r : re) : re := Alt r Eps.
Definition rep_1_2 (r : re) : re := Seq r (opt r).

(** [[A-Z]] and [\d]. *)
Definition upper_AZ : re := Cls is_AZ.
Definition digit : re := Cls is_decimal.

(** Backtracking matcher: [run r s k] matches [r] at the start of [s] and
    hands the rest to the continuation [k]; the first success in the
    engine's order of preference wins. *)
Fixpoint run {A : Type} (r : re) (s : list N) (k : list N -> option A) : option A :=
  match r with
  | Eps => k s
  | Cls p =>
      match s with
      | c :: rest => if p c then k rest else None
      | [] => None
      end
  | Seq r1 r2 => run r1 s (fun rest => run r2 rest k)
  | Alt r1 r2 =>
      match run r1 s k with
      | Some x => Some x
      | None => run r2 s k
      end
  end.

(** [$]: the end of the text, or just before a final line feed. *)
Definition dollar (rest : list N) : bool :=
  match rest with
  | [] => true
  | [c] => (c =? 10)%N
  | _ => false
  end.

(** What was consumed between [s] and its suffix [rest]. *)
Definition consumed (s rest : list N) : list N :=
  firstn (List.length s - List.length rest) s.

(** [re.match("^(g1)(g2)$", s)], giving [group(1)] on a match. *)
Definition match_group1_of_2 (g1 g2 : re) (s : list N) : option (list N) :=
  run g1 s (fun rest1 =>
    run g2 rest1 (fun rest2 =>
      if dollar rest2 then Some (consumed s rest1) else None)).

(** [re.match("^(g1)$", s)], giving [group(1)] on a match. *)
Definition match_group1 (g1 : re) (s : list N) : option (list N) :=
  run g1 s (fun rest1 => if dollar rest1 then Some (consumed s rest1) else None).

(** [re.sub(r"\s+", "", s)]: every maximal run of whitespace is replaced
    by the empty text, which drops the whitespace characters one by one. *)
Definition sub_spaces (s : list N) : list N :=
  filter (fun c => negb (is_space c)) s.

End Re.

(** ** [tools/validators.py] *)
Module Validators.
Import PyStr PyVal Unicode Re.

(** What a call that may raise produces. *)
Inductive outcome (A : Type) : Type :=
| Returned (a : A)
| Raised.
Arguments Returned {A} a.
Arguments Raised {A}.

Section Temporal.
(** [datetime.fromisoformat] is a library function: the two validators
    are embedded over any parser, which either returns or raises. *)
Context {Instant : Type}.
Variable fromisoformat : string -> outcome Instant.

Definition validate_and_parse_date (date_str : value) : option Instant :=
  if negb (truthy date_str) then None
  else match date_str with
       | VStr s =>
           if (String.length s <? 8)%nat then None
           else match fromisoformat s with
                | Returned dt => Some dt
                | Raised => None
                end
       | _ => None
       end.

Definition validate_datetime (datetime_str : value) : option Instant :=
  if negb (truthy datetime_str) then None
  else match datetime_str with
       | VStr s =>
           match fromisoformat (replace "Z" "+00:00" s) with
           | Returned dt => Some dt
           | Raised => None
           end
       | _ => None
       end.
End Temporal.

(** [^([A-Z]{1,2}\d{1,2}[A-Z]?)(\d[A-Z]{2})$]: the two groups. *)
Definition outward_group : re :=
  Seq (rep_1_2 upper_AZ) (Seq (rep_1_2 digit) (opt upper_AZ)).
Definition inward_group : re :=
  Seq digit (Seq upper_AZ upper_AZ).

Definition validate_and_parse_postcode (postcode : value) : option string :=
  if negb (truthy postcode) then None
  else match postcode with
       | VStr s =>
           let postcode := upper (sub_spaces (decode s)) in
           match match_group1_of_2 outward_group inward_group postcode with
           | Some g => Some (encode g)
           | None =>
               match match_group1 outward_group postcode with
               | Some g => Some (encode g)
               | None => None
               end
           end
       | _ => None
       end.

(** *** The postcode normalizer in the specification's words (section 4.1)

    Whitespace and digits are what the interpreter takes for them, letters
    are the capitals A to Z of a postcode. *)

(** The longest prefix of [s] made of characters in [p], and the rest. *)
Fixpoint span (p : N -> bool) (s : list N) : list N * list N :=
  match s with
  | [] => ([], [])
  | c :: r =>
      if p c then let (a, b) := span p r in (c :: a, b)
      else ([], s)
  end.

Definition one_or_two (n : nat) : bool := (n =? 1)%nat || (n =? 2)%nat.

(** Outward code: 1-2 letters, 1-2 digits, optional trailing letter. *)
Definition spec_outward (s : list N) : bool :=
  let (letters, r) := span is_AZ s in
  let (digits, tail) := span is_decimal r in
  one_or_two (List.length letters)
  && one_or_two (List.length digits)
  && match tail with
     | [] => true
     | [c] => is_AZ c
     | _ => false
     end.

(** Inward code: exactly one digit and two letters. *)
Definition spec_inward (s : list N) : bool :=
  match s with
  | [d; a; b] => is_decimal d && is_AZ a && is_AZ b
  | _ => false
  end.

Definition spec_normalize_postcode (raw : value) : option string :=
  match raw with
  | VStr s =>
      if is_empty s then None
      else
        let p := upper (sub_spaces (decode s)) in
        let n := (List.length p - 3)%nat in
        if (3 <=? List.length p)%nat && spec_outward (firstn n p) && spec_inward (skipn n p)
        then Some (encode (firstn n p))
        else if spec_outward p then Some (encode p)
        else None
  | _ => None
  end.

(** *** A reference ISO-8601 parser *)

(** A [datetime]: the calendar fields, and for an aware value its UTC
    offset in microseconds. *)
Record datetime : Type := mkdatetime {
  year : Z; month : Z; day : Z;
  hour : Z; minute : Z; second : Z; microsecond : Z;
  tzinfo : option Z
}.

Definition bind {A B : Type} (a : option A) (f : A -> option B) : option B :=
  match a with Some x => f x | None => None end.

Notation "x <- a ;; b" := (bind a (fun x => b))
  (at level 61, a at next level, right associativity).
Notation "' pat <- a ;; b" := (bind a (fun x => match x with pat => b end))
  (at level 61, pat pattern, a at next level, right associativity).

Definition digit_value (c : ascii) : Z := Z.of_nat (nat_of_ascii c) - 48.

(** Exactly [n] decimal digits at the head of [s]: their value, the rest. *)
Fixpoint digits (n : nat) (acc : Z) (s : string) : option (Z * string) :=
  match n with
  | O => Some (acc, s)
  | S k =>
      match s with
      | String c r => if isdigit c then digits k (10 * acc + digit_value c)%Z r else None
      | EmptyString => None
      end
  end.

Definition expect (c : ascii) (s : string) : option string :=
  match s with
  | String a r => if Ascii.eqb a c then Some r else None
  | EmptyString => None
  end.

Definition is_leap (y : Z) : bool :=
  ((y mod 4 =? 0) && negb (y mod 100 =? 0) || (y mod 400 =? 0))%Z.

Definition days_in_month (y m : Z) : Z :=
  (if (m =? 2) then (if is_leap y then 29 else 28)
   else if (m =? 4) || (m =? 6) || (m =? 9) || (m =? 11) then 30
   else 31)%Z.

(** [YYYY-MM-DD] at the head of the text, with calendar validity. *)
Definition parse_isoformat_date (s : string) : option (Z * Z * Z * string) :=
  '(y, s) <- digits 4 0 s ;;
  s <- expect "-" s ;;
  '(m, s) <- digits 2 0 s ;;
  s <- expect "-" s ;;
  '(d, s) <- digits 2 0 s ;;
  if ((1 <=? y) && (1 <=? m) && (m <=? 12) && (1 <=? d) && (d <=? days_in_month y m))%Z
  then Some (y, m, d, s) else None.

(** [HH[:MM[:SS[.fff[fff]]]]], the whole of [s]. *)
Definition parse_hh_mm_ss_ff (s : string) : option (Z * Z * Z * Z) :=
  '(h, s) <- digits 2 0 s ;;
  if is_empty s then Some (h, 0, 0, 0)%Z else
  s <- expect ":" s ;;
  '(mi, s) <- digits 2 0 s ;;
  if is_empty s then Some (h, mi, 0, 0)%Z else
  s <- expect ":" s ;;
  '(sec, s) <- digits 2 0 s ;;
  if is_empty s then Some (h, mi, sec, 0)%Z else
  s <- expect "." s ;;
  if (String.length s =? 3)%nat then
    '(ms, _) <- digits 3 0 s ;; Some (h, mi, sec, ms * 1000)%Z
  else if (String.length s =? 6)%nat then
    '(us, _) <- digits 6 0 s ;; Some (h, mi, sec, us)
  else None.

Definition in_clock_range (t : Z * Z * Z * Z) : bool :=
  let '(h, mi, sec, _) := t in ((h <? 24) && (mi <? 60) && (sec <? 60))%Z.

(** The time text up to the first sign, and the signed offset text after it. *)
Fixpoint split_offset (s : string) : string * option (bool * string) :=
  match s with
  | EmptyString => (EmptyString, None)
  | String c r =>
      if Ascii.eqb c "+" then (EmptyString, Some (false, r))
      else if Ascii.eqb c "-" then (EmptyString, Some (true, r))
      else let (t, o) := split_offset r in (String c t, o)
  end.

Definition offset_microseconds (negative : bool) (t : Z * Z * Z * Z) : Z :=
  let '(h, mi, sec, us) := t in
  let total := (((h * 60 + mi) * 60 + sec) * 1000000 + us)%Z in
  if negative then (- total)%Z else total.

(** [+HH:MM], [+HH:MM:SS] or [+HH:MM:SS.ffffff] after the sign. *)
Definition parse_offset (negative : bool) (s : string) : option Z :=
  let n := String.length s in
  if ((n =? 5) || (n =? 8) || (n =? 15))%nat then
    t <- parse_hh_mm_ss_ff s ;;
    if in_clock_range t then Some (offset_microseconds negative t) else None
  else None.

(** Modelled from the spec: the best-effort ISO-8601 date/datetime parse
    both validators delegate to.  The repository calls the library function
    [datetime.fromisoformat] for it; this reference parser accepts the
    three shapes the specification lists (date only, date and time, date
    and time with a UTC offset) in the form
    [YYYY-MM-DD[*HH[:MM[:SS[.fff[fff]]]][+HH:MM[:SS[.ffffff]]]]], where [*]
    is any one character, and rejects wrong calendar values and malformed
    separators by raising. *)
Definition iso_fromisoformat (s : string) : outcome datetime :=
  match parse_isoformat_date s with
  | None => Raised
  | Some (y, m, d, rest) =>
      match rest with
      | EmptyString => Returned (mkdatetime y m d 0 0 0 0 None)
      | String separator tstr =>
          let (timestr, off) := split_offset tstr in
          match parse_hh_mm_ss_ff timestr with
          | None => Raised
          | Some (h, mi, sec, us) =>
              if in_clock_range (h, mi, sec, us) then
                match off with
                | None => Returned (mkdatetime y m d h mi sec us None)
                | Some (negative, ostr) =>
                    match parse_offset negative ostr with
                    | Some o => Returned (mkdatetime y m d h mi sec us (Some o))
                    | None => Raised
                    end
                end
              else Raised
          end
      end
  end.

End Validators.

(** ** [servers/vaillant.py]: [format_device_state] *)
Module Vaillant.
Import PyStr PyVal.

(** [" " + char if char.isupper() else char for char in name], joined. *)
Fixpoint space_before_upper (name : string) : string :=
  match name with
  | EmptyString => EmptyString
  | String char r =>
      if isupper char then String " " (String char (space_before_upper r))
      else String char (space_before_upper r)
  end.

(** The readable name the status and nested loops compute. *)
Definition readable (name : string) : string :=
  capitalize (strip (space_before_upper name)).

(** The readable name the temperature loop computes: the same, after
    [name.replace("Temperature", " Temperature")]. *)
Definition readable_temperature (name : string) : string :=
  let readable_name := replace "Temperature" " Temperature" name in
  let readable_name := strip (space_before_upper readable_name) in
  capitalize readable_name.

Definition degrees : string := "°C".

(** The header: identity, masked when it is a long string, and type. *)
Definition masked_serial (state_data : dict) (index : Z) : value :=
  let serial := get state_data "serialNumber" (VStr ("Device " ++ str_int (index + 1))) in
  match serial with
  | VStr s => if (24 <? String.length s)%nat then VStr ("V" ++ slice_from 24 s) else serial
  | _ => serial
  end.

Definition header (state_data : dict) (index : Z) : string :=
  let device_type := get state_data "type" (VStr "Unknown") in
  "## Device: " ++ str (masked_serial state_data index)
    ++ " (" ++ str device_type ++ ")" ++ LF ++ LF.

(** First loop: the temperature fields, collected in iteration order. *)
Definition is_temperature_field (key : string) (v : value) : bool :=
  contains "temperature" (lower key)
  && negb (key =? "serialNumber")
  && isinstance_int_float v.

Definition temperatures (state_data : dict) : list (string * value) :=
  fold_left
    (fun acc kv => if is_temperature_field (fst kv) (snd kv) then (acc ++ [kv])%list else acc)
    state_data [].

Definition temperature_line (entry : string * value) : string :=
  let (name, v) := entry in
  "- " ++ readable_temperature name ++ ": " ++ str v ++ degrees ++ LF.

(** Second loop: the boolean fields. *)
Definition is_status_field (key : string) (v : value) : bool :=
  isinstance_bool v && negb (key =? "serialNumber").

Definition statuses (state_data : dict) : list (string * value) :=
  fold_left
    (fun acc kv => if is_status_field (fst kv) (snd kv) then (acc ++ [kv])%list else acc)
    state_data [].

Definition status_text (v : value) : string :=
  if truthy v then "Active" else "Inactive".

Definition status_line (entry : string * value) : string :=
  let (name, v) := entry in
  "- " ++ readable name ++ ": " ++ status_text v ++ LF.

(** Third loop, innermost body: one entry of a mapping nested two levels
    down. *)
Definition subsub_line (entry : string * value) : string :=
  let (subsubkey, subsubvalue) := entry in
  "- " ++ readable subsubkey ++ ": " ++ str subsubvalue ++ LF.

(** Third loop, [else] branch: a leaf of a nested mapping, with the unit
    its key and type call for. *)
Definition leaf_line (subkey : string) (subvalue : value) : string :=
  let readable_name := readable subkey in
  if contains "temperature" (lower subkey) && isinstance_int_float subvalue
  then "- " ++ readable_name ++ ": " ++ str subvalue ++ degrees ++ LF
  else if contains "pressure" (lower subkey) && isinstance_int_float subvalue
  then "- " ++ readable_name ++ ": " ++ str subvalue ++ " bar" ++ LF
  else if isinstance_bool subvalue
  then "- " ++ readable_name ++ ": " ++ status_text subvalue ++ LF
  else "- " ++ readable_name ++ ": " ++ str subvalue ++ LF.

(** Third loop, middle body: what one entry of a nested mapping adds to
    [result]. *)
Definition sub_entry (result : string) (entry : string * value) : string :=
  let (subkey, subvalue) := entry in
  match subvalue with
  | VDict items =>
      let result := result ++ "#### " ++ capitalize subkey ++ LF ++ LF in
      fold_left (fun result e => result ++ subsub_line e) items result
  | _ => result ++ leaf_line subkey subvalue
  end.

(** Third loop, outer body: what one top-level entry adds to [result]. *)
Definition nested_entry (result : string) (entry : string * value) : string :=
  let (key, v) := entry in
  match v with
  | VDict items =>
      if negb (key =? "_metadata") then
        let result := result ++ "### " ++ capitalize key ++ LF ++ LF in
        let result := fold_left sub_entry items result in
        result ++ LF
      else result
  | _ => result
  end.

Definition format_device_state (state_data : dict) (index : Z) : string :=
  let result := EmptyString in
  let result := result ++ header state_data index in
  let temperatures := temperatures state_data in
  let result :=
    match temperatures with
    | [] => result
    | _ =>
        let result := result ++ "### Temperatures" ++ LF ++ LF in
        let result := fold_left (fun result e => result ++ temperature_line e) temperatures result in
        result ++ LF
    end in
  let statuses := statuses state_data in
  let result :=
    match statuses with
    | [] => result
    | _ =>
        let result := result ++ "### Status Indicators" ++ LF ++ LF in
        let result := fold_left (fun result e => result ++ status_line e) statuses result in
        result ++ LF
    end in
  fold_left nested_entry state_data result.

End Vaillant.

(** ** Auxiliary definitions used to state the properties *)
Module Aux.
Import PyStr PyVal Unicode Re Validators Vaillant.

(** No character of the text is a line feed. *)
Definition no_line_feed (s : list N) : bool :=
  forallb (fun c => negb (c =? 10)%N) s.

(** [re.match] on the two postcode patterns with [$] read as the end of
    the text. *)
Definition full_at_end (p : list N) : option (list N) :=
  run outward_group p (fun rest1 =>
    run inward_group rest1 (fun rest2 =>
      match rest2 with [] => Some (consumed p rest1) | _ => None end)).

Definition outward_at_end (p : list N) : option (list N) :=
  run outward_group p (fun rest1 =>
    match rest1 with [] => Some (consumed p rest1) | _ => None end).

(** The two steps of [spec_normalize_postcode] on a normalized text. *)
Definition spec_full_result (p : list N) : option (list N) :=
  let n := List.length p - 3 in
  if (3 <=? List.length p)%nat && spec_outward (firstn n p) && spec_inward (skipn n p)
  then Some (firstn n p) else None.

Definition spec_outward_result (p : list N) : option (list N) :=
  if spec_outward p then Some p else None.

(** The normalisation of [validate_datetime] as the specification words
    it: a trailing [Z], and only a trailing one, becomes [+00:00]. *)
Fixpoint replace_trailing_Z (s : string) : string :=
  match s with
  | EmptyString => EmptyString
  | String c EmptyString => if Ascii.eqb c "Z" then "+00:00" else s
  | String c r => String c (replace_trailing_Z r)
  end.

(** [l1] is [l2] with some elements left out, the others in place. *)
Inductive Subseq {A : Type} : list A -> list A -> Prop :=
| Subseq_nil : Subseq [] []
| Subseq_skip x l1 l2 : Subseq l1 l2 -> Subseq l1 (x :: l2)
| Subseq_keep x l1 l2 : Subseq l1 l2 -> Subseq (x :: l1) (x :: l2).

(** The text of a list of lines, and of a titled section (absent when it
    has no line). *)
Definition lines (ls : list string) : string := fold_right append EmptyString ls.

Definition section (title : string) (ls : list string) : string :=
  match ls with
  | [] => EmptyString
  | _ => title ++ LF ++ LF ++ lines ls ++ LF
  end.

(** The top-level entries the third loop opens a section for. *)
Definition is_nested_field (key : string) (v : value) : bool :=
  isinstance_dict v && negb (key =? "_metadata").

Definition nested_sections (state_data : dict) : list (string * value) :=
  filter (fun kv => is_nested_field (fst kv) (snd kv)) state_data.

(** What one entry of a nested mapping, and one top-level entry, add to
    the report. *)
Definition sub_text (entry : string * value) : string :=
  match snd entry with
  | VDict items => "#### " ++ capitalize (fst entry) ++ LF ++ LF ++ lines (map subsub_line items)
  | v => leaf_line (fst entry) v
  end.

Definition nested_text (entry : string * value) : string :=
  match snd entry with
  | VDict items => "### " ++ capitalize (fst entry) ++ LF ++ LF ++ lines (map sub_text items) ++ LF
  | _ => EmptyString
  end.

(** Numbers proper: [int] and [float], a [bool] apart. *)
Definition is_plain_number (v : value) : bool :=
  match v with VInt _ | VFloat _ => true | _ => false end.

Definition mentions (word key : string) : bool := contains word (lower key).

(** The readable name as the specification words it: a space before each
    capital letter but a leading one, then [capitalize]. *)
Definition spec_readable (key : string) : string :=
  capitalize
    match key with
    | EmptyString => EmptyString
    | String c r => String c (space_before_upper r)
    end.

Definition starts_with_space (s : string) : bool :=
  match s with
  | String c _ => isspace c
  | EmptyString => false
  end.

Fixpoint ends_with_space (s : string) : bool :=
  match s with
  | EmptyString => false
  | String c r =>
      match r with
      | EmptyString => isspace c
      | String _ _ => ends_with_space r
      end
  end.

(** Every character is a capital letter A to Z or a decimal digit. *)
Definition upper_alnum (text : list N) : bool :=
  forallb (fun c => is_AZ c || is_decimal c) text.

(** Every byte of the text is below 128. *)
Fixpoint is_ascii (s : string) : bool :=
  match s with
  | EmptyString => true
  | String c r => (byte c <? 128)%N && is_ascii r
  end.

End Aux.

(** ** Code inside [try ... except Exception as e] *)
Module Try.

(** What a call inside [try] gives: its value, or the text [str(e)] of the
    exception it raised. *)
Inductive attempt (A : Type) : Type :=
| Ok (a : A)
| Fail (message : string).
Arguments Ok {A} a.
Arguments Fail {A} message.

(** Sequencing: the first exception ends the block. *)
Definition and_then {A B : Type} (a : attempt A) (f : A -> attempt B) : attempt B :=
  match a with
  | Ok x => f x
  | Fail e => Fail e
  end.

End Try.

(** ** [tools/validators.py]: [validate_vaillant_serial] *)
Module SerialValidator.
Import PyStr PyVal Unicode.

Definition validate_vaillant_serial (serial : value) : bool :=
  if negb (truthy serial) then false
  else match serial with
       | VStr s =>
           if (len s <? 24)%nat then false
           else if negb (String.prefix "2" s) then false
           else true
       | _ => false
       end.

End SerialValidator.

(** ** [servers/vaillant.py]: the tool functions around the formatter

    The vendor client is an external collaborator.  What the tool
    functions read from the outside is passed in: whether the optional
    import succeeded ([VaillantApi] bound, [_vaillant_import_error] with
    the text of the [ImportError]), the [VAILLANT_SERIAL] environment
    variable, and the call made inside [try], which returns or raises an
    exception with a message. *)
Module VaillantTools.
Import PyStr PyVal Validators Vaillant Try.

Definition _VAILLANT_DEPENDENCY_MESSAGE : string :=
  "Vaillant tools require the experimental `vaillant-client` package. "
  ++ "Install it from https://github.com/cdinu/vaillant-client and retry.".

(** The first guard of every tool function: the message it returns, if
    any.  An exception object is always true, so the parenthesis is added
    whenever an import error is recorded. *)
Definition dependency_guard (VaillantApi_bound : bool) (_vaillant_import_error : option string)
  : option string :=
  if negb VaillantApi_bound
     || match _vaillant_import_error with Some _ => true | None => false end
  then Some (_VAILLANT_DEPENDENCY_MESSAGE
             ++ match _vaillant_import_error with
                | Some e => " (import error: " ++ e ++ ")"
                | None => EmptyString
                end)
  else None.

(** [os.getenv("VAILLANT_SERIAL", "UNKNOWN")]. *)
Definition getenv_serial (VAILLANT_SERIAL : option string) : string :=
  match VAILLANT_SERIAL with
  | Some s => s
  | None => "UNKNOWN"
  end.

(** What [get_system_state] hands back: nothing, one device state, or a
    list of device states. *)
Inductive state_payload : Type :=
| PayloadNone
| PayloadDict (d : dict)
| PayloadList (ds : list dict).

Definition payload_truthy (state_data : state_payload) : bool :=
  match state_data with
  | PayloadNone => false
  | PayloadDict d => match d with [] => false | _ => true end
  | PayloadList ds => match ds with [] => false | _ => true end
  end.

(** [for i, device_state in enumerate(state_data): result += ...], the
    counter and the text threaded through the loop. *)
Definition enumerate_devices (state_data : list dict) (result : string) : Z * string :=
  fold_left
    (fun (st : Z * string) device_state =>
       let (i, result) := st in
       ((i + 1)%Z, result ++ format_device_state device_state i))
    state_data (0%Z, result).

Definition vaillant_get_state
    (VaillantApi_bound : bool) (_vaillant_import_error : option string)
    (VAILLANT_SERIAL : option string)
    (get_system_state : string -> attempt state_payload) : string :=
  match dependency_guard VaillantApi_bound _vaillant_import_error with
  | Some message => message
  | None =>
      let serial := getenv_serial VAILLANT_SERIAL in
      if serial =? "UNKNOWN" then "Vaillant heat pump serial number not found."
      else
        match get_system_state serial with
        | Fail e => "Failed to fetch system state: " ++ e
        | Ok state_data =>
            if negb (payload_truthy state_data) then "No state data available."
            else
              let result := "# Vaillant System State" ++ LF ++ LF in
              match state_data with
              | PayloadList ds => snd (enumerate_devices ds result)
              | PayloadDict d => result ++ format_device_state d 0
              | PayloadNone => "No state data available."
              end
        end
  end.

(** [vaillant_energy_consumption] up to the call of the client: the guards
    and the two dates.  [consumption_report] stands for the rest of the
    function (the client call and the table), which receives the serial, the
    scale and the two parsed dates. *)
Section EnergyConsumption.
Context {Instant : Type}.
Variable fromisoformat : string -> outcome Instant.
Variable consumption_report : string -> string -> Instant -> Instant -> string.

Definition vaillant_energy_consumption
    (VaillantApi_bound : bool) (_vaillant_import_error : option string)
    (VAILLANT_SERIAL : option string)
    (from_datetime_yyyy_mm_dd to_datetime_yyyy_mm_dd : value) (scale : string) : string :=
  match dependency_guard VaillantApi_bound _vaillant_import_error with
  | Some message => message
  | None =>
      let serial := getenv_serial VAILLANT_SERIAL in
      if serial =? "UNKNOWN" then "Vaillant heat pump serial number not found."
      else
        let from_datetime := validate_and_parse_date fromisoformat from_datetime_yyyy_mm_dd in
        let to_datetime := validate_and_parse_date fromisoformat to_datetime_yyyy_mm_dd in
        match from_datetime, to_datetime with
        | Some f, Some t => consumption_report serial scale f t
        | _, _ => "Invalid date format. Please use YYYY-MM-DD or a valid format."
        end
  end.

End EnergyConsumption.



End VaillantTools.

(** ** JSON values as Python objects *)
Module Json.
Import PyStr PyVal Try.

Notation "x <~ a ;; b" := (and_then a (fun x => b))
  (at level 61, a at next level, right associativity).

(** What [response.json()] can hold. *)
Inductive json : Type :=
| JNull
| JBool (b : bool)
| JInt (n : Z)
| JFloat (printed : string)
| JStr (s : string)
| JList (items : list json)
| JObj (items : list (string * json)).

(** [type(x).__name__]. *)
Definition type_name (x : json) : string :=
  match x with
  | JNull => "NoneType"
  | JBool _ => "bool"
  | JInt _ => "int"
  | JFloat _ => "float"
  | JStr _ => "str"
  | JList _ => "list"
  | JObj _ => "dict"
  end.

(** [repr(x)] and [str(x)]. *)
Fixpoint jrepr (x : json) : string :=
  match x with
  | JNull => "None"
  | JBool b => str_bool b
  | JInt n => str_int n
  | JFloat p => p
  | JStr s => repr_str s
  | JList items => "[" ++ join ", " (map jrepr items) ++ "]"
  | JObj items =>
      "{" ++ join ", " (map (fun kv => repr_str (fst kv) ++ ": " ++ jrepr (snd kv)) items) ++ "}"
  end.

Definition jstr (x : json) : string :=
  match x with
  | JStr s => s
  | _ => jrepr x
  end.

Fixpoint lookup (items : list (string * json)) (key : string) : option json :=
  match items with
  | [] => None
  | (k, v) :: rest => if k =? key then Some v else lookup rest key
  end.

(** [key in d]. *)
Definition has_key (items : list (string * json)) (key : string) : bool :=
  match lookup items key with Some _ => true | None => false end.

Section Subscript.
(** The text of the [TypeError] raised by indexing a [str] with a [str]
    differs between Python versions; it is left open. *)
Variable str_index_error : string.

(** [x[key]] for a text [key]: a [KeyError] prints the [repr] of the key. *)
Definition getitem (x : json) (key : string) : attempt json :=
  match x with
  | JObj items =>
      match lookup items key with
      | Some v => Ok v
      | None => Fail (repr_str key)
      end
  | JList _ => Fail "list indices must be integers or slices, not str"
  | JStr _ => Fail str_index_error
  | _ => Fail ("'" ++ type_name x ++ "' object is not subscriptable")
  end.
End Subscript.

(** [x.get(key, default)]. *)
Definition get_or (x : json) (key : string) (default : json) : attempt json :=
  match x with
  | JObj items =>
      Ok match lookup items key with
         | Some v => v
         | None => default
         end
  | _ => Fail ("'" ++ type_name x ++ "' object has no attribute 'get'")
  end.

(** The elements [for ... in x] goes through: the items of a list, the
    keys of a dict, the characters of a text. *)
Definition iterate (x : json) : attempt (list json) :=
  match x with
  | JList items => Ok items
  | JObj items => Ok (map (fun kv => JStr (fst kv)) items)
  | JStr s => Ok (map (fun c => JStr (String c EmptyString)) (list_ascii_of_string s))
  | _ => Fail ("'" ++ type_name x ++ "' object is not iterable")
  end.

End Json.

(** ** [servers/carbonintensity.py]

    The HTTP request, the clock and the printing of a [datetime] are
    external: [_make_request] returns the decoded JSON object or raises,
    [now] is [datetime.now()], [isoformat] is [datetime.isoformat]. *)
Module CarbonIntensity.
Import PyStr PyVal Validators Try Json.

Section Tools.
Context {Instant : Type}.
Variable fromisoformat : string -> outcome Instant.
Variable now : Instant.
Variable isoformat : Instant -> string.
Variable _make_request : string -> attempt (list (string * json)).
Variable str_index_error : string.

(** [for i, period in enumerate(forecast_data): result += line], inside
    [try]: the counter and the text, until a line raises. *)
Definition forecast_loop (line : Z -> json -> attempt string)
    (forecast_data : list json) (result : string) : attempt string :=
  st <~ fold_left
          (fun (st : attempt (Z * string)) period =>
             st <~ st ;;
             text <~ line (fst st) period ;;
             Ok ((fst st + 1)%Z, snd st ++ text))
          forecast_data (Ok (0%Z, result)) ;;
  Ok (snd st).

(** The line of the postcode forecast. *)
Definition postcode_line (i : Z) (period : json) : attempt string :=
  intensity <~ getitem str_index_error period "intensity" ;;
  from_ <~ getitem str_index_error period "from" ;;
  to <~ getitem str_index_error period "to" ;;
  forecast <~ get_or intensity "forecast" (JStr "N/A") ;;
  index <~ get_or intensity "index" (JStr "N/A") ;;
  Ok (str_int (i + 1) ++ ". " ++ jstr from_ ++ " to " ++ jstr to ++ ": "
        ++ jstr forecast ++ "  " ++ jstr index ++ LF).

(** The line of the national forecast in list format. *)
Definition list_line (i : Z) (period : json) : attempt string :=
  intensity <~ getitem str_index_error period "intensity" ;;
  from_ <~ getitem str_index_error period "from" ;;
  to <~ getitem str_index_error period "to" ;;
  forecast <~ get_or intensity "forecast" (JStr "N/A") ;;
  index <~ get_or intensity "index" (JStr "N/A") ;;
  Ok (str_int (i + 1) ++ ". " ++ jstr from_ ++ " to " ++ jstr to ++ ": "
        ++ jstr forecast ++ " gCO2/kWh (" ++ jstr index ++ " level)" ++ LF).

(** The row of the national forecast in table format: the two [get] calls
    come before the period's own fields are read. *)
Definition table_row (i : Z) (period : json) : attempt string :=
  intensity <~ getitem str_index_error period "intensity" ;;
  forecast_value <~ get_or intensity "forecast" (JStr "N/A") ;;
  intensity_level <~ get_or intensity "index" (JStr "N/A") ;;
  from_ <~ getitem str_index_error period "from" ;;
  to <~ getitem str_index_error period "to" ;;
  Ok ("| " ++ str_int (i + 1) ++ " | " ++ jstr from_ ++ " | " ++ jstr to ++ " | "
        ++ jstr forecast_value ++ " | " ++ jstr intensity_level ++ " |" ++ LF).

(** [from_dt]: the clock when no text is given, else the validated text. *)
Definition starting_from (from_datetime : option string) : option Instant :=
  match from_datetime with
  | None => Some now
  | Some s => validate_datetime fromisoformat (VStr s)
  end.

Definition invalid_datetime : string :=
  "Invalid datetime format. Please use ISO 8601 format (e.g., 2025-05-01T01:00Z).".

Definition national_heading (from_dt : Instant) (forecast_hours : string) : string :=
  "# UK National Carbon Intensity Forecast" ++ LF ++ LF
  ++ "Starting from: " ++ isoformat from_dt ++ LF
  ++ "Forecast duration: " ++ forecast_hours ++ " hours" ++ LF ++ LF.

Definition table_heading : string :=
  "*Carbon intensity measures how much CO2 is emitted per unit of electricity generated (gCO2/kWh).*" ++ LF
  ++ "*Lower values are better for the environment. Index ranges: very low, low, moderate, high, very high.*" ++ LF ++ LF
  ++ "| # | From | To | Forecast (gCO2/kWh) | Intensity Level |" ++ LF
  ++ "|---|------|----|--------------------|----------------|" ++ LF.

Definition carbon_intensity_history_and_forecast_national
    (from_datetime : option string) (forecast_hours format_type : string) : string :=
  match starting_from from_datetime with
  | None => invalid_datetime
  | Some from_dt =>
      let tried :=
        let endpoint := "/intensity/" ++ isoformat from_dt ++ "/fw" ++ forecast_hours ++ "h" in
        data <~ _make_request endpoint ;;
        if match data with [] => true | _ => false end || negb (has_key data "data")
        then Ok "No forecast data available for the specified parameters."
        else
          forecast_data <~ getitem str_index_error (JObj data) "data" ;;
          if format_type =? "list" then
            let result := national_heading from_dt forecast_hours in
            periods <~ iterate forecast_data ;;
            forecast_loop list_line periods result
          else
            let result := national_heading from_dt forecast_hours ++ table_heading in
            periods <~ iterate forecast_data ;;
            forecast_loop table_row periods result
      in
      match tried with
      | Ok result => result
      | Fail e => "Failed to fetch carbon intensity forecast: " ++ e
      end
  end.

(** Truth value of an optional text: [None] and the empty text are false. *)
Definition given (text : option string) : option string :=
  match text with
  | Some s => if is_empty s then None else Some s
  | None => None
  end.

Definition invalid_postcode (postcode : string) : string :=
  "Invalid UK postcode format: " ++ postcode ++ ". Please provide a valid UK postcode.".

Definition carbon_intensity_history_and_forecast_for_postcode
    (from_datetime : option string) (forecast_hours : string)
    (postcode : option string) : string :=
  match starting_from from_datetime with
  | None => invalid_datetime
  | Some from_dt =>
      let attempted (outward_code : option string) : string :=
        let tried :=
          let endpoint :=
            match outward_code with
            | Some code =>
                "/regional/intensity/" ++ isoformat from_dt ++ "/fw" ++ forecast_hours
                  ++ "h/postcode/" ++ code
            | None => "/intensity/" ++ isoformat from_dt ++ "/fw" ++ forecast_hours ++ "h"
            end in
          data <~ _make_request endpoint ;;
          match data with
          | [] => Ok "No forecast data available for the specified parameters."
          | _ =>
              match outward_code with
              | Some code =>
                  inner <~ getitem str_index_error (JObj data) "data" ;;
                  location <~ getitem str_index_error inner "shortname" ;;
                  let result :=
                    "Carbon intensity forecast for "
                    ++ match postcode with Some p => p | None => "None" end
                    ++ " (outward code: " ++ code ++ ", " ++ jstr location ++ ") for "
                    ++ forecast_hours ++ " hours from " ++ isoformat from_dt ++ ":" ++ LF ++ LF in
                  inner <~ getitem str_index_error (JObj data) "data" ;;
                  forecast_data <~ getitem str_index_error inner "data" ;;
                  periods <~ iterate forecast_data ;;
                  forecast_loop postcode_line periods result
              | None =>
                  let result :=
                    "**National** carbon intensity forecast for " ++ forecast_hours
                    ++ " hours from " ++ isoformat from_dt
                    ++ " in gCO2/kWh and its intensity:" ++ LF ++ LF in
                  forecast_data <~ getitem str_index_error (JObj data) "data" ;;
                  periods <~ iterate forecast_data ;;
                  forecast_loop postcode_line periods result
              end
          end
        in
        match tried with
        | Ok result => result
        | Fail e => "Failed to fetch carbon intensity forecast: " ++ e
        end
      in
      match given postcode with
      | Some p =>
          match given (validate_and_parse_postcode (VStr p)) with
          | Some outward_code => attempted (Some outward_code)
          | None => invalid_postcode p
          end
      | None => attempted None
      end
  end.

(** [current_uk_grid_carbon_intensity_in_postcode] up to the request: the
    two checks of the postcode and the endpoint.  [current_report] stands
    for the rest of the function (the request and the text built from the
    answer), which receives the postcode as given, the outward code and the
    endpoint. *)
Variable current_report : string -> string -> string -> string.

Definition current_uk_grid_carbon_intensity_in_postcode (post_code : option string) : string :=
  let full_postcode := post_code in
  match given full_postcode with
  | None =>
      "User postcode not found. Please provide a postcode or set the USER_POSTCODE environment variable on the MCP server"
  | Some full_postcode =>
      match given (validate_and_parse_postcode (VStr full_postcode)) with
      | None => invalid_postcode full_postcode
      | Some outward_code =>
          let endpoint := "/regional/postcode/" ++ outward_code in
          current_report full_postcode outward_code endpoint
      end
  end.

End Tools.

End CarbonIntensity.

(** ** Auxiliary definitions for the tool functions *)
Module ToolsAux.
Import PyStr PyVal Try Json.

(** The pairs [enumerate] yields, counting from [i]. *)
Fixpoint indexed_from {A : Type} (i : Z) (l : list A) : list (Z * A) :=
  match l with
  | [] => []
  | x :: rest => (i, x) :: indexed_from (i + 1) rest
  end.




End ToolsAux.

(** ** The lines of a forecast, for periods that have every field *)
Module ForecastText.
Import PyStr PyVal Try Json ToolsAux.




Definition failure (e : string) : string :=
  "Failed to fetch carbon intensity forecast: " ++ e.

End ForecastText.

(** ** [format_device_state] on any object

    The embedding in the module [Vaillant] is typed: a mapping has texts
    for keys, at every depth.  The interpreter checks nothing of the kind
    before the call, and a method called on an object that does not have it
    raises.  This second embedding follows the same source lines on any
    object and gives the message of the exception where the interpreter
    raises one. *)
Module Dynamic.
Import PyStr PyVal Try Json Vaillant.

(** The objects a key can be (a tuple apart): a list or a mapping cannot
    be hashed. *)
Inductive key : Type :=
| KNone
| KBool (b : bool)
| KInt (n : Z)
| KFloat (printed : string)
| KStr (s : string).

Inductive object : Type :=
| ONone
| OBool (b : bool)
| OInt (n : Z)
| OFloat (printed : string)
| OStr (s : string)
| OList (items : list object)
| ODict (items : list (key * object)).

Definition key_object (k : key) : object :=
  match k with
  | KNone => ONone
  | KBool b => OBool b
  | KInt n => OInt n
  | KFloat p => OFloat p
  | KStr s => OStr s
  end.

(** [type(o).__name__]. *)
Definition class_name (o : object) : string :=
  match o with
  | ONone => "NoneType"
  | OBool _ => "bool"
  | OInt _ => "int"
  | OFloat _ => "float"
  | OStr _ => "str"
  | OList _ => "list"
  | ODict _ => "dict"
  end.

(** The text of the [AttributeError] for a missing method, and of the
    [TypeError] of a [for] over an object that cannot be iterated. *)
Definition no_attribute (o : object) (attribute : string) : string :=
  "'" ++ class_name o ++ "' object has no attribute '" ++ attribute ++ "'".

Definition not_iterable (o : object) : string :=
  "'" ++ class_name o ++ "' object is not iterable".

(** [repr(k)] for a key, [repr(o)] and [str(o)]. *)
Definition repr_key (k : key) : string :=
  match k with
  | KNone => "None"
  | KBool b => str_bool b
  | KInt n => str_int n
  | KFloat p => p
  | KStr s => repr_str s
  end.

Fixpoint repr_object (o : object) : string :=
  match o with
  | ONone => "None"
  | OBool b => str_bool b
  | OInt n => str_int n
  | OFloat p => p
  | OStr s => repr_str s
  | OList items => "[" ++ join ", " (map repr_object items) ++ "]"
  | ODict items =>
      "{" ++ join ", "
               (map (fun kv => repr_key (fst kv) ++ ": " ++ repr_object (snd kv))
                    items)
          ++ "}"
  end.

Definition str_object (o : object) : string :=
  match o with
  | OStr s => s
  | _ => repr_object o
  end.

Definition truth (o : object) : bool :=
  match o with
  | ONone => false
  | OBool b => b
  | OInt n => negb (n =? 0)%Z
  | OFloat p => negb ((p =? "0.0") || (p =? "-0.0"))
  | OStr s => negb (is_empty s)
  | OList items => match items with [] => false | _ => true end
  | ODict items => match items with [] => false | _ => true end
  end.

Definition is_bool (o : object) : bool :=
  match o with OBool _ => true | _ => false end.
Definition is_int_float (o : object) : bool :=
  match o with OBool _ | OInt _ | OFloat _ => true | _ => false end.

(** [key == name] for a text [name]. *)
Definition key_is (k : key) (name : string) : bool :=
  match k with
  | KStr s => s =? name
  | _ => false
  end.

(** [d.get(name, default)] for a text [name]. *)
Fixpoint get_item (items : list (key * object)) (name : string) (default : object) : object :=
  match items with
  | [] => default
  | (k, v) :: rest => if key_is k name then v else get_item rest name default
  end.

(** The methods the source calls on a key: [lower], [replace] and
    [capitalize] exist on a text only, and only a text can be iterated. *)
Definition lower_of (k : key) : attempt string :=
  match k with
  | KStr s => Ok (lower s)
  | _ => Fail (no_attribute (key_object k) "lower")
  end.

Definition replace_of (k : key) (old new : string) : attempt string :=
  match k with
  | KStr s => Ok (replace old new s)
  | _ => Fail (no_attribute (key_object k) "replace")
  end.

Definition capitalize_of (k : key) : attempt string :=
  match k with
  | KStr s => Ok (capitalize s)
  | _ => Fail (no_attribute (key_object k) "capitalize")
  end.

(** [" " + char if char.isupper() else char for char in name], joined,
    stripped and capitalized. *)
Definition readable_of (k : key) : attempt string :=
  match k with
  | KStr s => Ok (capitalize (strip (space_before_upper s)))
  | _ => Fail (not_iterable (key_object k))
  end.

(** A [for] loop whose body may raise. *)
Definition loop {A : Type} (body : string -> A -> attempt string)
    (items : list A) (result : string) : attempt string :=
  fold_left (fun state item => result <~ state ;; body result item) items (Ok result).

(** First loop. *)
Definition temperature_test (k : key) (v : object) : attempt bool :=
  lowered <~ lower_of k ;;
  Ok (contains "temperature" lowered && negb (key_is k "serialNumber") && is_int_float v).

Definition collect_temperatures (items : list (key * object))
  : attempt (list (key * object)) :=
  fold_left
    (fun state kv =>
       temperatures <~ state ;;
       hit <~ temperature_test (fst kv) (snd kv) ;;
       Ok (if hit then (temperatures ++ [kv])%list else temperatures))
    items (Ok []).

Definition temperature_entry (result : string) (entry : key * object) : attempt string :=
  let (name, v) := entry in
  readable_name <~ replace_of name "Temperature" " Temperature" ;;
  let readable_name := strip (space_before_upper readable_name) in
  let readable_name := capitalize readable_name in
  Ok (result ++ "- " ++ readable_name ++ ": " ++ str_object v ++ degrees ++ LF).

(** Second loop. *)
Definition collect_statuses (items : list (key * object)) : list (key * object) :=
  fold_left
    (fun statuses kv =>
       if is_bool (snd kv) && negb (key_is (fst kv) "serialNumber")
       then (statuses ++ [kv])%list else statuses)
    items [].

Definition status_entry (result : string) (entry : key * object) : attempt string :=
  let (name, v) := entry in
  readable_name <~ readable_of name ;;
  let status_text := if truth v then "Active" else "Inactive" in
  Ok (result ++ "- " ++ readable_name ++ ": " ++ status_text ++ LF).

(** Third loop. *)
Definition subsub_entry (result : string) (entry : key * object) : attempt string :=
  let (subsubkey, subsubvalue) := entry in
  readable_name <~ readable_of subsubkey ;;
  Ok (result ++ "- " ++ readable_name ++ ": " ++ str_object subsubvalue ++ LF).

Definition leaf_entry (result : string) (subkey : key) (subvalue : object) : attempt string :=
  readable_name <~ readable_of subkey ;;
  lowered <~ lower_of subkey ;;
  if contains "temperature" lowered && is_int_float subvalue
  then Ok (result ++ "- " ++ readable_name ++ ": " ++ str_object subvalue ++ degrees ++ LF)
  else
    lowered <~ lower_of subkey ;;
    if contains "pressure" lowered && is_int_float subvalue
    then Ok (result ++ "- " ++ readable_name ++ ": " ++ str_object subvalue ++ " bar" ++ LF)
    else if is_bool subvalue
    then
      let status_text := if truth subvalue then "Active" else "Inactive" in
      Ok (result ++ "- " ++ readable_name ++ ": " ++ status_text ++ LF)
    else Ok (result ++ "- " ++ readable_name ++ ": " ++ str_object subvalue ++ LF).

Definition sub_entry_raising (result : string) (entry : key * object) : attempt string :=
  let (subkey, subvalue) := entry in
  match subvalue with
  | ODict items =>
      title <~ capitalize_of subkey ;;
      let result := result ++ "#### " ++ title ++ LF ++ LF in
      loop subsub_entry items result
  | _ => leaf_entry result subkey subvalue
  end.

Definition nested_entry_raising (result : string) (entry : key * object) : attempt string :=
  let (k, v) := entry in
  match v with
  | ODict items =>
      if negb (key_is k "_metadata") then
        title <~ capitalize_of k ;;
        let result := result ++ "### " ++ title ++ LF ++ LF in
        result <~ loop sub_entry_raising items result ;;
        Ok (result ++ LF)
      else Ok result
  | _ => Ok result
  end.

(** [format_device_state(state_data, index)]: the report, or the message of
    the exception raised. *)
Definition format_device_state_raising (state_data : object) (index : Z) : attempt string :=
  match state_data with
  | ODict items =>
      let result := EmptyString in
      let serial := get_item items "serialNumber" (OStr ("Device " ++ str_int (index + 1))) in
      let device_type := get_item items "type" (OStr "Unknown") in
      let masked_serial :=
        match serial with
        | OStr s => if (24 <? String.length s)%nat then OStr ("V" ++ slice_from 24 s) else serial
        | _ => serial
        end in
      let result :=
        result ++ "## Device: " ++ str_object masked_serial
          ++ " (" ++ str_object device_type ++ ")" ++ LF ++ LF in
      temperatures <~ collect_temperatures items ;;
      result <~
        match temperatures with
        | [] => Ok result
        | _ =>
            let result := result ++ "### Temperatures" ++ LF ++ LF in
            result <~ loop temperature_entry temperatures result ;;
            Ok (result ++ LF)
        end ;;
      let statuses := collect_statuses items in
      result <~
        match statuses with
        | [] => Ok result
        | _ =>
            let result := result ++ "### Status Indicators" ++ LF ++ LF in
            result <~ loop status_entry statuses result ;;
            Ok (result ++ LF)
        end ;;
      loop nested_entry_raising items result
  | _ => Fail (no_attribute state_data "get")
  end.




End Dynamic.

(* ================================================================== *)
(** * Part II: properties *)
(* ================================================================== *)

Import PyStr PyVal Unicode Re Validators Vaillant Aux Try SerialValidator VaillantTools Json CarbonIntensity ToolsAux ForecastText.

(** ** Strings *)
Section StringFacts.

Lemma append_nil_r (s : string) : s ++ EmptyString = s.
Proof. induction s as [|c s IH]; simpl; [reflexivity | now rewrite IH]. Qed.

Lemma append_assoc (a b c : string) : (a ++ b) ++ c = a ++ (b ++ c).
Proof. induction a as [|x a IH]; simpl; [reflexivity | now rewrite IH]. Qed.

Lemma length_append (a b : string) :
  String.length (a ++ b) = String.length a + String.length b.
Proof. induction a as [|x a IH]; simpl; [reflexivity | now rewrite IH]. Qed.

Lemma slice_to_length (s : string) : slice_to (String.length s) s = s.
Proof. induction s as [|c s IH]; simpl; [reflexivity | now rewrite IH]. Qed.




End StringFacts.

(** ** The Unicode tables *)
Section UnicodeFacts.

Lemma assoc_In (c : N) (table : list (N * list N)) (u : list N) :
  assoc c table = Some u -> In (c, u) table.
Proof.
  induction table as [|[k v] table IH]; simpl; [discriminate|].
  destruct (N.eqb_spec k c) as [->|_].
  - intros E. inversion E. now left.
  - intros E. right. now apply IH.
Qed.

Lemma is_space_In (c : N) : is_space c = true -> In c whitespace.
Proof.
  unfold is_space. intros H. apply existsb_exists in H.
  destruct H as [w [Hin Hw]]. apply N.eqb_eq in Hw. now subst.
Qed.

Lemma AZ_not_decimal (c : N) : is_AZ c = true -> is_decimal c = false.
Proof.
  intros H. apply not_true_is_false. intros D.
  unfold is_decimal in D. apply existsb_exists in D. destruct D as [z [Hin Hz]].
  assert (forallb (fun z => (z + 10 <=? 65) || (90 <? z))%N decimal_zeros = true) as T
      by (vm_compute; reflexivity).
  rewrite forallb_forall in T. specialize (T z Hin).
  unfold is_AZ in H.
  apply andb_true_iff in H. destruct H as [H1 H2].
  apply andb_true_iff in Hz. destruct Hz as [Z1 Z2].
  apply N.leb_le in H1, H2, Z1. apply N.ltb_lt in Z2.
  apply orb_true_iff in T. destruct T as [T|T];
    [apply N.leb_le in T | apply N.ltb_lt in T]; lia.
Qed.

Lemma outward_char_not_space (c : N) :
  is_AZ c || is_decimal c = true -> is_space c = false.
Proof.
  intros H. apply not_true_is_false. intros S. apply is_space_In in S.
  assert (forallb (fun w => negb (is_AZ w || is_decimal w)) whitespace = true) as T
      by (vm_compute; reflexivity).
  rewrite forallb_forall in T. specialize (T c S). now rewrite H in T.
Qed.

Lemma outward_char_upper (c : N) :
  is_AZ c || is_decimal c = true -> upper_of c = [c].
Proof.
  intros H. unfold upper_of. destruct (assoc c uppercase) as [u|] eqn:E; [|reflexivity].
  apply assoc_In in E.
  assert (forallb (fun e => negb (is_AZ (fst e) || is_decimal (fst e))) uppercase = true) as T
      by (vm_compute; reflexivity).
  rewrite forallb_forall in T. specialize (T _ E). cbn [fst] in T. now rewrite H in T.
Qed.

Lemma outward_char_bound (c : N) :
  is_AZ c || is_decimal c = true -> (c < 2097152)%N.
Proof.
  intros H. apply orb_true_iff in H. destruct H as [H|H].
  - unfold is_AZ in H. apply andb_true_iff in H. destruct H as [_ H].
    apply N.leb_le in H. lia.
  - unfold is_decimal in H. apply existsb_exists in H. destruct H as [z [Hin Hz]].
    assert (forallb (fun z => (z + 10 <=? 2097152))%N decimal_zeros = true) as T
        by (vm_compute; reflexivity).
    rewrite forallb_forall in T. specialize (T z Hin). apply N.leb_le in T.
    apply andb_true_iff in Hz. destruct Hz as [_ Z2]. apply N.ltb_lt in Z2. lia.
Qed.

Lemma upper_of_no_line_feed (c x : N) :
  c <> 10%N -> In x (upper_of c) -> x <> 10%N.
Proof.
  intros Hc. unfold upper_of. destruct (assoc c uppercase) as [u|] eqn:E.
  - apply assoc_In in E.
    assert (forallb (fun e => forallb (fun x => negb (x =? 10)%N) (snd e)) uppercase = true) as T
        by (vm_compute; reflexivity).
    rewrite forallb_forall in T. specialize (T _ E). cbn [snd] in T.
    rewrite forallb_forall in T. intros Hx. specialize (T x Hx).
    apply negb_true_iff in T. now apply N.eqb_neq in T.
  - intros [<-|[]]. exact Hc.
Qed.

Lemma no_line_feed_normalized (text : list N) :
  no_line_feed (upper (sub_spaces text)) = true.
Proof.
  unfold no_line_feed, upper, sub_spaces. apply forallb_forall. intros x Hx.
  apply in_flat_map in Hx. destruct Hx as [c [Hc Hx]].
  apply filter_In in Hc. destruct Hc as [_ Hc].
  apply negb_true_iff. apply N.eqb_neq.
  apply (upper_of_no_line_feed c x); [|exact Hx].
  intros ->. discriminate Hc.
Qed.

End UnicodeFacts.

(** ** UTF-8 *)
Section Utf8.

Lemma byte_ascii (n : N) : (n < 256)%N -> byte (ascii_of_N n) = n.
Proof. intros H. unfold byte. now apply N_ascii_embedding. Qed.

Ltac decide_N :=
  repeat match goal with
         | |- context [(?a <? ?b)%N] =>
             first [ replace (a <? b)%N with true by (symmetry; apply N.ltb_lt; lia)
                   | replace (a <? b)%N with false by (symmetry; apply N.ltb_ge; lia) ]
         | |- context [(?a <=? ?b)%N] =>
             first [ replace (a <=? b)%N with true by (symmetry; apply N.leb_le; lia)
                   | replace (a <=? b)%N with false by (symmetry; apply N.leb_gt; lia) ]
         end.

Lemma decode_utf8 (n : N) (r : string) :
  (n < 2097152)%N -> decode (utf8 n ++ r) = n :: decode r.
Proof.
  intros H. unfold utf8.
  assert (n / 4096 = n / 64 / 64)%N as D2 by (rewrite N.Div0.div_div; reflexivity).
  assert (n / 262144 = n / 64 / 64 / 64)%N as D3 by (rewrite !N.Div0.div_div; reflexivity).
  rewrite D2, D3.
  pose proof (N.div_mod n 64 ltac:(discriminate)) as E1.
  pose proof (N.mod_lt n 64 ltac:(discriminate)) as M1.
  pose proof (N.div_mod (n / 64) 64 ltac:(discriminate)) as E2.
  pose proof (N.mod_lt (n / 64) 64 ltac:(discriminate)) as M2.
  pose proof (N.div_mod (n / 64 / 64) 64 ltac:(discriminate)) as E3.
  pose proof (N.mod_lt (n / 64 / 64) 64 ltac:(discriminate)) as M3.
  revert E1 M1 E2 M2 E3 M3.
  generalize (n mod 64)%N ((n / 64) mod 64)%N ((n / 64 / 64) mod 64)%N (n / 64 / 64 / 64)%N.
  generalize (n / 64 / 64)%N. generalize (n / 64)%N.
  intros q1 q2 m1 m2 m3 q3 E1 M1 E2 M2 E3 M3.
  destruct (N.ltb_spec n 128); [|destruct (N.ltb_spec n 2048); [|destruct (N.ltb_spec n 65536)]];
    cbn [append decode]; unfold is_continuation;
    rewrite !byte_ascii by lia; decide_N; cbn [andb]; f_equal; lia.
Qed.

Lemma decode_encode (text : list N) :
  Forall (fun c => (c < 2097152)%N) text -> decode (encode text) = text.
Proof.
  induction 1 as [|c text Hc _ IH]; [reflexivity|].
  cbn [encode fold_right]. fold (encode text).
  now rewrite decode_utf8, IH.
Qed.

Lemma utf8_nonempty (n : N) : utf8 n <> EmptyString.
Proof.
  unfold utf8. repeat match goal with |- context [if ?c then _ else _] => destruct c end;
    discriminate.
Qed.

Lemma encode_nonempty (text : list N) : text <> [] -> encode text <> EmptyString.
Proof.
  destruct text as [|c text]; [congruence|]. intros _. cbn [encode fold_right].
  pose proof (utf8_nonempty c). destruct (utf8 c); [congruence | discriminate].
Qed.

End Utf8.

(** ** The postcode validator *)
Section Postcode.

#[local] Arguments is_AZ : simpl never.
#[local] Arguments is_decimal : simpl never.

Lemma dollar_no_line_feed (rest : list N) :
  no_line_feed rest = true -> dollar rest = match rest with [] => true | _ => false end.
Proof.
  destruct rest as [|c [|d r]]; simpl; try reflexivity.
  rewrite andb_true_r. intros H. now apply negb_true_iff in H.
Qed.

(** The matcher only ever hands suffixes of its input to the continuation:
    two continuations that agree on a tail-closed set of texts give the
    same result on any text of the set. *)
Lemma run_ext_on {A : Type} (P : list N -> Prop)
      (Ptail : forall c r, P (c :: r) -> P r) (r : re) :
  forall (s : list N) (k k' : list N -> option A),
    P s -> (forall rest, P rest -> k rest = k' rest) -> run r s k = run r s k'.
Proof.
  induction r as [|p|r1 IH1 r2 IH2|r1 IH1 r2 IH2]; intros s k k' Hs Hk; simpl.
  - now apply Hk.
  - destruct s as [|c rest]; [reflexivity|].
    destruct (p c); [|reflexivity]. apply Hk. now apply Ptail with c.
  - apply IH1; [exact Hs|]. intros rest Hrest. now apply IH2.
  - rewrite (IH1 s k k' Hs Hk), (IH2 s k k' Hs Hk). reflexivity.
Qed.

Lemma no_line_feed_tail (c : N) (r : list N) :
  no_line_feed (c :: r) = true -> no_line_feed r = true.
Proof. simpl. intros H. now apply andb_true_iff in H. Qed.

Lemma full_match_at_end (p : list N) :
  no_line_feed p = true -> match_group1_of_2 outward_group inward_group p = full_at_end p.
Proof.
  intros Hp. unfold match_group1_of_2, full_at_end.
  apply (run_ext_on (fun s => no_line_feed s = true) no_line_feed_tail); [exact Hp|].
  intros rest1 H1.
  apply (run_ext_on (fun s => no_line_feed s = true) no_line_feed_tail); [exact H1|].
  intros rest2 H2. rewrite dollar_no_line_feed by exact H2. now destruct rest2.
Qed.

Lemma outward_match_at_end (p : list N) :
  no_line_feed p = true -> match_group1 outward_group p = outward_at_end p.
Proof.
  intros Hp. unfold match_group1, outward_at_end.
  apply (run_ext_on (fun s => no_line_feed s = true) no_line_feed_tail); [exact Hp|].
  intros rest1 H1. rewrite dollar_no_line_feed by exact H1. now destruct rest1.
Qed.

Ltac known :=
  repeat match goal with
         | H : is_AZ ?c = _ |- context [is_AZ ?c] => rewrite H
         | H : is_decimal ?c = _ |- context [is_decimal ?c] => rewrite H
         end.

Ltac settle := repeat (progress (cbn; known)); try reflexivity.

Ltac classify c :=
  let U := fresh "U" in
  let D := fresh "D" in
  destruct (is_AZ c) eqn:U;
  [ pose proof (AZ_not_decimal c U) as D | destruct (is_decimal c) eqn:D ].

Ltac explore :=
  settle;
  try match goal with
      | |- context [is_AZ ?c] => classify c; explore
      | |- context [is_decimal ?c] => classify c; explore
      end.

Lemma full_short (p : list N) :
  List.length p <= 8 -> full_at_end p = spec_full_result p.
Proof.
  intros H.
  unfold full_at_end, spec_full_result, outward_group, inward_group, rep_1_2, opt,
    upper_AZ, digit, spec_outward, spec_inward, consumed.
  do 9 (destruct p as [|? p]; [explore|]).
  simpl in H; lia.
Qed.

Lemma outward_short (p : list N) :
  List.length p <= 8 -> outward_at_end p = spec_outward_result p.
Proof.
  intros H.
  unfold outward_at_end, spec_outward_result, outward_group, rep_1_2, opt,
    upper_AZ, digit, spec_outward, consumed.
  do 9 (destruct p as [|? p]; [explore|]).
  simpl in H; lia.
Qed.

(** Neither pattern can use up nine characters or more. *)
Lemma full_long (p : list N) : 9 <= List.length p -> full_at_end p = None.
Proof.
  intros H.
  unfold full_at_end, outward_group, inward_group, rep_1_2, opt, upper_AZ, digit.
  do 9 (destruct p as [|? p]; [simpl in H; lia|]).
  explore.
Qed.

Lemma outward_long (p : list N) : 9 <= List.length p -> outward_at_end p = None.
Proof.
  intros H.
  unfold outward_at_end, outward_group, rep_1_2, opt, upper_AZ, digit.
  do 9 (destruct p as [|? p]; [simpl in H; lia|]).
  explore.
Qed.

Lemma span_append (f : N -> bool) (s : list N) :
  (fst (span f s) ++ snd (span f s))%list = s.
Proof.
  induction s as [|c s IH]; simpl; [reflexivity|].
  destruct (f c); [|reflexivity].
  destruct (span f s) as [a b]; simpl in *. now rewrite IH.
Qed.

Lemma one_or_two_le (n : nat) : one_or_two n = true -> 1 <= n <= 2.
Proof.
  unfold one_or_two. intros H. apply orb_true_iff in H.
  destruct H as [H|H]; apply Nat.eqb_eq in H; lia.
Qed.

(** An outward code has two to five characters. *)
Lemma spec_outward_length (q : list N) :
  spec_outward q = true -> 2 <= List.length q <= 5.
Proof.
  unfold spec_outward.
  pose proof (span_append is_AZ q) as E1.
  destruct (span is_AZ q) as [letters r]; simpl in E1.
  pose proof (span_append is_decimal r) as E2.
  destruct (span is_decimal r) as [ds tail]; simpl in E2.
  intros H. apply andb_true_iff in H. destruct H as [H Ht].
  apply andb_true_iff in H. destruct H as [Hl Hd].
  apply one_or_two_le in Hl. apply one_or_two_le in Hd.
  assert (List.length tail <= 1) as Htail
    by (destruct tail as [|c [|d t]]; simpl; [lia | lia | discriminate]).
  rewrite <- E1, <- E2, !length_app. lia.
Qed.

Lemma spec_full_long (p : list N) : 9 <= List.length p -> spec_full_result p = None.
Proof.
  intros H. unfold spec_full_result.
  destruct (spec_outward (firstn (List.length p - 3) p)) eqn:E.
  - apply spec_outward_length in E. rewrite length_firstn in E. lia.
  - now rewrite andb_false_r.
Qed.

Lemma spec_outward_long (p : list N) : 9 <= List.length p -> spec_outward_result p = None.
Proof.
  intros H. unfold spec_outward_result.
  destruct (spec_outward p) eqn:E; [|reflexivity].
  apply spec_outward_length in E. lia.
Qed.

Lemma full_at_end_spec (p : list N) : full_at_end p = spec_full_result p.
Proof.
  destruct (le_lt_dec (List.length p) 8) as [H|H].
  - now apply full_short.
  - rewrite full_long, spec_full_long by lia. reflexivity.
Qed.

Lemma outward_at_end_spec (p : list N) : outward_at_end p = spec_outward_result p.
Proof.
  destruct (le_lt_dec (List.length p) 8) as [H|H].
  - now apply outward_short.
  - rewrite outward_long, spec_outward_long by lia. reflexivity.
Qed.

Lemma postcode_refines (raw : value) :
  validate_and_parse_postcode raw = spec_normalize_postcode raw.
Proof.
  unfold validate_and_parse_postcode, spec_normalize_postcode.
  destruct raw as [|b|n|f|s|items]; try reflexivity;
    try (now match goal with |- (if ?c then _ else _) = _ => destruct c end).
  destruct s as [|c s]; [reflexivity|].
  cbn [truthy is_empty negb].
  set (p := upper (sub_spaces (decode (String c s)))).
  pose proof (no_line_feed_normalized (decode (String c s))) as Hp. fold p in Hp.
  rewrite (full_match_at_end p Hp), (outward_match_at_end p Hp).
  rewrite full_at_end_spec, outward_at_end_spec.
  unfold spec_full_result, spec_outward_result.
  destruct ((3 <=? List.length p)%nat && spec_outward (firstn (List.length p - 3) p)
            && spec_inward (skipn (List.length p - 3) p)); [reflexivity|].
  destruct (spec_outward p); reflexivity.
Qed.

(** *** Feeding an outward code back *)

Lemma span_all (f : N -> bool) (s : list N) :
  forallb f (fst (span f s)) = true.
Proof.
  induction s as [|c s IH]; simpl; [reflexivity|].
  destruct (f c) eqn:E; [|reflexivity].
  destruct (span f s) as [a b]; simpl in *. now rewrite E, IH.
Qed.

Lemma upper_alnum_append (a b : list N) :
  upper_alnum (a ++ b) = upper_alnum a && upper_alnum b.
Proof. apply forallb_app. Qed.

Lemma all_upper_alnum (f : N -> bool) (s : list N) :
  (forall c, f c = true -> is_AZ c || is_decimal c = true) ->
  forallb f s = true ->
  upper_alnum s = true.
Proof.
  intros Hf H. unfold upper_alnum. rewrite forallb_forall in *.
  intros c Hc. apply Hf. now apply H.
Qed.

Lemma spec_outward_upper_alnum (q : list N) :
  spec_outward q = true -> upper_alnum q = true.
Proof.
  unfold spec_outward.
  pose proof (span_append is_AZ q) as E1.
  pose proof (span_all is_AZ q) as A1.
  destruct (span is_AZ q) as [letters r]; cbn [fst snd] in E1, A1.
  pose proof (span_append is_decimal r) as E2.
  pose proof (span_all is_decimal r) as A2.
  destruct (span is_decimal r) as [ds tail]; cbn [fst snd] in E2, A2.
  intros H. apply andb_true_iff in H. destruct H as [_ Ht].
  rewrite <- E1, <- E2, !upper_alnum_append.
  rewrite (all_upper_alnum is_AZ letters) by (assumption || (intros c ->; reflexivity)).
  rewrite (all_upper_alnum is_decimal ds)
    by (assumption || (intros c ->; now rewrite orb_true_r)).
  destruct tail as [|c [|d t]]; simpl; [reflexivity | | discriminate].
  now rewrite Ht.
Qed.

Lemma upper_alnum_normalized (q : list N) :
  upper_alnum q = true -> upper (sub_spaces q) = q.
Proof.
  unfold upper, sub_spaces, upper_alnum.
  induction q as [|c q IH]; [reflexivity|].
  cbn [forallb filter]. intros H. apply andb_true_iff in H. destruct H as [Hc Hq].
  rewrite (outward_char_not_space c Hc). cbn [negb flat_map].
  now rewrite (outward_char_upper c Hc), (IH Hq).
Qed.

Lemma upper_alnum_decoded (q : list N) :
  upper_alnum q = true -> decode (encode q) = q.
Proof.
  intros H. apply decode_encode. apply Forall_forall. intros c Hc.
  apply outward_char_bound. unfold upper_alnum in H. rewrite forallb_forall in H.
  now apply H.
Qed.

Lemma outward_not_full (q : list N) :
  spec_outward q = true -> spec_full_result q = None.
Proof.
  intros H. pose proof (spec_outward_length q H) as L. revert H.
  unfold spec_full_result, spec_outward, spec_inward.
  do 6 (destruct q as [|? q];
        [explore; intros; first [reflexivity | discriminate]|]).
  simpl in L; lia.
Qed.

Lemma outward_fixed (q : list N) :
  spec_outward q = true -> validate_and_parse_postcode (VStr (encode q)) = Some (encode q).
Proof.
  intros H. rewrite postcode_refines. unfold spec_normalize_postcode.
  pose proof (spec_outward_length q H) as L.
  assert (q <> []) as Hq by (intros ->; simpl in L; lia).
  pose proof (encode_nonempty q Hq) as Hn.
  destruct (encode q) as [|c e] eqn:E; [congruence|]. cbn [is_empty]. rewrite <- E.
  rewrite (upper_alnum_decoded _ (spec_outward_upper_alnum _ H)).
  rewrite (upper_alnum_normalized _ (spec_outward_upper_alnum _ H)).
  pose proof (outward_not_full _ H) as F. unfold spec_full_result in F.
  destruct ((3 <=? List.length q)%nat
            && spec_outward (firstn (List.length q - 3) q)
            && spec_inward (skipn (List.length q - 3) q));
    [discriminate F|].
  now rewrite H.
Qed.

Lemma result_is_outward (raw : value) (g : string) :
  validate_and_parse_postcode raw = Some g ->
  exists q, g = encode q /\ spec_outward q = true.
Proof.
  rewrite postcode_refines. unfold spec_normalize_postcode.
  destruct raw as [| | | |s|]; try discriminate.
  destruct (is_empty s); [discriminate|].
  set (p := upper (sub_spaces (decode s))).
  destruct ((3 <=? List.length p)%nat
            && spec_outward (firstn (List.length p - 3) p)
            && spec_inward (skipn (List.length p - 3) p)) eqn:E.
  - intros G. inversion G; subst g. eexists. split; [reflexivity|].
    apply andb_true_iff in E. destruct E as [E _].
    apply andb_true_iff in E. now destruct E as [_ E].
  - destruct (spec_outward p) eqn:O; [|discriminate].
    intros G. inversion G; subst g. now exists p.
Qed.

End Postcode.


(** Beyond ASCII the validator follows the interpreter's tables: a no-break
    space (U+00A0) is whitespace, an Arabic-Indic digit (U+0661) is a digit
    and stays in the result, the long s (U+017F) has S for its upper case,
    and a capital E with acute (U+00C9) is no letter of a postcode. *)
Lemma postcode_beyond_ascii :
  validate_and_parse_postcode (VStr ("SW1A" ++ utf8 0xA0%N ++ "1AA")) = Some "SW1A"
  /\ validate_and_parse_postcode (VStr ("SW" ++ utf8 0x661%N ++ "A"))
     = Some ("SW" ++ utf8 0x661%N ++ "A")
  /\ validate_and_parse_postcode (VStr (utf8 0x17F%N ++ "w1a")) = Some "SW1A"
  /\ validate_and_parse_postcode (VStr (utf8 0xC9%N ++ "1")) = None.
Proof. repeat split; vm_compute; reflexivity. Qed.

(** Idempotence (specification, section 8).  Whatever
    [validate_and_parse_postcode] returns is an outward code, made of
    capital letters A to Z and decimal digits only, and feeding it back
    returns it unchanged. *)
Theorem normalize_postcode_idempotent (raw : value) (g : string) :
  validate_and_parse_postcode raw = Some g ->
  spec_outward (decode g) = true
  /\ upper_alnum (decode g) = true
  /\ validate_and_parse_postcode (VStr g) = Some g.
Proof.
  intros H. destruct (result_is_outward raw g H) as [q [-> O]].
  pose proof (spec_outward_upper_alnum q O) as A.
  rewrite (upper_alnum_decoded q A).
  split; [exact O|]. split; [exact A|].
  now apply outward_fixed.
Qed.

(** A full postcode, then its outward code fed back. *)
Lemma normalize_postcode_idempotent_witness :
  validate_and_parse_postcode (VStr "SW1A") = Some "SW1A".
Proof.
  assert (validate_and_parse_postcode (VStr "sw1a 1aa") = Some "SW1A") as H
      by (vm_compute; reflexivity).
  destruct (normalize_postcode_idempotent _ _ H) as [_ [_ G]]. exact G.
Defined.

(** ** The date and datetime validators *)
Section TemporalFacts.
Context {Instant : Type}.
Variable parse : string -> outcome Instant.

Lemma date_rejects_non_string (raw : value) :
  isinstance_str raw = false -> validate_and_parse_date parse raw = None.
Proof.
  unfold validate_and_parse_date.
  destruct raw; simpl; try discriminate; intros _;
    first [ reflexivity
          | now match goal with |- (if ?c then _ else _) = _ => destruct c end ].
Qed.

Lemma date_rejects_short (s : string) :
  String.length s < 8 -> validate_and_parse_date parse (VStr s) = None.
Proof.
  intros H. unfold validate_and_parse_date.
  destruct (negb (truthy (VStr s))); [reflexivity|].
  apply Nat.ltb_lt in H. now rewrite H.
Qed.

Lemma date_rejects_unparsed (s : string) :
  parse s = Raised -> validate_and_parse_date parse (VStr s) = None.
Proof.
  intros H. unfold validate_and_parse_date.
  destruct (negb (truthy (VStr s))); [reflexivity|].
  destruct (String.length s <? 8)%nat; [reflexivity|]. now rewrite H.
Qed.

Lemma date_returns_parsed (s : string) (dt : Instant) :
  8 <= String.length s -> parse s = Returned dt ->
  validate_and_parse_date parse (VStr s) = Some dt.
Proof.
  intros Hlen H. unfold validate_and_parse_date.
  destruct s as [|c s]; [simpl in Hlen; lia|].
  cbn [truthy is_empty negb].
  assert ((String.length (String c s) <? 8)%nat = false) as E
      by (apply Nat.ltb_ge; exact Hlen).
  now rewrite E, H.
Qed.

Lemma datetime_rejects_non_string (raw : value) :
  isinstance_str raw = false -> validate_datetime parse raw = None.
Proof.
  unfold validate_datetime.
  destruct raw; simpl; try discriminate; intros _;
    first [ reflexivity
          | now match goal with |- (if ?c then _ else _) = _ => destruct c end ].
Qed.

Lemma datetime_delegates (s : string) :
  s <> EmptyString ->
  validate_datetime parse (VStr s)
  = match parse (replace "Z" "+00:00" s) with Returned dt => Some dt | Raised => None end.
Proof.
  intros H. unfold validate_datetime.
  destruct s as [|c s]; [congruence | reflexivity].
Qed.

End TemporalFacts.

(** [replace] with the one-character [old] of [validate_datetime], read
    character by character: every [Z] becomes the offset. *)
Lemma replace_Z_step (c : ascii) (s : string) :
  replace "Z" "+00:00" (String c s)
  = (if Ascii.eqb c "Z" then "+00:00" else String c EmptyString)
      ++ replace "Z" "+00:00" s.
Proof.
  unfold replace. cbn [replace_from String.prefix String.length Nat.sub].
  destruct (ascii_dec "Z" c) as [E|E].
  - subst c. destruct s; reflexivity.
  - assert (Ascii.eqb c "Z" = false) as F
        by (apply Ascii.eqb_neq; congruence).
    rewrite F. reflexivity.
Qed.

Lemma replace_Z_free (s : string) :
  has_char "Z" s = false -> replace "Z" "+00:00" s = s.
Proof.
  induction s as [|c s IH]; [reflexivity|].
  simpl has_char. intros H. apply orb_false_iff in H. destruct H as [Hc Hs].
  rewrite replace_Z_step, Hc, (IH Hs). reflexivity.
Qed.

Lemma replace_Z_after_free (s t : string) :
  has_char "Z" s = false ->
  replace "Z" "+00:00" (s ++ t) = s ++ replace "Z" "+00:00" t.
Proof.
  induction s as [|c s IH]; [reflexivity|].
  simpl has_char. intros H. apply orb_false_iff in H. destruct H as [Hc Hs].
  change (String c s ++ t) with (String c (s ++ t)).
  rewrite replace_Z_step, Hc, (IH Hs). reflexivity.
Qed.

(** C8.  [validate_and_parse_date] never raises: it returns nothing for a
    non-string, for every string shorter than 8 characters and for every
    string the ISO-8601 parse rejects, whatever that parser is; on a string
    of 8 characters or more that parses it returns the parsed instant.  With
    the reference parser, "2025-05-01" succeeds while "2025" and [None] are
    invalid. *)
Theorem parse_date_invalid_or_parsed :
  (forall (Instant : Type) (parse : string -> outcome Instant),
      (forall raw, isinstance_str raw = false -> validate_and_parse_date parse raw = None)
      /\ (forall s, String.length s < 8 -> validate_and_parse_date parse (VStr s) = None)
      /\ (forall s, parse s = Raised -> validate_and_parse_date parse (VStr s) = None)
      /\ (forall s dt, 8 <= String.length s -> parse s = Returned dt ->
                       validate_and_parse_date parse (VStr s) = Some dt))
  /\ validate_and_parse_date iso_fromisoformat (VStr "2025-05-01")
     = Some (mkdatetime 2025 5 1 0 0 0 0 None)
  /\ validate_and_parse_date iso_fromisoformat (VStr "2025") = None
  /\ validate_and_parse_date iso_fromisoformat VNone = None.
Proof.
  split; [|repeat split; reflexivity].
  intros Instant parse. repeat split.
  - apply date_rejects_non_string.
  - apply date_rejects_short.
  - apply date_rejects_unparsed.
  - apply date_returns_parsed.
Qed.

(** C7 as stated fails: [validate_datetime] replaces every [Z], not only a
    trailing one.  The text handed to the parser for "2025-05-01Z01:00Z" has
    both replaced; and "2025-05-01Z01:00", which has no trailing [Z] and
    which the reference parser accepts as it stands (any one character may
    separate date and time), is rejected because its inner [Z] was
    replaced. *)
Lemma parse_datetime_replaces_inner_Z :
  validate_datetime (fun s => Returned s) (VStr "2025-05-01Z01:00Z")
  = Some "2025-05-01+00:0001:00+00:00"
  /\ replace_trailing_Z "2025-05-01Z01:00Z" = "2025-05-01Z01:00+00:00"
  /\ replace_trailing_Z "2025-05-01Z01:00" = "2025-05-01Z01:00"
  /\ iso_fromisoformat (replace_trailing_Z "2025-05-01Z01:00")
     = Returned (mkdatetime 2025 5 1 1 0 0 0 None)
  /\ validate_datetime iso_fromisoformat (VStr "2025-05-01Z01:00") = None.
Proof. repeat split; reflexivity. Qed.

(** C7, amended.  [validate_datetime] rejects non-strings and the empty
    string and, before parsing, replaces every [Z] of the text with
    [+00:00]; a [Z] that ends a text holding no other [Z] becomes the
    explicit offset, so such a text and the same text written with
    [+00:00] give the same result with any parser.  With the reference
    parser "2025-05-01T01:00Z" succeeds and denotes the instant of
    "2025-05-01T01:00+00:00". *)
Theorem parse_datetime_replaces_every_Z :
  (forall (Instant : Type) (parse : string -> outcome Instant),
      (forall raw, isinstance_str raw = false -> validate_datetime parse raw = None)
      /\ validate_datetime parse (VStr EmptyString) = None
      /\ (forall s, s <> EmptyString ->
            validate_datetime parse (VStr s)
            = match parse (replace "Z" "+00:00" s) with
              | Returned dt => Some dt
              | Raised => None
              end)
      /\ (forall c s, replace "Z" "+00:00" (String c s)
                      = (if Ascii.eqb c "Z" then "+00:00" else String c EmptyString)
                          ++ replace "Z" "+00:00" s)
      /\ (forall s, has_char "Z" s = false ->
            validate_datetime parse (VStr (s ++ "Z"))
            = validate_datetime parse (VStr (s ++ "+00:00"))))
  /\ validate_datetime iso_fromisoformat (VStr "2025-05-01T01:00Z")
     = Some (mkdatetime 2025 5 1 1 0 0 0 (Some 0%Z))
  /\ validate_datetime iso_fromisoformat (VStr "2025-05-01T01:00Z")
     = validate_datetime iso_fromisoformat (VStr "2025-05-01T01:00+00:00").
Proof.
  split; [|split; reflexivity].
  intros Instant parse. repeat split.
  - apply datetime_rejects_non_string.
  - apply datetime_delegates.
  - apply replace_Z_step.
  - intros s Hs.
    assert (forall t, t <> EmptyString -> s ++ t <> EmptyString) as Hne
        by (intros t Ht; destruct s; simpl; [exact Ht | discriminate]).
    rewrite !datetime_delegates by (apply Hne; discriminate).
    rewrite !replace_Z_after_free by exact Hs. reflexivity.
Qed.

(** ** The device-state formatter: loops as lists *)
Section Loops.
Context {A : Type}.

Lemma fold_left_text (g : string -> A -> string) (h : A -> string) :
  (forall r e, g r e = r ++ h e) ->
  forall l r, fold_left g l r = r ++ lines (map h l).
Proof.
  intros Hg. induction l as [|e l IH]; intros r; simpl.
  - now rewrite append_nil_r.
  - now rewrite IH, Hg, append_assoc.
Qed.

Lemma collect_filter (f : A -> bool) (l acc : list A) :
  fold_left (fun acc e => if f e then (acc ++ [e])%list else acc) l acc
  = (acc ++ filter f l)%list.
Proof.
  revert acc. induction l as [|e l IH]; intros acc; simpl.
  - now rewrite app_nil_r.
  - rewrite IH. destruct (f e); [|reflexivity].
    now rewrite <- app_assoc.
Qed.

Lemma lines_filter (f : A -> bool) (h : A -> string) (l : list A) :
  lines (map (fun e => if f e then h e else EmptyString) l) = lines (map h (filter f l)).
Proof.
  induction l as [|e l IH]; simpl; [reflexivity|].
  destruct (f e); simpl; now rewrite IH.
Qed.

Lemma Subseq_filter (f : A -> bool) (l : list A) : Subseq (filter f l) l.
Proof.
  induction l as [|e l IH]; simpl; [constructor|].
  destruct (f e); now constructor.
Qed.

Lemma Subseq_In (l1 l2 : list A) (x : A) : Subseq l1 l2 -> In x l1 -> In x l2.
Proof.
  induction 1 as [|y l1 l2 _ IH|y l1 l2 _ IH]; simpl; intuition.
Qed.

End Loops.

Section Records.

Lemma temperatures_filter (d : dict) :
  temperatures d = filter (fun kv => is_temperature_field (fst kv) (snd kv)) d.
Proof. unfold temperatures. now rewrite collect_filter. Qed.

Lemma statuses_filter (d : dict) :
  statuses d = filter (fun kv => is_status_field (fst kv) (snd kv)) d.
Proof. unfold statuses. now rewrite collect_filter. Qed.

Lemma keys_filter_incl (f : string * value -> bool) (d : dict) (k : string) :
  In k (keys (filter f d)) -> In k (keys d).
Proof.
  unfold keys. intros H. apply in_map_iff in H. destruct H as [[k' v] [E H]].
  apply filter_In in H. destruct H as [H _].
  apply in_map_iff. now exists (k', v).
Qed.

Lemma NoDup_keys_filter (f : string * value -> bool) (d : dict) :
  NoDup (keys d) -> NoDup (keys (filter f d)).
Proof.
  unfold keys. induction d as [|[k v] d IH]; simpl; intros H; [constructor|].
  inversion H as [|? ? Hk Hd]; subst.
  destruct (f (k, v)); simpl; [|now apply IH].
  constructor; [|now apply IH].
  intros Hin. apply Hk. now apply (keys_filter_incl f).
Qed.

(** With distinct keys, an entry is the only one under its key. *)
Lemma NoDup_keys_value (d : dict) (k : string) (v w : value) :
  NoDup (keys d) -> In (k, v) d -> In (k, w) d -> v = w.
Proof.
  unfold keys. induction d as [|[k' v'] d IH]; simpl; intros H Hv Hw; [contradiction|].
  inversion H as [|? ? Hk Hd]; subst.
  destruct Hv as [Hv|Hv], Hw as [Hw|Hw].
  - congruence.
  - inversion Hv; subst. exfalso. apply Hk. apply in_map_iff. now exists (k, w).
  - inversion Hw; subst. exfalso. apply Hk. apply in_map_iff. now exists (k, v).
  - now apply IH.
Qed.

Lemma filter_key_once (f : string * value -> bool) (d : dict) (k : string) (v : value) :
  NoDup (keys d) -> In (k, v) d -> f (k, v) = true ->
  count_occ string_dec (keys (filter f d)) k = 1.
Proof.
  intros Hd Hin Hf.
  apply (proj1 (NoDup_count_occ' string_dec _) (NoDup_keys_filter f d Hd)).
  unfold keys. apply in_map_iff. exists (k, v). split; [reflexivity|].
  apply filter_In. now split.
Qed.

Lemma filter_key_absent (f : string * value -> bool) (d : dict) (k : string) (v : value) :
  NoDup (keys d) -> In (k, v) d -> f (k, v) = false -> ~ In k (keys (filter f d)).
Proof.
  intros Hd Hin Hf H. unfold keys in H. apply in_map_iff in H.
  destruct H as [[k' w] [E H]]. simpl in E. subst k'.
  apply filter_In in H. destruct H as [Hw Hfw].
  rewrite (NoDup_keys_value d k v w Hd Hin Hw) in Hf. congruence.
Qed.

Lemma get_absent (d : dict) (k : string) (default : value) :
  ~ In k (keys d) -> get d k default = default.
Proof.
  unfold keys. induction d as [|[k' v] d IH]; simpl; intros H; [reflexivity|].
  destruct (String.eqb_spec k' k) as [E|E]; [exfalso; now apply H; left|].
  apply IH. intros Hin. apply H. now right.
Qed.

Lemma get_present (d : dict) (k : string) (v default : value) :
  NoDup (keys d) -> In (k, v) d -> get d k default = v.
Proof.
  unfold keys. induction d as [|[k' v'] d IH]; simpl; intros H Hin; [contradiction|].
  inversion H as [|? ? Hk Hd]; subst.
  destruct Hin as [Hin|Hin].
  - inversion Hin; subst. now rewrite String.eqb_refl.
  - destruct (String.eqb_spec k' k) as [E|E]; [|now apply IH].
    subst k'. exfalso. apply Hk. apply in_map_iff. now exists (k, v).
Qed.

Lemma sub_entry_text (result : string) (entry : string * value) :
  sub_entry result entry = result ++ sub_text entry.
Proof.
  destruct entry as [subkey subvalue]. unfold sub_entry, sub_text.
  destruct subvalue; try reflexivity. cbn [fst snd].
  rewrite (fold_left_text (fun result e => result ++ subsub_line e) subsub_line)
    by reflexivity.
  now rewrite !append_assoc.
Qed.

Lemma nested_entry_text (result : string) (entry : string * value) :
  nested_entry result entry
  = result ++ (if is_nested_field (fst entry) (snd entry) then nested_text entry
               else EmptyString).
Proof.
  destruct entry as [key v]. unfold nested_entry, nested_text, is_nested_field.
  destruct v; cbn [fst snd isinstance_dict andb]; try now rewrite append_nil_r.
  destruct (negb (key =? "_metadata")); [|now rewrite append_nil_r].
  rewrite (fold_left_text sub_entry sub_text sub_entry_text).
  now rewrite !append_assoc.
Qed.

(** The report, loop by loop: the header, the two collected sections with
    one line per collected entry, then one section per nested mapping. *)
Lemma format_device_state_report (d : dict) (index : Z) :
  format_device_state d index
  = header d index
      ++ section "### Temperatures" (map temperature_line (temperatures d))
      ++ section "### Status Indicators" (map status_line (statuses d))
      ++ lines (map nested_text (nested_sections d)).
Proof.
  unfold format_device_state, nested_sections.
  rewrite (fold_left_text nested_entry _ nested_entry_text).
  rewrite (lines_filter (fun kv => is_nested_field (fst kv) (snd kv)) nested_text).
  cbn [append].
  assert (forall title (f : string * value -> string) l r,
             match l with
             | [] => r
             | _ => fold_left (fun result e => result ++ f e) l (r ++ title ++ LF ++ LF) ++ LF
             end = r ++ section title (map f l)) as Hsec.
  { intros title f l r. destruct l as [|e l]; [now rewrite append_nil_r|].
    rewrite (fold_left_text (fun result e => result ++ f e) f) by reflexivity.
    unfold section. cbn [map]. now rewrite !append_assoc. }
  rewrite (Hsec "### Temperatures" temperature_line).
  rewrite (Hsec "### Status Indicators" status_line).
  now rewrite !append_assoc.
Qed.

End Records.

(** ** The device-state formatter: classification *)
Section Classification.

Lemma filter_key_never (f : string * value -> bool) (d : dict) (k : string) :
  (forall v, f (k, v) = false) -> ~ In k (keys (filter f d)).
Proof.
  intros Hf H. unfold keys in H. apply in_map_iff in H.
  destruct H as [[k' w] [E H]]. simpl in E. subst k'.
  apply filter_In in H. destruct H as [_ H]. rewrite Hf in H. discriminate.
Qed.

Lemma serial_not_temperature (v : value) : is_temperature_field "serialNumber" v = false.
Proof. reflexivity. Qed.

Lemma metadata_not_temperature (v : value) : is_temperature_field "_metadata" v = false.
Proof. reflexivity. Qed.

Lemma serial_not_status (v : value) : is_status_field "serialNumber" v = false.
Proof. unfold is_status_field. now rewrite andb_false_r. Qed.

Lemma metadata_not_nested (v : value) : is_nested_field "_metadata" v = false.
Proof. unfold is_nested_field. now rewrite andb_false_r. Qed.

Lemma plain_number_temperature (k : string) (v : value) :
  is_plain_number v = true -> mentions "temperature" k = true ->
  is_temperature_field k v = true.
Proof.
  intros Hv Hk. unfold is_temperature_field. unfold mentions in Hk. rewrite Hk.
  destruct (String.eqb_spec k "serialNumber") as [E|E].
  - subst k. discriminate Hk.
  - destruct v; try discriminate Hv; reflexivity.
Qed.

Lemma plain_number_other_rules (k : string) (v : value) :
  is_plain_number v = true ->
  is_status_field k v = false /\ is_nested_field k v = false.
Proof. destruct v; try discriminate; intros _; split; reflexivity. Qed.

Lemma boolean_status (k : string) (b : bool) :
  k <> "serialNumber" -> is_status_field k (VBool b) = true.
Proof.
  intros H. unfold is_status_field. simpl.
  now destruct (String.eqb_spec k "serialNumber").
Qed.

End Classification.

(** C1.  The code breaks the claim on a boolean whose key mentions a
    temperature: a [bool] passes [isinstance(v, (int, float))], so the first
    loop collects the entry as well as the second, and the report lists it
    twice, under Temperatures as [False°C] and under Status Indicators as
    [Inactive]. *)
Theorem boolean_temperature_listed_twice :
  temperatures [("temperatureOk", VBool false)] = [("temperatureOk", VBool false)]
  /\ statuses [("temperatureOk", VBool false)] = [("temperatureOk", VBool false)]
  /\ format_device_state [("temperatureOk", VBool false)] 0
     = "## Device: Device 1 (Unknown)" ++ LF ++ LF
       ++ "### Temperatures" ++ LF ++ LF
       ++ "- Temperature ok: False" ++ degrees ++ LF ++ LF
       ++ "### Status Indicators" ++ LF ++ LF
       ++ "- Temperature ok: Inactive" ++ LF ++ LF.
Proof. repeat split; reflexivity. Qed.

(** Classified fields, apart from such booleans.  For every mapping (its
    keys distinct): the report is the header, then the Temperatures section
    with one line per collected temperature entry, then the Status
    Indicators section with one line per collected status entry, then the
    nested sections; both collected lists keep the mapping's insertion
    order; every key whose value is an [int] or a [float] proper and whose
    name mentions "temperature" (in any case) is collected exactly once for
    Temperatures and nowhere else; every key other than [serialNumber] whose
    value is a boolean is collected exactly once for Status Indicators,
    opens no nested section, and is not in Temperatures when its name does
    not mention "temperature". *)
Theorem classified_fields_once (d : dict) :
  NoDup (keys d) ->
  (forall index,
      format_device_state d index
      = header d index
          ++ section "### Temperatures" (map temperature_line (temperatures d))
          ++ section "### Status Indicators" (map status_line (statuses d))
          ++ lines (map nested_text (nested_sections d)))
  /\ Subseq (temperatures d) d
  /\ Subseq (statuses d) d
  /\ (forall k v, In (k, v) d -> is_plain_number v = true ->
                  mentions "temperature" k = true ->
        count_occ string_dec (keys (temperatures d)) k = 1
        /\ ~ In k (keys (statuses d))
        /\ ~ In k (keys (nested_sections d)))
  /\ (forall k b, In (k, VBool b) d -> k <> "serialNumber" ->
        count_occ string_dec (keys (statuses d)) k = 1
        /\ ~ In k (keys (nested_sections d))
        /\ (mentions "temperature" k = false -> ~ In k (keys (temperatures d)))).
Proof.
  intros Hd. rewrite temperatures_filter, statuses_filter. unfold nested_sections.
  split; [|split; [|split; [|split]]].
  - intros index. rewrite format_device_state_report.
    now rewrite temperatures_filter, statuses_filter.
  - apply Subseq_filter.
  - apply Subseq_filter.
  - intros k v Hin Hv Hk.
    destruct (plain_number_other_rules k v Hv) as [Hs Hn].
    split; [|split].
    + now apply filter_key_once with v; [| |apply plain_number_temperature].
    + now apply filter_key_absent with v.
    + now apply filter_key_absent with v.
  - intros k b Hin Hk. split; [|split].
    + now apply filter_key_once with (VBool b); [| |apply boolean_status].
    + now apply filter_key_absent with (VBool b).
    + intros Hm. apply filter_key_absent with (VBool b); try assumption.
      unfold is_temperature_field. unfold mentions in Hm. cbn [fst snd].
      now rewrite Hm.
Qed.

(** A record with one temperature and one status field. *)
Lemma classified_fields_once_witness :
  Subseq (temperatures [("outdoorTemperature", VInt 7); ("compressorActive", VBool true)])
         [("outdoorTemperature", VInt 7); ("compressorActive", VBool true)]
  /\ count_occ string_dec
       (keys (temperatures [("outdoorTemperature", VInt 7); ("compressorActive", VBool true)]))
       "outdoorTemperature" = 1
  /\ count_occ string_dec
       (keys (statuses [("outdoorTemperature", VInt 7); ("compressorActive", VBool true)]))
       "compressorActive" = 1.
Proof.
  assert (NoDup (keys [("outdoorTemperature", VInt 7); ("compressorActive", VBool true)])) as Hd.
  { repeat constructor; simpl; intuition discriminate. }
  destruct (classified_fields_once _ Hd) as [_ [Ht [_ [Hnum Hbool]]]].
  split; [exact Ht|]. split.
  - apply (Hnum "outdoorTemperature" (VInt 7)); [now left | reflexivity | reflexivity].
  - apply (Hbool "compressorActive" true); [right; now left | discriminate].
Defined.

(** C5 as stated fails.  The second loop guards against [serialNumber]
    only, and the third against [_metadata] only: a boolean [_metadata] is
    listed under Status Indicators, and a mapping under [serialNumber] gets
    a section of its own. *)
Lemma reserved_keys_rendered :
  statuses [("_metadata", VBool true); ("serialNumber", VDict [("a", VInt 1)])]
  = [("_metadata", VBool true)]
  /\ nested_sections [("_metadata", VBool true); ("serialNumber", VDict [("a", VInt 1)])]
     = [("serialNumber", VDict [("a", VInt 1)])]
  /\ format_device_state
       [("_metadata", VBool true); ("serialNumber", VDict [("a", VInt 1)])] 0
     = "## Device: {'a': 1} (Unknown)" ++ LF ++ LF
       ++ "### Status Indicators" ++ LF ++ LF
       ++ "- _metadata: Active" ++ LF ++ LF
       ++ "### Serialnumber" ++ LF ++ LF
       ++ "- A: 1" ++ LF ++ LF.
Proof. repeat split; reflexivity. Qed.

(** C5, amended.  Whatever the type of its value, [serialNumber] is never
    collected by the temperature loop nor by the status loop, and
    [_metadata] is never collected by the temperature loop nor given a
    nested section: the loop conditions are false on them, the loop body of
    the nested sections adds nothing for [_metadata], and neither key occurs
    in the corresponding collected list of any mapping. *)
Theorem reserved_keys_guarded (d : dict) (v : value) (result : string) :
  is_temperature_field "serialNumber" v = false
  /\ is_temperature_field "_metadata" v = false
  /\ is_status_field "serialNumber" v = false
  /\ nested_entry result ("_metadata", v) = result
  /\ ~ In "serialNumber" (keys (temperatures d))
  /\ ~ In "_metadata" (keys (temperatures d))
  /\ ~ In "serialNumber" (keys (statuses d))
  /\ ~ In "_metadata" (keys (nested_sections d)).
Proof.
  rewrite temperatures_filter, statuses_filter. unfold nested_sections.
  repeat split.
  - apply serial_not_status.
  - rewrite nested_entry_text. cbn [fst snd].
    now rewrite metadata_not_nested, append_nil_r.
  - apply filter_key_never. intros w. apply serial_not_temperature.
  - apply filter_key_never. intros w. apply metadata_not_temperature.
  - apply filter_key_never. intros w. apply serial_not_status.
  - apply filter_key_never. intros w. apply metadata_not_nested.
Qed.

(** ** The device-state formatter: nested sections and names *)

(** C3: the code at the failing input.  In the Temperatures section the key
    [roomTemperatureTarget] is printed with two spaces before "temperature":
    the extra [replace("Temperature", " Temperature")] of the first loop
    adds a space where the capital-letter pass adds another.  The status
    and nested loops, which skip that step, print the name as the
    specification words it. *)
Theorem temperature_name_doubled_space :
  format_device_state [("roomTemperatureTarget", VInt 21)] 0
  = "## Device: Device 1 (Unknown)" ++ LF ++ LF
    ++ "### Temperatures" ++ LF ++ LF
    ++ "- Room  temperature target: 21" ++ degrees ++ LF ++ LF
  /\ readable_temperature "roomTemperatureTarget" = "Room  temperature target"
  /\ readable "roomTemperatureTarget" = "Room temperature target"
  /\ status_line ("roomTemperatureTarget", VBool true)
     = "- Room temperature target: Active" ++ LF
  /\ leaf_line "roomTemperatureTarget" (VInt 21)
     = "- Room temperature target: 21" ++ degrees ++ LF.
Proof. repeat split; reflexivity. Qed.

(** C4 as stated fails.  A leaf of a nested mapping whose key mentions
    "temperature" or "pressure" gets its unit only when its value is a
    number: a text value is printed as it is. *)
Lemma text_leaf_without_unit :
  leaf_line "temperatureMode" (VStr "eco") = "- Temperature mode: eco" ++ LF
  /\ leaf_line "pressureLevel" (VStr "high") = "- Pressure level: high" ++ LF
  /\ format_device_state
       [("circuit", VDict [("temperatureMode", VStr "eco"); ("pressureLevel", VStr "high")])] 0
     = "## Device: Device 1 (Unknown)" ++ LF ++ LF
       ++ "### Circuit" ++ LF ++ LF
       ++ "- Temperature mode: eco" ++ LF
       ++ "- Pressure level: high" ++ LF ++ LF.
Proof. repeat split; reflexivity. Qed.

(** C4, amended.  What one entry of a top-level nested mapping adds to the
    report: for an [int] or [float] value, the suffix of degrees when the
    key mentions "temperature" (in any case), else [" bar"] when it mentions
    "pressure", else the value alone; for a boolean under a key that
    mentions neither, Active or Inactive; for [None] or a text, the value as
    it is, whatever the key; and for a mapping, a sub-section titled by the
    key whose every entry is one line [- <readable name>: <value>], with no
    unit and no further descent whatever the entry's value. *)
Theorem nested_entry_rendering (subkey : string) (subvalue : value) (result : string) :
  (is_plain_number subvalue = true -> mentions "temperature" subkey = true ->
     sub_entry result (subkey, subvalue)
     = result ++ "- " ++ readable subkey ++ ": " ++ str subvalue ++ degrees ++ LF)
  /\ (is_plain_number subvalue = true -> mentions "temperature" subkey = false ->
      mentions "pressure" subkey = true ->
     sub_entry result (subkey, subvalue)
     = result ++ "- " ++ readable subkey ++ ": " ++ str subvalue ++ " bar" ++ LF)
  /\ (is_plain_number subvalue = true -> mentions "temperature" subkey = false ->
      mentions "pressure" subkey = false ->
     sub_entry result (subkey, subvalue)
     = result ++ "- " ++ readable subkey ++ ": " ++ str subvalue ++ LF)
  /\ (forall b, subvalue = VBool b -> mentions "temperature" subkey = false ->
      mentions "pressure" subkey = false ->
     sub_entry result (subkey, subvalue)
     = result ++ "- " ++ readable subkey ++ ": "
         ++ (if b then "Active" else "Inactive") ++ LF)
  /\ (subvalue = VNone \/ isinstance_str subvalue = true ->
     sub_entry result (subkey, subvalue)
     = result ++ "- " ++ readable subkey ++ ": " ++ str subvalue ++ LF)
  /\ (forall items, subvalue = VDict items ->
     sub_entry result (subkey, subvalue)
     = result ++ "#### " ++ capitalize subkey ++ LF ++ LF
         ++ lines (map (fun e => "- " ++ readable (fst e) ++ ": " ++ str (snd e) ++ LF) items)).
Proof.
  unfold mentions. repeat split.
  - intros Hv Ht. unfold sub_entry, leaf_line. rewrite Ht.
    destruct subvalue; try discriminate Hv; reflexivity.
  - intros Hv Ht Hp. unfold sub_entry, leaf_line. rewrite Ht, Hp.
    destruct subvalue; try discriminate Hv; reflexivity.
  - intros Hv Ht Hp. unfold sub_entry, leaf_line. rewrite Ht, Hp.
    destruct subvalue; try discriminate Hv; reflexivity.
  - intros b -> Ht Hp. unfold sub_entry, leaf_line. rewrite Ht, Hp.
    destruct b; reflexivity.
  - intros [->|Hs]; unfold sub_entry, leaf_line.
    + rewrite !andb_false_r. reflexivity.
    + destruct subvalue; try discriminate Hs. rewrite !andb_false_r. reflexivity.
  - intros items ->. rewrite sub_entry_text. unfold sub_text. cbn [fst snd].
    do 5 f_equal. apply (f_equal lines). apply map_ext. now intros [k v].
Qed.

(** ** The device-state formatter: the header *)
Section Header.

Lemma prefix_append (a b : string) : String.prefix a (a ++ b) = true.
Proof.
  induction a as [|c a IH]; simpl; [now destruct b|].
  destruct (ascii_dec c c) as [_|N]; [exact IH | now elim N].
Qed.




Lemma masked_unchanged (d : dict) (index : Z) (v : value) :
  NoDup (keys d) -> In ("serialNumber", v) d ->
  (forall s, v = VStr s -> String.length s <= 24) ->
  masked_serial d index = v.
Proof.
  intros Hd Hin Hlen. unfold masked_serial.
  rewrite (get_present d "serialNumber" v) by assumption.
  destruct v as [| | | |s|]; try reflexivity.
  assert ((24 <? String.length s)%nat = false) as E
      by (apply Nat.ltb_ge; now apply Hlen).
  now rewrite E.
Qed.

Lemma length_string_of_uint (d : Decimal.uint) :
  String.length (NilEmpty.string_of_uint d) = Decimal.nb_digits d.
Proof. induction d; simpl; congruence. Qed.

Lemma of_uint_acc_lower (d : Decimal.uint) :
  forall acc, (N.pos acc * 10 ^ N.of_nat (Decimal.nb_digits d) <= N.pos (Pos.of_uint_acc d acc))%N.
Proof.
  induction d as [|d IH|d IH|d IH|d IH|d IH|d IH|d IH|d IH|d IH|d IH]; intros acc;
    [simpl; lia| ..];
    cbn [Decimal.nb_digits Pos.of_uint_acc];
    rewrite Nat2N.inj_succ, N.pow_succ_r by lia;
    (etransitivity; [|apply IH]);
    rewrite N.mul_assoc; apply N.mul_le_mono_r; lia.
Qed.

Lemma to_uint_digits (p : positive) :
  (N.pos p < 10 ^ 17)%N -> Decimal.nb_digits (Pos.to_uint p) <= 17.
Proof.
  intros H.
  pose proof (DecimalPos.Unsigned.of_to p) as E.
  pose proof (DecimalPos.Unsigned.to_of (Pos.to_uint p)) as U. rewrite E in U.
  change (N.to_uint (N.pos p)) with (Pos.to_uint p) in U.
  pose proof (DecimalPos.Unsigned.to_uint_nonzero p) as Z.
  destruct (Pos.to_uint p) as [|d|d|d|d|d|d|d|d|d|d] eqn:D.
  1: { simpl. lia. }
  1: { exfalso. rewrite DecimalFacts.unorm_D0 in U.
    destruct d as [|d|d|d|d|d|d|d|d|d|d]; [now apply Z|..];
      match type of U with Decimal.D0 ?l = _ =>
        pose proof (DecimalFacts.nb_digits_unorm l ltac:(discriminate)) as L;
        rewrite <- U in L; cbn [Decimal.nb_digits] in L; lia
      end. }
  all: cbn [Pos.of_uint] in E; injection E as E;
    match type of E with Pos.of_uint_acc _ ?k = _ => pose proof (of_uint_acc_lower d k) as L end;
    rewrite E in L; cbn [Decimal.nb_digits];
    assert (10 ^ N.of_nat (Decimal.nb_digits d) < 10 ^ 17)%N as P
      by (eapply N.le_lt_trans; [|exact H]; etransitivity; [|exact L];
          rewrite <- (N.mul_1_l (10 ^ _)) at 1; apply N.mul_le_mono_r; lia);
    apply N.pow_lt_mono_r_iff in P; lia.
Qed.

Lemma str_int_length (n : Z) :
  (0 <= n < 10 ^ 17)%Z -> String.length (str_int n) <= 17.
Proof.
  intros H. unfold str_int. destruct n as [|p|p]; [simpl; lia | | lia].
  cbn [Z.to_int NilZero.string_of_int].
  assert (Decimal.nb_digits (Pos.to_uint p) <= 17) as L by (apply to_uint_digits; lia).
  unfold NilZero.string_of_uint.
  destruct (Pos.to_uint p) eqn:D; [simpl; lia | ..];
    cbv iota; rewrite length_string_of_uint; exact L.
Qed.

Lemma masked_default (d : dict) (index : Z) :
  ~ In "serialNumber" (keys d) ->
  String.length ("Device " ++ str_int (index + 1)) <= 24 ->
  masked_serial d index = VStr ("Device " ++ str_int (index + 1)).
Proof.
  intros Habs Hlen. unfold masked_serial.
  rewrite get_absent by assumption.
  apply Nat.ltb_ge in Hlen. now rewrite Hlen.
Qed.

Lemma label_fits (index : Z) :
  (0 <= index < 10 ^ 17 - 1)%Z ->
  String.length ("Device " ++ str_int (index + 1)) <= 24.
Proof.
  intros H. rewrite length_append.
  assert (String.length (str_int (index + 1)) <= 17) as L by (apply str_int_length; lia).
  simpl. lia.
Qed.

End Header.



(** ** The formatter never raises on a well-formed mapping *)
Section WellFormed.
Import Dynamic.








Lemma loop_fail {A : Type} (body : string -> A -> attempt string) (items : list A) (e : string) :
  fold_left (fun state item => result <~ state ;; body result item) items (Fail e) = Fail e.
Proof. induction items as [|x items IH]; [reflexivity | exact IH]. Qed.














Lemma collect_raised (items : list (key * object)) (e : string) :
  fold_left
    (fun state kv =>
       temperatures <~ state ;;
       hit <~ temperature_test (fst kv) (snd kv) ;;
       Ok (if hit then (temperatures ++ [kv])%list else temperatures))
    items (Fail e)
  = Fail e.
Proof. induction items as [|x items IH]; [reflexivity | exact IH]. Qed.

Lemma collect_from_raises (front rest : list (key * object)) (k : key) (v : object) :
  Forall (fun kv => exists s, fst kv = KStr s) front ->
  (forall s, k <> KStr s) ->
  forall acc : list (key * object),
    fold_left
      (fun state kv =>
         temperatures <~ state ;;
         hit <~ temperature_test (fst kv) (snd kv) ;;
         Ok (if hit then (temperatures ++ [kv])%list else temperatures))
      (front ++ (k, v) :: rest) (Ok acc)
    = Fail (no_attribute (key_object k) "lower").
Proof.
  intros Hfront Hk. induction Hfront as [|[k0 v0] front [s0 Hs0] _ IH]; intros acc.
  - cbn [app fold_left and_then fst snd temperature_test].
    destruct k as [| | | |s]; try apply collect_raised. now elim (Hk s).
  - cbn [fst] in Hs0. subst k0.
    cbn [app fold_left and_then fst snd temperature_test lower_of]. apply IH.
Qed.

Lemma collect_temperatures_raises (front rest : list (key * object)) (k : key) (v : object) :
  Forall (fun kv => exists s, fst kv = KStr s) front ->
  (forall s, k <> KStr s) ->
  collect_temperatures (front ++ (k, v) :: rest) = Fail (no_attribute (key_object k) "lower").
Proof. intros Hfront Hk. now apply collect_from_raises. Qed.

End WellFormed.


(** Outside that domain the formatter does raise.  When a top-level key
    is not a text, and every key before it is one, the first loop calls
    [lower] on it and the call ends in an [AttributeError] that names the
    class of the key, whatever else the mapping holds. *)
Theorem non_text_key_raises (front rest : list (Dynamic.key * Dynamic.object))
    (k : Dynamic.key) (v : Dynamic.object) (index : Z) :
  Forall (fun kv => exists s, fst kv = Dynamic.KStr s) front ->
  (forall s, k <> Dynamic.KStr s) ->
  Dynamic.format_device_state_raising (Dynamic.ODict (front ++ (k, v) :: rest)) index
  = Fail ("'" ++ Dynamic.class_name (Dynamic.key_object k)
              ++ "' object has no attribute 'lower'").
Proof.
  intros Hfront Hk. unfold Dynamic.format_device_state_raising.
  now rewrite (collect_temperatures_raises front rest k v Hfront Hk).
Qed.

(** A boolean under the key [None], after a well-formed entry. *)
Lemma non_text_key_raises_witness :
  Dynamic.format_device_state_raising
    (Dynamic.ODict [(Dynamic.KStr "flowTemperature", Dynamic.OInt 35);
                    (Dynamic.KNone, Dynamic.OBool true)]) 3
  = Fail "'NoneType' object has no attribute 'lower'".
Proof.
  apply (non_text_key_raises [(Dynamic.KStr "flowTemperature", Dynamic.OInt 35)] []
           Dynamic.KNone (Dynamic.OBool true) 3).
  - constructor; [now exists "flowTemperature" | constructor].
  - discriminate.
Defined.

(** C10.  The header is [## Device: <identity> (<type>)] and a blank line.
    Without a [serialNumber] key the identity is the label
    [Device {index+1}], for every index a caller passes: the callers pass 0
    or a position in the list of device states, and the statement covers
    every index from 0 up to 10^17 - 2.  Without a [type] key the type is
    [Unknown]; a [serialNumber] that is not a string, or is a string of 24
    characters or fewer, is the identity as it is, printed by [str] and
    unmasked. *)
Theorem header_identity_unmasked (d : dict) (index : Z) :
  header d index
  = "## Device: " ++ str (masked_serial d index)
      ++ " (" ++ str (get d "type" (VStr "Unknown")) ++ ")" ++ LF ++ LF
  /\ (~ In "serialNumber" (keys d) ->
      (0 <= index < 10 ^ 17 - 1)%Z ->
      str (masked_serial d index) = "Device " ++ str_int (index + 1))
  /\ (~ In "type" (keys d) -> str (get d "type" (VStr "Unknown")) = "Unknown")
  /\ (forall v, NoDup (keys d) -> In ("serialNumber", v) d ->
                (forall s, v = VStr s -> String.length s <= 24) ->
                masked_serial d index = v)
  /\ header [] 0 = "## Device: Device 1 (Unknown)" ++ LF ++ LF
  /\ header [("serialNumber", VStr "212345678901234567890123")] 7
     = "## Device: 212345678901234567890123 (Unknown)" ++ LF ++ LF
  /\ header [("serialNumber", VInt 42); ("type", VStr "BOILER")] 7
     = "## Device: 42 (BOILER)" ++ LF ++ LF.
Proof.
  repeat match goal with |- _ /\ _ => split end; try reflexivity.
  - intros Habs Hindex. rewrite masked_default; [reflexivity | exact Habs |].
    now apply label_fits.
  - intros Habs. now rewrite get_absent.
  - intros v Hd Hin Hlen. now apply masked_unchanged.
Qed.

(** The bound is where the label reaches 25 characters, which no list of
    device states does: at index 10^17 the label itself would go through
    the masking of a serial. *)
Lemma fallback_label_masked :
  "Device " ++ str_int (100000000000000000 + 1) = "Device 100000000000000001"
  /\ String.length ("Device " ++ str_int (100000000000000000 + 1)) = 25
  /\ masked_serial [] 100000000000000000 = VStr "V1"
  /\ format_device_state [] 100000000000000000 = "## Device: V1 (Unknown)" ++ LF ++ LF.
Proof. repeat split; reflexivity. Qed.

(** A nested mapping with a temperature, a pressure and a status leaf. *)
Lemma nested_entry_rendering_witness :
  sub_entry "" ("flowTemperature", VInt 35) = "- Flow temperature: 35" ++ degrees ++ LF
  /\ sub_entry "" ("waterPressure", VFloat "1.5") = "- Water pressure: 1.5 bar" ++ LF
  /\ sub_entry "" ("pumpRunning", VBool true) = "- Pump running: Active" ++ LF
  /\ sub_entry "" ("zoneA", VDict [("roomTemperature", VInt 20); ("deep", VDict [("x", VStr "y")])])
     = "#### Zonea" ++ LF ++ LF
       ++ "- Room temperature: 20" ++ LF
       ++ "- Deep: {'x': 'y'}" ++ LF.
Proof.
  split; [|split; [|split]].
  - destruct (nested_entry_rendering "flowTemperature" (VInt 35) "") as [H _].
    apply H; reflexivity.
  - destruct (nested_entry_rendering "waterPressure" (VFloat "1.5") "") as [_ [H _]].
    apply H; reflexivity.
  - destruct (nested_entry_rendering "pumpRunning" (VBool true) "") as [_ [_ [_ [H _]]]].
    apply (H true); reflexivity.
  - destruct (nested_entry_rendering "zoneA"
                (VDict [("roomTemperature", VInt 20); ("deep", VDict [("x", VStr "y")])]) "")
      as [_ [_ [_ [_ [_ H]]]]].
    apply (H [("roomTemperature", VInt 20); ("deep", VDict [("x", VStr "y")])]).
    reflexivity.
Defined.

(** A record without identity, and one with a short serial. *)
Lemma header_identity_unmasked_witness :
  str (masked_serial [("type", VStr "BOILER")] 2) = "Device 3"
  /\ masked_serial [("serialNumber", VStr "21234567")] 0 = VStr "21234567".
Proof.
  split.
  - destruct (header_identity_unmasked [("type", VStr "BOILER")] 2) as [_ [H _]].
    apply H; [simpl; intuition discriminate | lia].
  - destruct (header_identity_unmasked [("serialNumber", VStr "21234567")] 0)
      as [_ [_ [_ [H _]]]].
    apply H.
    + repeat constructor; simpl; intuition.
    + now left.
    + intros s E. inversion E; subst. simpl. lia.
Defined.

(** ** The readable name outside the temperature loop *)
Section ReadableName.

Lemma upper_not_space (c : ascii) : isupper c = true -> isspace c = false.
Proof. destruct c as [[] [] [] [] [] [] [] []]; vm_compute; congruence. Qed.

Lemma rstrip_fixed (s : string) : ends_with_space s = false -> rstrip s = s.
Proof.
  induction s as [|c s IH]; [reflexivity|].
  cbn [ends_with_space rstrip]. destruct s as [|d s].
  - intros H. simpl. now rewrite H.
  - intros H. rewrite (IH H). cbn [is_empty]. now rewrite andb_false_r.
Qed.

Lemma ends_with_space_cons (c : ascii) (s : string) :
  s <> EmptyString -> ends_with_space (String c s) = ends_with_space s.
Proof. destruct s; [congruence | reflexivity]. Qed.

Lemma space_before_upper_nonempty (s : string) :
  s <> EmptyString -> space_before_upper s <> EmptyString.
Proof. destruct s as [|c s]; [congruence|]. simpl. destruct (isupper c); discriminate. Qed.

Lemma ends_with_space_spaced (s : string) :
  ends_with_space (space_before_upper s) = ends_with_space s.
Proof.
  induction s as [|c s IH]; [reflexivity|].
  destruct s as [|d s].
  - simpl. destruct (isupper c); reflexivity.
  - assert (space_before_upper (String d s) <> EmptyString) as N
        by (apply space_before_upper_nonempty; discriminate).
    cbn [space_before_upper] in *. destruct (isupper c).
    + rewrite ends_with_space_cons by discriminate.
      rewrite ends_with_space_cons by exact N.
      rewrite IH. reflexivity.
    + rewrite ends_with_space_cons by exact N.
      rewrite IH. reflexivity.
Qed.

Lemma readable_spec (key : string) :
  starts_with_space key = false -> ends_with_space key = false ->
  readable key = spec_readable key.
Proof.
  destruct key as [|c r]; [reflexivity|].
  intros Hs He. unfold readable, spec_readable, strip. f_equal.
  pose proof (ends_with_space_spaced (String c r)) as E. rewrite He in E.
  cbn [starts_with_space] in Hs.
  cbn [space_before_upper] in *. destruct (isupper c) eqn:U.
  - cbn [lstrip]. replace (isspace " ") with true by reflexivity.
    rewrite (upper_not_space c U).
    apply rstrip_fixed. rewrite ends_with_space_cons in E by discriminate. exact E.
  - cbn [lstrip]. rewrite Hs. now apply rstrip_fixed.
Qed.

End ReadableName.

(** Readable names (specification, section 4.3), outside the Temperatures
    section.  For a key of ASCII characters that neither starts nor ends
    with whitespace, the name printed by the status loop and by the loops
    over nested mappings is the key with a space before each capital letter
    but a leading one, capitalized: first character in upper case, the rest
    in lower case. *)
Theorem readable_name_lexical (key : string) (v : value) :
  is_ascii key = true ->
  starts_with_space key = false -> ends_with_space key = false ->
  readable key = spec_readable key
  /\ status_line (key, v) = "- " ++ spec_readable key ++ ": " ++ status_text v ++ LF
  /\ subsub_line (key, v) = "- " ++ spec_readable key ++ ": " ++ str v ++ LF
  /\ String.prefix ("- " ++ spec_readable key ++ ": ") (leaf_line key v) = true.
Proof.
  intros _ Hs He. pose proof (readable_spec key Hs He) as R.
  unfold status_line, subsub_line, leaf_line. rewrite R.
  repeat match goal with |- _ /\ _ => split end; try reflexivity.
  assert (forall a b c rest, String.prefix (a ++ b ++ c) (a ++ b ++ c ++ rest) = true) as P.
  { intros a b c rest.
    replace (a ++ b ++ c ++ rest) with ((a ++ b ++ c) ++ rest)
      by now rewrite !append_assoc.
    apply prefix_append. }
  repeat match goal with |- context [if ?c then _ else _] => destruct c end; apply P.
Qed.

(** The key of the specification's example. *)
Lemma readable_name_lexical_witness :
  status_line ("roomTemperatureTarget", VBool false)
  = "- Room temperature target: Inactive" ++ LF.
Proof.
  destruct (readable_name_lexical "roomTemperatureTarget" (VBool false)
              eq_refl eq_refl eq_refl)
    as [_ [H _]].
  exact H.
Defined.

(** Boolean fields (specification, section 8).  Each boolean entry of a
    mapping, other than [serialNumber], is collected for Status Indicators,
    and its line reads Active when the value is true and Inactive when it
    is false. *)
Theorem boolean_status_line (d : dict) (k : string) (b : bool) :
  In (k, VBool b) d -> k <> "serialNumber" ->
  In (k, VBool b) (statuses d)
  /\ status_line (k, VBool b)
     = "- " ++ readable k ++ ": " ++ (if b then "Active" else "Inactive") ++ LF.
Proof.
  intros Hin Hk. split.
  - rewrite statuses_filter. apply filter_In. split; [exact Hin|].
    now apply boolean_status.
  - unfold status_line, status_text. now destruct b.
Qed.

(** One active and one inactive field. *)
Lemma boolean_status_line_witness :
  status_line ("compressorActive", VBool true) = "- Compressor active: Active" ++ LF
  /\ status_line ("defrosting", VBool false) = "- Defrosting: Inactive" ++ LF.
Proof.
  split.
  - destruct (boolean_status_line
                [("compressorActive", VBool true); ("defrosting", VBool false)]
                "compressorActive" true) as [_ H];
      [now left | discriminate | exact H].
  - destruct (boolean_status_line
                [("compressorActive", VBool true); ("defrosting", VBool false)]
                "defrosting" false) as [_ H];
      [right; now left | discriminate | exact H].
Defined.

(* ================================================================== *)
(** * Part III: the code around the validators and the formatter *)
(* ================================================================== *)

(** ** The serial validator *)
Section SerialFacts.




Lemma serial_accepted (s : string) :
  validate_vaillant_serial (VStr s) = true <->
  24 <= len s /\ String.prefix "2" s = true.
Proof.
  unfold validate_vaillant_serial. destruct s as [|c s].
  - simpl. split; [discriminate | intros [H _]; unfold len in H; simpl in H; lia].
  - cbn [truthy is_empty negb].
    destruct (len (String c s) <? 24)%nat eqn:L.
    + apply Nat.ltb_lt in L. split; [discriminate | intros [H _]; lia].
    + apply Nat.ltb_ge in L.
      destruct (String.prefix "2" (String c s)); simpl; intuition congruence.
Qed.

End SerialFacts.

(** Serial numbers ([validate_vaillant_serial]).  An object is accepted
    exactly when it is a text of at least 24 characters that starts with
    the digit 2; nothing else is, whatever its type.  The length is counted
    in characters: twelve letters e with acute after a 2 make 13 of them in
    25 bytes, and are rejected. *)
Theorem vaillant_serial_accepted (serial : value) :
  (validate_vaillant_serial serial = true <->
   exists s, serial = VStr s /\ 24 <= len s /\ String.prefix "2" s = true)
  /\ len ("2" ++ encode (repeat 0xE9%N 12)) = 13
  /\ String.length ("2" ++ encode (repeat 0xE9%N 12)) = 25
  /\ validate_vaillant_serial (VStr ("2" ++ encode (repeat 0xE9%N 12))) = false.
Proof.
  split; [|repeat split; vm_compute; reflexivity].
  split.
  - intros H. destruct serial as [| | | |s|];
      try (unfold validate_vaillant_serial in H;
           match type of H with (if ?c then _ else _) = _ => destruct c end;
           discriminate H).
    exists s. split; [reflexivity|]. now apply serial_accepted.
  - intros [s [-> H]]. now apply serial_accepted.
Qed.




(** ** The state tool *)
Section StateTool.

Lemma enumerate_devices_from (ds : list dict) (i : Z) (result : string) :
  fold_left
    (fun (st : Z * string) device_state =>
       let (i, result) := st in
       ((i + 1)%Z, result ++ format_device_state device_state i))
    ds (i, result)
  = ((i + Z.of_nat (List.length ds))%Z,
     result ++ lines (map (fun p => format_device_state (snd p) (fst p)) (indexed_from i ds))).
Proof.
  revert i result. induction ds as [|d ds IH]; intros i result.
  - simpl. now rewrite Z.add_0_r, append_nil_r.
  - cbn [fold_left indexed_from map lines fold_right fst snd List.length].
    rewrite IH, append_assoc. f_equal. lia.
Qed.

Lemma guard_open : dependency_guard true None = None.
Proof. reflexivity. Qed.

Lemma serial_configured (env : option string) :
  getenv_serial env <> "UNKNOWN" -> (getenv_serial env =? "UNKNOWN") = false.
Proof. intros H. now apply String.eqb_neq. Qed.

End StateTool.

(** The state tool: refusals and failures ([vaillant_get_state]).  A
    recorded import error gives the dependency message with the error in
    parentheses, and an unbound client without one the bare message,
    whatever the environment and the client would give; without
    [VAILLANT_SERIAL], or with the text UNKNOWN in it, the serial is
    reported missing and the client is not asked; an exception of the
    client becomes the text [Failed to fetch system state: <message>]; and
    nothing, an empty mapping and an empty list all give
    [No state data available.].  An empty [VAILLANT_SERIAL] counts as a
    serial. *)
Theorem state_tool_refusals
    (bound : bool) (err env : option string) (api : string -> attempt state_payload) :
  (forall e, err = Some e ->
     vaillant_get_state bound err env api
     = _VAILLANT_DEPENDENCY_MESSAGE ++ " (import error: " ++ e ++ ")")
  /\ (bound = false -> err = None ->
      vaillant_get_state bound err env api = _VAILLANT_DEPENDENCY_MESSAGE)
  /\ (env = None \/ env = Some "UNKNOWN" ->
      vaillant_get_state true None env api = "Vaillant heat pump serial number not found.")
  /\ (forall e, getenv_serial env <> "UNKNOWN" -> api (getenv_serial env) = Fail e ->
      vaillant_get_state true None env api = "Failed to fetch system state: " ++ e)
  /\ (forall p, getenv_serial env <> "UNKNOWN" -> api (getenv_serial env) = Ok p ->
      p = PayloadNone \/ p = PayloadDict [] \/ p = PayloadList [] ->
      vaillant_get_state true None env api = "No state data available.")
  /\ (forall e, api EmptyString = Fail e ->
      vaillant_get_state true None (Some EmptyString) api
      = "Failed to fetch system state: " ++ e).
Proof.
  repeat match goal with |- _ /\ _ => split end.
  - intros e ->. unfold vaillant_get_state, dependency_guard.
    now rewrite orb_true_r.
  - intros -> ->. unfold vaillant_get_state, dependency_guard. cbn [negb orb].
    apply append_nil_r.
  - intros [->| ->]; reflexivity.
  - intros e Hs Ha. unfold vaillant_get_state. rewrite guard_open.
    cbv zeta. now rewrite (serial_configured env Hs), Ha.
  - intros p Hs Ha Hp. unfold vaillant_get_state. rewrite guard_open.
    cbv zeta. rewrite (serial_configured env Hs), Ha.
    destruct Hp as [->|[->| ->]]; reflexivity.
  - intros e Ha. unfold vaillant_get_state. rewrite guard_open.
    cbn. now rewrite Ha.
Qed.

(** The client down, and no data. *)
Lemma state_tool_refusals_witness :
  vaillant_get_state true None (Some "21234") (fun _ => Fail "timeout")
  = "Failed to fetch system state: timeout"
  /\ vaillant_get_state true None (Some "21234") (fun _ => Ok (PayloadList []))
     = "No state data available.".
Proof.
  destruct (state_tool_refusals true None (Some "21234") (fun _ => Fail "timeout"))
    as [_ [_ [_ [H _]]]].
  destruct (state_tool_refusals true None (Some "21234") (fun _ => Ok (PayloadList [])))
    as [_ [_ [_ [_ [G _]]]]].
  split.
  - apply H; [discriminate | reflexivity].
  - apply (G (PayloadList [])); [discriminate | reflexivity | now right; right].
Defined.

(** The state tool: one section per device ([vaillant_get_state]).  With
    the client bound and a serial configured, a non-empty list of device
    states is reported as the title followed by the section of each device
    in list order, the device at position k (from 0) formatted with index
    k; a single non-empty device state gives the report of the one-element
    list that holds it; and while an empty device state alone gives
    [No state data available.], a list holding one empty state gives the
    title and the bare header [Device 1 (Unknown)]. *)
Theorem state_tool_sections (serial : string) (api : string -> attempt state_payload) :
  serial <> "UNKNOWN" ->
  (forall ds, ds <> [] -> api serial = Ok (PayloadList ds) ->
     vaillant_get_state true None (Some serial) api
     = "# Vaillant System State" ++ LF ++ LF
       ++ lines (map (fun p => format_device_state (snd p) (fst p)) (indexed_from 0 ds)))
  /\ (forall d, d <> [] -> api serial = Ok (PayloadDict d) ->
     vaillant_get_state true None (Some serial) api
     = vaillant_get_state true None (Some serial) (fun _ => Ok (PayloadList [d])))
  /\ vaillant_get_state true None (Some serial) (fun _ => Ok (PayloadDict []))
     = "No state data available."
  /\ vaillant_get_state true None (Some serial) (fun _ => Ok (PayloadList [[]]))
     = "# Vaillant System State" ++ LF ++ LF ++ "## Device: Device 1 (Unknown)" ++ LF ++ LF.
Proof.
  intros Hs.
  assert ((serial =? "UNKNOWN") = false) as E by now apply String.eqb_neq.
  repeat match goal with |- _ /\ _ => split end.
  - intros ds Hds Ha. unfold vaillant_get_state. rewrite guard_open.
    cbn [getenv_serial]. cbv zeta. rewrite E, Ha.
    destruct ds as [|d ds]; [congruence|]. cbn [payload_truthy negb].
    unfold enumerate_devices. now rewrite enumerate_devices_from.
  - intros d Hd Ha. unfold vaillant_get_state. rewrite guard_open.
    cbn [getenv_serial]. cbv zeta. rewrite E, Ha.
    destruct d as [|kv d]; [congruence|]. cbn [payload_truthy negb].
    unfold enumerate_devices. rewrite enumerate_devices_from.
    cbn [indexed_from map lines fold_right fst snd]. now rewrite append_nil_r.
  - unfold vaillant_get_state. rewrite guard_open. cbn [getenv_serial]. cbv zeta.
    now rewrite E.
  - unfold vaillant_get_state. rewrite guard_open. cbn [getenv_serial]. cbv zeta.
    now rewrite E.
Qed.

(** Two devices, the second without a serial. *)
Lemma state_tool_sections_witness :
  vaillant_get_state true None (Some "21234")
    (fun _ => Ok (PayloadList [[("serialNumber", VStr "21")]; [("type", VStr "VR921")]]))
  = "# Vaillant System State" ++ LF ++ LF
    ++ "## Device: 21 (Unknown)" ++ LF ++ LF
    ++ "## Device: Device 2 (VR921)" ++ LF ++ LF.
Proof.
  assert ("21234" <> "UNKNOWN") as Hs by discriminate.
  destruct (state_tool_sections "21234"
              (fun _ => Ok (PayloadList [[("serialNumber", VStr "21")]; [("type", VStr "VR921")]]))
              Hs) as [H _].
  apply (H [[("serialNumber", VStr "21")]; [("type", VStr "VR921")]]);
    [discriminate | reflexivity].
Defined.

(** ** The consumption tool, up to the client *)

(** The consumption tool: the two dates ([vaillant_energy_consumption]).
    With the client bound and a serial configured, the rest of the function
    runs only when both dates pass [validate_and_parse_date], and then on
    the parsed values, with no check that the first is before the second: a
    date that is not a text, has fewer than 8 characters or is rejected by
    the parser gives the invalid-date message whatever the other is, and
    two accepted dates are passed on in the order given, swapped if given
    swapped. *)
Theorem consumption_needs_both_dates (Instant : Type)
    (parse : string -> outcome Instant)
    (report : string -> string -> Instant -> Instant -> string)
    (env : option string) (scale : string) :
  getenv_serial env <> "UNKNOWN" ->
  (forall bad other,
      isinstance_str bad = false
      \/ (exists s, bad = VStr s /\ (String.length s < 8 \/ parse s = Raised)) ->
      vaillant_energy_consumption parse report true None env bad other scale
      = "Invalid date format. Please use YYYY-MM-DD or a valid format."
      /\ vaillant_energy_consumption parse report true None env other bad scale
         = "Invalid date format. Please use YYYY-MM-DD or a valid format.")
  /\ (forall s1 s2 d1 d2,
      8 <= String.length s1 -> 8 <= String.length s2 ->
      parse s1 = Returned d1 -> parse s2 = Returned d2 ->
      vaillant_energy_consumption parse report true None env (VStr s1) (VStr s2) scale
      = report (getenv_serial env) scale d1 d2
      /\ vaillant_energy_consumption parse report true None env (VStr s2) (VStr s1) scale
         = report (getenv_serial env) scale d2 d1).
Proof.
  intros Hs. split.
  - intros bad other Hbad.
    assert (validate_and_parse_date parse bad = None) as E.
    { destruct Hbad as [H|[s [-> [H|H]]]].
      - now apply date_rejects_non_string.
      - now apply date_rejects_short.
      - now apply date_rejects_unparsed. }
    unfold vaillant_energy_consumption. rewrite guard_open. cbv zeta.
    rewrite (serial_configured env Hs), E.
    split; [reflexivity|].
    now destruct (validate_and_parse_date parse other).
  - intros s1 s2 d1 d2 L1 L2 P1 P2.
    unfold vaillant_energy_consumption. rewrite guard_open. cbv zeta.
    rewrite (serial_configured env Hs).
    rewrite (date_returns_parsed parse s1 d1 L1 P1).
    rewrite (date_returns_parsed parse s2 d2 L2 P2).
    split; reflexivity.
Qed.

(** With the reference parser: a short date, then two dates out of order. *)
Lemma consumption_needs_both_dates_witness :
  vaillant_energy_consumption iso_fromisoformat
    (fun serial scale f t => "report") true None (Some "21234")
    (VStr "2025-5") (VStr "2025-05-01") "daily"
  = "Invalid date format. Please use YYYY-MM-DD or a valid format."
  /\ vaillant_energy_consumption iso_fromisoformat
       (fun serial scale f t => "report") true None (Some "21234")
       (VStr "2025-05-02") (VStr "2025-05-01") "daily"
     = "report".
Proof.
  assert (getenv_serial (Some "21234") <> "UNKNOWN") as Hs by discriminate.
  destruct (consumption_needs_both_dates datetime iso_fromisoformat
              (fun serial scale f t => "report") (Some "21234") "daily" Hs) as [Hbad Hok].
  split.
  - apply (Hbad (VStr "2025-5") (VStr "2025-05-01")).
    right. exists "2025-5". split; [reflexivity|]. left. simpl. lia.
  - assert (8 <= String.length "2025-05-02") as L1 by (simpl; lia).
    assert (8 <= String.length "2025-05-01") as L2 by (simpl; lia).
    destruct (Hok "2025-05-02" "2025-05-01"
                (mkdatetime 2025 5 2 0 0 0 0 None) (mkdatetime 2025 5 1 0 0 0 0 None)
                L1 L2 eq_refl eq_refl) as [H _].
    exact H.
Defined.

(** ** The carbon-intensity tools *)
Section ForecastLoop.
Variable str_index_error : string.













End ForecastLoop.

Section ForecastTools.
Context {Instant : Type}.
Variable parse : string -> outcome Instant.
Variable now : Instant.
Variable iso : Instant -> string.
Variable sie : string.

Lemma given_text (p : string) : p <> EmptyString -> given (Some p) = Some p.
Proof. destruct p; [congruence | reflexivity]. Qed.

Lemma given_outward (p g : string) :
  validate_and_parse_postcode (VStr p) = Some g ->
  given (validate_and_parse_postcode (VStr p)) = Some g
  /\ upper_alnum (decode g) = true
  /\ 2 <= len g <= 5.
Proof.
  intros H. destruct (result_is_outward _ _ H) as [q [E O]]. rewrite H.
  pose proof (spec_outward_upper_alnum q O) as A.
  pose proof (spec_outward_length q O) as L.
  subst g. unfold len. rewrite (upper_alnum_decoded q A).
  split; [|split; assumption].
  apply given_text. apply encode_nonempty. intros ->. simpl in L. lia.
Qed.


End ForecastTools.




(** The postcode tool: what is requested
    ([current_uk_grid_carbon_intensity_in_postcode]).  Without a postcode,
    or with an empty one, the answer is the postcode-not-found message; a
    postcode the validator rejects gives the invalid-postcode message that
    quotes it, and nothing is requested; otherwise the request goes to
    [/regional/postcode/] followed by the outward code, which is 2 to 5
    characters, each a capital letter A to Z or a decimal digit, whatever
    characters the postcode held. *)
Theorem current_postcode_request
    (report : string -> string -> string -> string) (post_code : option string) :
  (post_code = None \/ post_code = Some EmptyString ->
     current_uk_grid_carbon_intensity_in_postcode report post_code
     = "User postcode not found. Please provide a postcode or set the USER_POSTCODE environment variable on the MCP server")
  /\ (forall p, post_code = Some p -> p <> EmptyString ->
        validate_and_parse_postcode (VStr p) = None ->
        current_uk_grid_carbon_intensity_in_postcode report post_code
        = "Invalid UK postcode format: " ++ p ++ ". Please provide a valid UK postcode.")
  /\ (forall p g, post_code = Some p -> validate_and_parse_postcode (VStr p) = Some g ->
        upper_alnum (decode g) = true
        /\ 2 <= len g <= 5
        /\ current_uk_grid_carbon_intensity_in_postcode report post_code
           = report p g ("/regional/postcode/" ++ g)).
Proof.
  repeat match goal with |- _ /\ _ => split end.
  - intros [->| ->]; reflexivity.
  - intros p -> Hp Hv. unfold current_uk_grid_carbon_intensity_in_postcode.
    rewrite (given_text p Hp), Hv. reflexivity.
  - intros p g -> Hv. destruct (given_outward p g Hv) as [Hg [Hu Hl]].
    split; [exact Hu|]. split.
    + exact Hl.
    + unfold current_uk_grid_carbon_intensity_in_postcode.
      assert (p <> EmptyString) as Hp by (intros ->; discriminate Hv).
      now rewrite (given_text p Hp), Hg.
Qed.

(** A full postcode in lower case, and an injection attempt. *)
Lemma current_postcode_request_witness :
  current_uk_grid_carbon_intensity_in_postcode (fun full code endpoint => endpoint)
    (Some "sw1a 1aa")
  = "/regional/postcode/SW1A"
  /\ current_uk_grid_carbon_intensity_in_postcode (fun full code endpoint => endpoint)
       (Some "SW1A/../x")
     = "Invalid UK postcode format: SW1A/../x. Please provide a valid UK postcode.".
Proof.
  split.
  - destruct (current_postcode_request (fun full code endpoint => endpoint) (Some "sw1a 1aa"))
      as [_ [_ H]].
    destruct (H "sw1a 1aa" "SW1A" eq_refl eq_refl) as [_ [_ G]]. exact G.
  - destruct (current_postcode_request (fun full code endpoint => endpoint) (Some "SW1A/../x"))
      as [_ [H _]].
    apply (H "SW1A/../x"); [reflexivity | discriminate | reflexivity].
Defined.

(** The postcode forecast: what is requested
    ([carbon_intensity_history_and_forecast_for_postcode]).  A starting
    time that does not validate gives the invalid-datetime message whatever
    the postcode; the empty text is such a time, only a missing one means
    now.  A postcode that is given and rejected gives the invalid-postcode
    message and nothing is requested: the tool never falls back to national
    data.  Which request is made is read off a request that fails with its
    own endpoint as message: without a postcode it is
    [/intensity/<time>/fw<hours>h], with an accepted one
    [/regional/intensity/<time>/fw<hours>h/postcode/<outward code>], the
    outward code being capital letters A to Z and decimal digits only. *)
Theorem postcode_forecast_requests (Instant : Type)
    (parse : string -> outcome Instant) (now : Instant) (iso : Instant -> string)
    (sie : string) (from : option string) (hours : string) (postcode : option string) :
  (forall request, starting_from parse now from = None ->
     carbon_intensity_history_and_forecast_for_postcode parse now iso request sie
       from hours postcode
     = invalid_datetime)
  /\ starting_from parse now (Some EmptyString) = None
  /\ starting_from parse now None = Some now
  /\ (forall request dt p,
        starting_from parse now from = Some dt ->
        postcode = Some p -> p <> EmptyString ->
        validate_and_parse_postcode (VStr p) = None ->
        carbon_intensity_history_and_forecast_for_postcode parse now iso request sie
          from hours postcode
        = "Invalid UK postcode format: " ++ p ++ ". Please provide a valid UK postcode.")
  /\ (forall dt,
        starting_from parse now from = Some dt ->
        postcode = None \/ postcode = Some EmptyString ->
        carbon_intensity_history_and_forecast_for_postcode parse now iso
          (fun endpoint => Fail endpoint) sie from hours postcode
        = failure ("/intensity/" ++ iso dt ++ "/fw" ++ hours ++ "h"))
  /\ (forall dt p g,
        starting_from parse now from = Some dt ->
        postcode = Some p -> validate_and_parse_postcode (VStr p) = Some g ->
        upper_alnum (decode g) = true
        /\ carbon_intensity_history_and_forecast_for_postcode parse now iso
             (fun endpoint => Fail endpoint) sie from hours postcode
           = failure ("/regional/intensity/" ++ iso dt ++ "/fw" ++ hours
                        ++ "h/postcode/" ++ g)).
Proof.
  repeat match goal with |- _ /\ _ => split end.
  - intros request Hs. unfold carbon_intensity_history_and_forecast_for_postcode.
    now rewrite Hs.
  - reflexivity.
  - reflexivity.
  - intros request dt p Hs -> Hp Hv.
    unfold carbon_intensity_history_and_forecast_for_postcode.
    rewrite Hs, (given_text p Hp), Hv. reflexivity.
  - intros dt Hs [->| ->];
      unfold carbon_intensity_history_and_forecast_for_postcode; rewrite Hs; reflexivity.
  - intros dt p g Hs -> Hv. destruct (given_outward p g Hv) as [Hg [Hu _]].
    split; [exact Hu|].
    unfold carbon_intensity_history_and_forecast_for_postcode.
    assert (p <> EmptyString) as Hp by (intros ->; discriminate Hv).
    rewrite Hs, (given_text p Hp), Hg. reflexivity.
Qed.

(** A starting time with [Z] and a full postcode. *)
Lemma postcode_forecast_requests_witness :
  carbon_intensity_history_and_forecast_for_postcode iso_fromisoformat
    (mkdatetime 2025 5 1 1 0 0 0 None) (fun _ => "2025-05-01T01:00:00+00:00")
    (fun endpoint => Fail endpoint) "unused" (Some "2025-05-01T01:00Z") "48" (Some "m1 1aa")
  = "Failed to fetch carbon intensity forecast: /regional/intensity/2025-05-01T01:00:00+00:00/fw48h/postcode/M1".
Proof.
  destruct (postcode_forecast_requests datetime iso_fromisoformat
              (mkdatetime 2025 5 1 1 0 0 0 None) (fun _ => "2025-05-01T01:00:00+00:00")
              "unused" (Some "2025-05-01T01:00Z") "48" (Some "m1 1aa"))
    as [_ [_ [_ [_ [_ H]]]]].
  destruct (H (mkdatetime 2025 5 1 1 0 0 0 (Some 0%Z)) "m1 1aa" "M1" eq_refl eq_refl eq_refl)
    as [_ G].
  exact G.
Defined.



(** An answer without the key [data], such as an error object.  The
    national forecast reports that no data is available; the postcode
    forecast, with or without a postcode, reports a failure whose message
    is the quoted key. *)
Theorem answer_without_data_key (Instant : Type)
    (parse : string -> outcome Instant) (now : Instant) (iso : Instant -> string)
    (sie : string) (from : option string) (hours : string) (dt : Instant)
    (data : list (string * json)) :
  starting_from parse now from = Some dt ->
  data <> [] -> lookup data "data" = None ->
  (forall format_type,
      carbon_intensity_history_and_forecast_national parse now iso (fun _ => Ok data) sie
        from hours format_type
      = "No forecast data available for the specified parameters.")
  /\ carbon_intensity_history_and_forecast_for_postcode parse now iso (fun _ => Ok data) sie
       from hours None
     = "Failed to fetch carbon intensity forecast: 'data'"
  /\ (forall p g, validate_and_parse_postcode (VStr p) = Some g ->
      carbon_intensity_history_and_forecast_for_postcode parse now iso (fun _ => Ok data) sie
        from hours (Some p)
      = "Failed to fetch carbon intensity forecast: 'data'").
Proof.
  intros Hs Hne Hl. destruct data as [|kv data]; [congruence|].
  repeat match goal with |- _ /\ _ => split end.
  - intros format_type. unfold carbon_intensity_history_and_forecast_national.
    rewrite Hs. cbv zeta. cbn [and_then]. unfold has_key. rewrite Hl. reflexivity.
  - unfold carbon_intensity_history_and_forecast_for_postcode.
    rewrite Hs. cbn [given and_then]. unfold getitem. rewrite Hl. reflexivity.
  - intros p g Hv. destruct (given_outward p g Hv) as [Hg _].
    assert (p <> EmptyString) as Hp by (intros ->; discriminate Hv).
    unfold carbon_intensity_history_and_forecast_for_postcode.
    rewrite Hs, (given_text p Hp), Hg. cbn [and_then]. unfold getitem. rewrite Hl.
    reflexivity.
Qed.

(** An error object as the answer. *)
Lemma answer_without_data_key_witness :
  carbon_intensity_history_and_forecast_national iso_fromisoformat
    (mkdatetime 2025 5 1 1 0 0 0 None) (fun _ => "2025-05-01T01:00:00")
    (fun _ => Ok [("error", JStr "bad request")]) "unused" None "24" "table"
  = "No forecast data available for the specified parameters."
  /\ carbon_intensity_history_and_forecast_for_postcode iso_fromisoformat
       (mkdatetime 2025 5 1 1 0 0 0 None) (fun _ => "2025-05-01T01:00:00")
       (fun _ => Ok [("error", JStr "bad request")]) "unused" None "24" None
     = "Failed to fetch carbon intensity forecast: 'data'".
Proof.
  assert ([("error", JStr "bad request")] <> []) as Hne by discriminate.
  destruct (answer_without_data_key datetime iso_fromisoformat
              (mkdatetime 2025 5 1 1 0 0 0 None) (fun _ => "2025-05-01T01:00:00")
              "unused" None "24" (mkdatetime 2025 5 1 1 0 0 0 None)
              [("error", JStr "bad request")] eq_refl Hne eq_refl) as [H [G _]].
  split; [apply H | exact G].
Defined.
